(** * Medinow: the conversation state machine and its session manager

    A shallow embedding of [backend/agents/state_machine.py],
    [backend/agents/conversation.py] and the session part of
    [backend/storage/database.py].

    Python objects live in a store: dictionaries and lists are reached
    through references, so that two names for one dictionary see each
    other's updates, as in the interpreter.  Exceptions are results, and
    every method is a computation over the store that may raise. *)

From stdpp Require Import base strings list gmap.
From Stdlib Require Import ZArith.

(** ** Exceptions and the state-and-exception monad *)

Inductive exn :=
  | KeyError | TypeError | AttributeError | ValueError | IndexError
  | SystemError.

Inductive result (A : Type) :=
  | Ok (a : A)
  | Raise (e : exn).
Arguments Ok {A} a.
Arguments Raise {A} e.

(** A computation over a state [S]: it always yields the final state, also
    when it raises, because updates made before the exception stay. *)
Definition M (S A : Type) : Type := S -> S * result A.

Definition ret {S A} (a : A) : M S A := fun s => (s, Ok a).
Definition raise {S A} (e : exn) : M S A := fun s => (s, Raise e).
Definition bind {S A B} (m : M S A) (k : A -> M S B) : M S B :=
  fun s => match m s with
           | (s', Ok a) => k a s'
           | (s', Raise e) => (s', Raise e)
           end.
Definition gets {S A} (f : S -> A) : M S A := fun s => (s, Ok (f s)).
Definition modify {S} (f : S -> S) : M S unit := fun s => (f s, Ok tt).

(** [try: m except Exception: h] *)
Definition try_except {S A} (m : M S A) (h : exn -> M S A) : M S A :=
  fun s => match m s with
           | (s', Ok a) => (s', Ok a)
           | (s', Raise e) => h e s'
           end.

Declare Scope py_scope.
Delimit Scope py_scope with py.
Notation "x <- m ;; k" := (bind m (fun x => k))
  (at level 100, m at next level, right associativity) : py_scope.
Notation "m ;;; k" := (bind m (fun _ => k))
  (at level 100, right associativity) : py_scope.
Open Scope py_scope.

(** ** The enumeration of conversation states *)

Inductive ConversationState :=
  | IDLE | GREETING
  | COLLECTING_DATE | COLLECTING_TIME | SHOWING_AVAILABLE_SLOTS
  | COLLECTING_PATIENT_INFO | CONFIRMING_APPOINTMENT | BOOKING_APPOINTMENT
  | IDENTIFYING_USER | SHOWING_USER_APPOINTMENTS
  | SELECTING_APPOINTMENT_TO_CANCEL | CONFIRMING_CANCELLATION
  | CANCELLING_APPOINTMENT
  | SELECTING_APPOINTMENT_TO_RESCHEDULE | COLLECTING_NEW_DATE
  | COLLECTING_NEW_TIME | SHOWING_RESCHEDULE_SLOTS | CONFIRMING_RESCHEDULE
  | RESCHEDULING_APPOINTMENT
  | OFF_TOPIC.

(** The members in definition order, as iterating the Enum gives them. *)
Definition members : list ConversationState :=
  [ IDLE; GREETING;
    COLLECTING_DATE; COLLECTING_TIME; SHOWING_AVAILABLE_SLOTS;
    COLLECTING_PATIENT_INFO; CONFIRMING_APPOINTMENT; BOOKING_APPOINTMENT;
    IDENTIFYING_USER; SHOWING_USER_APPOINTMENTS;
    SELECTING_APPOINTMENT_TO_CANCEL; CONFIRMING_CANCELLATION;
    CANCELLING_APPOINTMENT;
    SELECTING_APPOINTMENT_TO_RESCHEDULE; COLLECTING_NEW_DATE;
    COLLECTING_NEW_TIME; SHOWING_RESCHEDULE_SLOTS; CONFIRMING_RESCHEDULE;
    RESCHEDULING_APPOINTMENT;
    OFF_TOPIC ].

(** [member.name] *)
Definition name (s : ConversationState) : string :=
  match s with
  | IDLE => "IDLE" | GREETING => "GREETING"
  | COLLECTING_DATE => "COLLECTING_DATE"
  | COLLECTING_TIME => "COLLECTING_TIME"
  | SHOWING_AVAILABLE_SLOTS => "SHOWING_AVAILABLE_SLOTS"
  | COLLECTING_PATIENT_INFO => "COLLECTING_PATIENT_INFO"
  | CONFIRMING_APPOINTMENT => "CONFIRMING_APPOINTMENT"
  | BOOKING_APPOINTMENT => "BOOKING_APPOINTMENT"
  | IDENTIFYING_USER => "IDENTIFYING_USER"
  | SHOWING_USER_APPOINTMENTS => "SHOWING_USER_APPOINTMENTS"
  | SELECTING_APPOINTMENT_TO_CANCEL => "SELECTING_APPOINTMENT_TO_CANCEL"
  | CONFIRMING_CANCELLATION => "CONFIRMING_CANCELLATION"
  | CANCELLING_APPOINTMENT => "CANCELLING_APPOINTMENT"
  | SELECTING_APPOINTMENT_TO_RESCHEDULE =>
      "SELECTING_APPOINTMENT_TO_RESCHEDULE"
  | COLLECTING_NEW_DATE => "COLLECTING_NEW_DATE"
  | COLLECTING_NEW_TIME => "COLLECTING_NEW_TIME"
  | SHOWING_RESCHEDULE_SLOTS => "SHOWING_RESCHEDULE_SLOTS"
  | CONFIRMING_RESCHEDULE => "CONFIRMING_RESCHEDULE"
  | RESCHEDULING_APPOINTMENT => "RESCHEDULING_APPOINTMENT"
  | OFF_TOPIC => "OFF_TOPIC"
  end.

(** The member map behind [ConversationState[key]]. *)
Definition member_named (n : string) : option ConversationState :=
  List.find (fun s => String.eqb (name s) n) members.

(** ** Values and the object store *)

Abbreviation loc := nat (only parsing).

(** [datetime.date] *)
Record date := Date { year : nat; month : nat; day : nat }.

(** What a variable, an attribute, a dictionary slot or a list cell holds.
    Immutable values are held directly; a dictionary or a list is held by
    reference. *)
Inductive val :=
  | VNone
  | VBool (b : bool)
  | VInt (z : Z)
  | VStr (s : string)
  | VDate (d : date)
  | VState (s : ConversationState)
  | VRef (l : loc).

#[global] Instance ConversationState_eq_dec : EqDecision ConversationState.
Proof. solve_decision. Defined.
#[global] Instance date_eq_dec : EqDecision date.
Proof. solve_decision. Defined.
#[global] Instance val_eq_dec : EqDecision val.
Proof. solve_decision. Defined.

(** A dictionary keeps its keys in insertion order; the keys used by this
    code are strings. *)
Inductive obj :=
  | ODict (kvs : list (string * val))
  | OList (xs : list val).

#[global] Instance obj_eq_dec : EqDecision obj.
Proof. solve_decision. Defined.

(** The store: an object's reference is its allocation index. *)
Abbreviation heap := (list obj).

Fixpoint dict_lookup {V} (k : string) (kvs : list (string * V)) : option V :=
  match kvs with
  | [] => None
  | (k', v) :: rest => if String.eqb k' k then Some v else dict_lookup k rest
  end.

(** [d[k] = v] on the entries: an existing key keeps its position. *)
Fixpoint dict_store {V} (k : string) (v : V) (kvs : list (string * V))
  : list (string * V) :=
  match kvs with
  | [] => [(k, v)]
  | (k', v') :: rest =>
      if String.eqb k' k then (k, v) :: rest
      else (k', v') :: dict_store k v rest
  end.

(** *** Store primitives *)

Definition alloc (o : obj) : M heap val :=
  fun h => (h ++ [o], Ok (VRef (length h))).

(** A reference always names a live object in the interpreter; the model
    answers [SystemError] for one that does not. *)
Definition deref (l : loc) : M heap obj :=
  fun h => match h !! l with
           | Some o => (h, Ok o)
           | None => (h, Raise SystemError)
           end.

Definition store (l : loc) (o : obj) : M heap unit :=
  modify (fun h => <[l := o]> h).

(** [target[k] = v] *)
Definition setitem (target : val) (k : string) (v : val) : M heap unit :=
  match target with
  | VRef l =>
      o <- deref l ;;
      match o with
      | ODict kvs => store l (ODict (dict_store k v kvs))
      | OList _ => raise TypeError
      end
  | _ => raise TypeError
  end.

(** [target[k]] with a string key *)
Definition getitem (target : val) (k : string) : M heap val :=
  match target with
  | VRef l =>
      o <- deref l ;;
      match o with
      | ODict kvs =>
          match dict_lookup k kvs with
          | Some v => ret v
          | None => raise KeyError
          end
      | OList _ => raise TypeError
      end
  | _ => raise TypeError
  end.

(** [target.get(k, default)] *)
Definition get_method (target : val) (k : string) (default : val)
  : M heap val :=
  match target with
  | VRef l =>
      o <- deref l ;;
      match o with
      | ODict kvs => ret (from_option id default (dict_lookup k kvs))
      | OList _ => raise AttributeError
      end
  | _ => raise AttributeError
  end.

(** [target.copy()]: a new object with the same entries; the entries
    themselves are not copied. *)
Definition copy_method (target : val) : M heap val :=
  match target with
  | VRef l => o <- deref l ;; alloc o
  | _ => raise AttributeError
  end.

(** [target.append(v)] *)
Definition append_method (target : val) (v : val) : M heap unit :=
  match target with
  | VRef l =>
      o <- deref l ;;
      match o with
      | OList xs => store l (OList (xs ++ [v]))
      | ODict _ => raise AttributeError
      end
  | _ => raise AttributeError
  end.

(** [target.pop()] with no argument *)
Definition pop_method (target : val) : M heap val :=
  match target with
  | VRef l =>
      o <- deref l ;;
      match o with
      | OList xs =>
          match last xs with
          | Some v => store l (OList (removelast xs)) ;;; ret v
          | None => raise IndexError
          end
      | ODict _ => raise TypeError
      end
  | _ => raise AttributeError
  end.

(** Truth value testing, as [if target:] does it. *)
Definition truthy (target : val) : M heap bool :=
  match target with
  | VNone => ret false
  | VBool b => ret b
  | VInt z => ret (negb (Z.eqb z 0))
  | VStr s => ret (negb (String.eqb s ""))
  | VDate _ => ret true
  | VState _ => ret true
  | VRef l =>
      o <- deref l ;;
      match o with
      | ODict kvs => ret (negb (Nat.eqb (length kvs) 0))
      | OList xs => ret (negb (Nat.eqb (length xs) 0))
      end
  end.

(** [len(target)] *)
Definition len (target : val) : M heap nat :=
  match target with
  | VStr s => ret (String.length s)
  | VRef l =>
      o <- deref l ;;
      match o with
      | ODict kvs => ret (length kvs)
      | OList xs => ret (length xs)
      end
  | _ => raise TypeError
  end.

(** [word in text] for two strings: [word] occurs in [text]. *)
Fixpoint is_infix (word text : string) : bool :=
  String.prefix word text
  || match text with
     | EmptyString => false
     | String _ rest => is_infix word rest
     end.

(** [k in target] with a string key: a key of a dictionary, an item of a
    list, a part of a string. *)
Definition contains (target : val) (k : string) : M heap bool :=
  match target with
  | VRef l =>
      o <- deref l ;;
      match o with
      | ODict kvs => ret (bool_decide (is_Some (dict_lookup k kvs)))
      | OList xs => ret (bool_decide (VStr k ∈ xs))
      end
  | VStr s => ret (is_infix k s)
  | _ => raise TypeError
  end.

(** [target.name]: among the values of the model, only an enumeration
    member has the attribute. *)
Definition name_attr {S} (target : val) : M S string :=
  match target with
  | VState s => ret (name s)
  | _ => raise AttributeError
  end.

(** [ConversationState[key]]: a string is looked up among the member
    names; any other hashable key is no member name either, and a
    dictionary or a list is not hashable. *)
Definition ConversationState_getitem {S} (key : val) : M S ConversationState :=
  match key with
  | VStr n =>
      match member_named n with
      | Some s => ret s
      | None => raise KeyError
      end
  | VRef _ => raise TypeError
  | _ => raise KeyError
  end.

(** ** [state_machine.py]: class [ConversationStateMachine] *)

(** The attributes of an instance.  Python does not type them: each holds
    whatever was last assigned. *)
Record machine := Machine {
  state : val;
  appointment_data : val;
  available_slots : val;
  selected_slot : val;
  context_stack : val;
  user_appointments : val
}.

#[global] Instance machine_eq_dec : EqDecision machine.
Proof. solve_decision. Defined.

(** A method runs on the store and on [self]. *)
Record cfg := Cfg { hp : heap; self : machine }.

Definition on_heap {A} (m : M heap A) : M cfg A :=
  fun c => let (h', r) := m (hp c) in (Cfg h' (self c), r).

(** Reading [self.f] *)
Definition attr {A} (f : machine -> A) : M cfg A :=
  gets (fun c => f (self c)).

(** Assigning [self.f = v] *)
Definition assign (upd : val -> machine -> machine) (v : val) : M cfg unit :=
  modify (fun c => Cfg (hp c) (upd v (self c))).

Definition with_state (v : val) (m : machine) : machine :=
  Machine v (appointment_data m) (available_slots m) (selected_slot m)
          (context_stack m) (user_appointments m).
Definition with_appointment_data (v : val) (m : machine) : machine :=
  Machine (state m) v (available_slots m) (selected_slot m)
          (context_stack m) (user_appointments m).
Definition with_available_slots (v : val) (m : machine) : machine :=
  Machine (state m) (appointment_data m) v (selected_slot m)
          (context_stack m) (user_appointments m).
Definition with_selected_slot (v : val) (m : machine) : machine :=
  Machine (state m) (appointment_data m) (available_slots m) v
          (context_stack m) (user_appointments m).
Definition with_context_stack (v : val) (m : machine) : machine :=
  Machine (state m) (appointment_data m) (available_slots m)
          (selected_slot m) v (user_appointments m).
Definition with_user_appointments (v : val) (m : machine) : machine :=
  Machine (state m) (appointment_data m) (available_slots m)
          (selected_slot m) (context_stack m) v.

(** [ConversationStateMachine()] *)
Definition __init__ : M heap machine :=
  ad <- alloc (ODict []) ;;
  av <- alloc (OList []) ;;
  cs <- alloc (OList []) ;;
  ua <- alloc (OList []) ;;
  ret (Machine (VState IDLE) ad av VNone cs ua).

(** The [print] of [transition_to] formats both names before the
    assignment. *)
Definition transition_to (new_state : val) : M cfg unit :=
  old <- attr state ;;
  _ <- name_attr old ;;
  _ <- name_attr new_state ;;
  assign with_state new_state.

Definition get_state : M cfg val := attr state.

Definition set_appointment_data (key : string) (value : val) : M cfg unit :=
  d <- attr appointment_data ;;
  on_heap (setitem d key value).

Definition get_appointment_data (key : string) : M cfg val :=
  d <- attr appointment_data ;;
  on_heap (get_method d key VNone).

Definition clear_appointment_data : M cfg unit :=
  d <- on_heap (alloc (ODict [])) ;;
  assign with_appointment_data d ;;;
  l <- on_heap (alloc (OList [])) ;;
  assign with_available_slots l ;;;
  assign with_selected_slot VNone.

Definition set_available_slots (slots : val) : M cfg unit :=
  assign with_available_slots slots.

Definition get_available_slots : M cfg val := attr available_slots.

Definition set_selected_slot (slot : val) : M cfg unit :=
  assign with_selected_slot slot.

Definition get_selected_slot : M cfg val := attr selected_slot.

(** [all(key in self.appointment_data for key in required_fields)] stops
    at the first key that is missing. *)
Fixpoint all_in (d : val) (keys : list string) : M heap bool :=
  match keys with
  | [] => ret true
  | k :: rest =>
      b <- contains d k ;;
      if b : bool then all_in d rest else ret false
  end.

Definition required_fields : list string :=
  ["date"; "time"; "patient_name"; "patient_email"].

Definition is_appointment_complete : M cfg bool :=
  d <- attr appointment_data ;;
  on_heap (all_in d required_fields).

(** [now] is the text [datetime.now().isoformat()] gives at the call. *)
Definition save_context (now : string) : M cfg unit :=
  st <- attr state ;;
  ad <- attr appointment_data ;;
  ad' <- on_heap (copy_method ad) ;;
  av <- attr available_slots ;;
  av' <- on_heap (copy_method av) ;;
  sel <- attr selected_slot ;;
  ua <- attr user_appointments ;;
  ua' <- on_heap (copy_method ua) ;;
  context <- on_heap (alloc (ODict
    [ ("state", st);
      ("appointment_data", ad');
      ("available_slots", av');
      ("selected_slot", sel);
      ("user_appointments", ua');
      ("timestamp", VStr now) ])) ;;
  cs <- attr context_stack ;;
  on_heap (append_method cs context) ;;;
  cs' <- attr context_stack ;;
  _ <- on_heap (len cs') ;;
  ret tt.

(** The log line after the assignments formats [self.state.name]. *)
Definition restore_context : M cfg bool :=
  cs <- attr context_stack ;;
  b <- on_heap (truthy cs) ;;
  if b : bool then
    cs <- attr context_stack ;;
    context <- on_heap (pop_method cs) ;;
    v <- on_heap (getitem context "state") ;;
    assign with_state v ;;;
    v <- on_heap (getitem context "appointment_data") ;;
    assign with_appointment_data v ;;;
    v <- on_heap (getitem context "available_slots") ;;
    assign with_available_slots v ;;;
    v <- on_heap (getitem context "selected_slot") ;;
    assign with_selected_slot v ;;;
    v <- on_heap (getitem context "user_appointments") ;;
    assign with_user_appointments v ;;;
    st <- attr state ;;
    _ <- name_attr st ;;
    ret true
  else ret false.

Definition has_saved_context : M cfg bool :=
  cs <- attr context_stack ;;
  n <- on_heap (len cs) ;;
  ret (bool_decide (0 < n)).

Definition set_user_appointments (appointments : val) : M cfg unit :=
  assign with_user_appointments appointments.

Definition get_user_appointments : M cfg val := attr user_appointments.

(** The dictionary returned holds the very objects of the machine, not
    copies of them. *)
Definition to_dict : M cfg val :=
  st <- attr state ;;
  n <- name_attr st ;;
  ad <- attr appointment_data ;;
  av <- attr available_slots ;;
  sel <- attr selected_slot ;;
  cs <- attr context_stack ;;
  ua <- attr user_appointments ;;
  on_heap (alloc (ODict
    [ ("state", VStr n);
      ("appointment_data", ad);
      ("available_slots", av);
      ("selected_slot", sel);
      ("context_stack", cs);
      ("user_appointments", ua) ])).

(** A class method: it builds a new instance.  Each default of a [get] is
    evaluated, hence allocated, before the call. *)
Definition from_dict (data : val) : M heap machine :=
  machine <- __init__ ;;
  v <- get_method data "state" (VStr "IDLE") ;;
  s <- ConversationState_getitem v ;;
  let machine := with_state (VState s) machine in
  dflt <- alloc (ODict []) ;;
  v <- get_method data "appointment_data" dflt ;;
  let machine := with_appointment_data v machine in
  dflt <- alloc (OList []) ;;
  v <- get_method data "available_slots" dflt ;;
  let machine := with_available_slots v machine in
  v <- get_method data "selected_slot" VNone ;;
  let machine := with_selected_slot v machine in
  dflt <- alloc (OList []) ;;
  v <- get_method data "context_stack" dflt ;;
  let machine := with_context_stack v machine in
  dflt <- alloc (OList []) ;;
  v <- get_method data "user_appointments" dflt ;;
  let machine := with_user_appointments v machine in
  ret machine.

(** ** The value an object graph denotes *)

Set Warnings "-register-all".

(** The value reached from a reference, with every reference followed:
    what [==] compares and what an encoder walks. *)
Inductive pyval :=
  | PNone
  | PBool (b : bool)
  | PInt (z : Z)
  | PStr (s : string)
  | PDate (d : date)
  | PState (s : ConversationState)
  | PList (items : list pyval)
  | PDict (entries : list (string * pyval)).

(** [n] bounds the nesting followed.  A graph that nests deeper than the
    store has objects goes through some object twice: it is circular, and
    has no value. *)
Fixpoint reify (n : nat) (h : heap) (v : val) : option pyval :=
  match v with
  | VNone => Some PNone
  | VBool b => Some (PBool b)
  | VInt z => Some (PInt z)
  | VStr s => Some (PStr s)
  | VDate d => Some (PDate d)
  | VState s => Some (PState s)
  | VRef l =>
      match n with
      | 0 => None
      | S n' =>
          match h !! l with
          | Some (OList xs) => PList <$> mapM (reify n' h) xs
          | Some (ODict kvs) =>
              PDict <$> mapM (fun kv => pair kv.1 <$> reify n' h kv.2) kvs
          | None => None
          end
      end
  end.

Definition value_of (h : heap) (v : val) : option pyval :=
  reify (S (length h)) h v.

(** ** [json] and the [DateTimeEncoder] of [database.py] *)

(** A JSON document.  The text of a document and its parsing belong to the
    [json] library; a stored text is identified with the document it
    denotes. *)
Inductive json :=
  | JNull
  | JBool (b : bool)
  | JInt (z : Z)
  | JStr (s : string)
  | JArr (items : list json)
  | JObj (fields : list (string * json)).

(** [date.isoformat()]: [YYYY-MM-DD] *)
Definition digit (n : nat) : Ascii.ascii := Ascii.ascii_of_nat (48 + n mod 10).
Definition zero_pad2 (n : nat) : string :=
  String (digit (n / 10)) (String (digit n) "").
Definition zero_pad4 (n : nat) : string :=
  String (digit (n / 1000)) (String (digit (n / 100)) (zero_pad2 n)).
Definition isoformat (d : date) : string :=
  zero_pad4 (year d) +:+ "-" +:+ zero_pad2 (month d) +:+ "-"
  +:+ zero_pad2 (day d).

Module DateTimeEncoder.
(** [default(obj)] is called for a value the library cannot encode: a
    date becomes its text, and for anything else the base class raises
    [TypeError] ([None] here). *)
Definition default (obj : pyval) : option json :=
  match obj with
  | PDate d => Some (JStr (isoformat d))
  | _ => None
  end.

Fixpoint encode (p : pyval) : option json :=
  match p with
  | PNone => Some JNull
  | PBool b => Some (JBool b)
  | PInt z => Some (JInt z)
  | PStr s => Some (JStr s)
  | PList items => JArr <$> mapM encode items
  | PDict entries =>
      JObj <$> mapM (fun kv => pair kv.1 <$> encode kv.2) entries
  | PDate _ | PState _ => default p
  end.
End DateTimeEncoder.

(** [json.dumps(v, cls=DateTimeEncoder)]: [ValueError] on a circular
    structure, [TypeError] on a value that is not serializable.  For a
    structure that is both, the library raises the one it meets first
    and the model [ValueError]; the callers catch the two alike. *)
Definition json_dumps (v : val) : M heap json :=
  fun h =>
    match value_of h v with
    | None => (h, Raise ValueError)
    | Some p =>
        match DateTimeEncoder.encode p with
        | Some j => (h, Ok j)
        | None => (h, Raise TypeError)
        end
    end.

(** [json.loads] on a document: arrays become new lists, objects new
    dictionaries, where a repeated key keeps its last value. *)
Fixpoint json_loads (j : json) : M heap val :=
  match j with
  | JNull => ret VNone
  | JBool b => ret (VBool b)
  | JInt z => ret (VInt z)
  | JStr s => ret (VStr s)
  | JArr items =>
      xs <- (fix go (l : list json) : M heap (list val) :=
               match l with
               | [] => ret []
               | j' :: rest =>
                   v <- json_loads j' ;;
                   vs <- go rest ;;
                   ret (v :: vs)
               end) items ;;
      alloc (OList xs)
  | JObj fields =>
      kvs <- (fix go (l : list (string * json)) : M heap (list (string * val)) :=
                match l with
                | [] => ret []
                | (k, j') :: rest =>
                    v <- json_loads j' ;;
                    kvs <- go rest ;;
                    ret ((k, v) :: kvs)
                end) fields ;;
      alloc (ODict (fold_left (fun d kv => dict_store kv.1 kv.2 d) kvs []))
  end.

(** ** [database.py]: the [sessions] table of class [Database] *)

(** A [TEXT] column that holds JSON: absent or empty, the text of a
    document, or a text that does not parse. *)
Inductive cell :=
  | Null
  | Text (doc : json)
  | Malformed.

(** A row of [sessions]; the two time stamps are not read by the code
    modelled here. *)
Record row := Row {
  row_phone_number : string;
  row_state : string;
  row_appointment_data : cell;
  row_context_stack : cell
}.

(** The dictionary [get_session] returns, by the keys its caller reads. *)
Record session_dict := SessionDict {
  sd_state : string;
  sd_appointment_data : val;
  sd_context_stack : val
}.

(** The process: the object store, the state-machine instances (an
    instance is named by its index), the session table of the database,
    and the attributes of the one [ConversationManager]. *)
Record world := World {
  objects : heap;
  instances : list machine;
  table : gmap string row;
  sessions : gmap string nat;
  enable_persistence : bool
}.

Definition on_objects {A} (m : M heap A) : M world A :=
  fun w =>
    let (h', r) := m (objects w) in
    (World h' (instances w) (table w) (sessions w) (enable_persistence w), r).

(** A method call on the instance [i]. *)
Definition on_instance {A} (i : nat) (m : M cfg A) : M world A :=
  fun w =>
    match instances w !! i with
    | None => (w, Raise SystemError)
    | Some self0 =>
        let (c', r) := m (Cfg (objects w) self0) in
        (World (hp c') (<[i := self c']> (instances w)) (table w)
               (sessions w) (enable_persistence w), r)
    end.

(** [ConversationStateMachine()] as a fresh instance. *)
Definition new_instance : M world nat :=
  m <- on_objects __init__ ;;
  fun w =>
    (World (objects w) (instances w ++ [m]) (table w) (sessions w)
           (enable_persistence w),
     Ok (length (instances w))).

Definition set_table (f : gmap string row -> gmap string row) : M world unit :=
  modify (fun w =>
    World (objects w) (instances w) (f (table w)) (sessions w)
          (enable_persistence w)).

Definition set_sessions (f : gmap string nat -> gmap string nat)
  : M world unit :=
  modify (fun w =>
    World (objects w) (instances w) (table w) (f (sessions w))
          (enable_persistence w)).

Module Database.

(** [INSERT ... ON CONFLICT(session_id) DO UPDATE SET state, appointment_data,
    context_stack]: an existing row keeps its phone number. *)
Definition upsert (session_id phone_number state : string)
    (appointment_data_json context_stack_json : json)
    (t : gmap string row) : gmap string row :=
  match t !! session_id with
  | Some r =>
      <[session_id := Row (row_phone_number r) state
                          (Text appointment_data_json)
                          (Text context_stack_json)]> t
  | None =>
      <[session_id := Row phone_number state
                          (Text appointment_data_json)
                          (Text context_stack_json)]> t
  end.

Definition save_session (session_id phone_number state : string)
    (appointment_data context_stack : val) : M world bool :=
  try_except
    (appointment_data_json <- on_objects (json_dumps appointment_data) ;;
     context_stack_json <- on_objects (json_dumps context_stack) ;;
     set_table (upsert session_id phone_number state
                       appointment_data_json context_stack_json) ;;;
     ret true)
    (fun _ => ret false).

(** [json.loads(column or '{}')] *)
Definition load_cell (c : cell) (empty : json) : M heap val :=
  match c with
  | Null => json_loads empty
  | Text doc => json_loads doc
  | Malformed => raise ValueError
  end.

Definition get_session (session_id : string)
  : M world (option session_dict) :=
  try_except
    (t <- gets table ;;
     match t !! session_id with
     | Some r =>
         ad <- on_objects (load_cell (row_appointment_data r) (JObj [])) ;;
         cs <- on_objects (load_cell (row_context_stack r) (JArr [])) ;;
         ret (Some (SessionDict (row_state r) ad cs))
     | None => ret None
     end)
    (fun _ => ret None).

Definition delete_session (session_id : string) : M world bool :=
  set_table (delete session_id) ;;; ret true.

End Database.

(** ** [conversation.py]: class [ConversationManager] *)

Module ConversationManager.

Definition get_or_create_session (session_id phone_number : string)
  : M world nat :=
  cache <- gets sessions ;;
  match cache !! session_id with
  | Some state_machine => ret state_machine
  | None =>
      persist <- gets enable_persistence ;;
      restored <-
        (if persist : bool then
           try_except
             (session_data <- Database.get_session session_id ;;
              match session_data with
              | Some sd =>
                  state_machine <- new_instance ;;
                  s <- ConversationState_getitem (VStr (sd_state sd)) ;;
                  on_instance state_machine
                    (assign with_state (VState s)) ;;;
                  on_instance state_machine
                    (assign with_appointment_data
                            (sd_appointment_data sd)) ;;;
                  on_instance state_machine
                    (assign with_context_stack (sd_context_stack sd)) ;;;
                  set_sessions (insert session_id state_machine) ;;;
                  ret (Some state_machine)
              | None => ret None
              end)
             (fun _ => ret None)
         else ret None) ;;
      match restored with
      | Some state_machine => ret state_machine
      | None =>
          state_machine <- new_instance ;;
          set_sessions (insert session_id state_machine) ;;;
          ret state_machine
      end
  end.

Definition save_session (session_id phone_number : string)
    (state_machine : nat) : M world unit :=
  persist <- gets enable_persistence ;;
  if negb persist then ret tt
  else
    try_except
      (st <- on_instance state_machine (attr state) ;;
       n <- name_attr st ;;
       ad <- on_instance state_machine (attr appointment_data) ;;
       cs <- on_instance state_machine (attr context_stack) ;;
       _ <- Database.save_session session_id phone_number n ad cs ;;
       ret tt)
      (fun _ => ret tt).

Definition clear_session (session_id : string) : M world unit :=
  set_sessions (delete session_id) ;;;
  persist <- gets enable_persistence ;;
  if persist : bool then
    try_except (_ <- Database.delete_session session_id ;; ret tt)
               (fun _ => ret tt)
  else ret tt.

End ConversationManager.

(** ** Machines used as examples *)

(** A machine just built: the outcome of [ConversationStateMachine()] in
    an empty store. *)
Definition initial_cfg : cfg :=
  Cfg [ODict []; OList []; OList []; OList []]
      (Machine (VState IDLE) (VRef 0) (VRef 1) VNone (VRef 2) (VRef 3)).

(** The same machine once the dialogue has reached the date question. *)
Definition collecting_date_cfg : cfg :=
  Cfg [ODict []; OList []; OList []; OList []]
      (Machine (VState COLLECTING_DATE) (VRef 0) (VRef 1) VNone (VRef 2)
               (VRef 3)).

(** ** Observing the context stack *)

(** The object a value refers to. *)
Definition target (h : heap) (v : val) : option obj :=
  match v with
  | VRef l => h !! l
  | _ => None
  end.

(** [self.context_stack[-1]] *)
Definition top_snapshot (c : cfg) : option val :=
  match target (hp c) (context_stack (self c)) with
  | Some (OList xs) => last xs
  | _ => None
  end.

(** The value of the snapshot on top of the stack, every reference
    followed. *)
Definition top_snapshot_value (c : cfg) : option pyval :=
  match top_snapshot c with
  | Some snap => value_of (hp c) snap
  | None => None
  end.

(** The snapshot on top of the stack one level deep: its own entries, and
    the contents of the three containers [save_context] copied into it. *)
Definition snapshot_view (c : cfg)
  : option (list (string * val) * option obj * option obj * option obj) :=
  match top_snapshot c with
  | Some snap =>
      match target (hp c) snap with
      | Some (ODict entries) =>
          Some (entries,
                dict_lookup "appointment_data" entries ≫= target (hp c),
                dict_lookup "available_slots" entries ≫= target (hp c),
                dict_lookup "user_appointments" entries ≫= target (hp c))
      | _ => None
      end
  | None => None
  end.

(** The calls by which a caller changes the live record between a
    [save_context] and the matching [restore_context]. *)
Inductive mutation :=
  | SetAppointmentData (key : string) (value : val)
  | ClearAppointmentData
  | SetAvailableSlots (slots : val)
  | SetSelectedSlot (slot : val)
  | SetUserAppointments (appointments : val)
  | TransitionTo (new_state : val).

Definition apply_mutation (u : mutation) : M cfg unit :=
  match u with
  | SetAppointmentData key value => set_appointment_data key value
  | ClearAppointmentData => clear_appointment_data
  | SetAvailableSlots slots => set_available_slots slots
  | SetSelectedSlot slot => set_selected_slot slot
  | SetUserAppointments appointments => set_user_appointments appointments
  | TransitionTo new_state => transition_to new_state
  end.

Fixpoint apply_mutations (us : list mutation) : M cfg unit :=
  match us with
  | [] => ret tt
  | u :: rest => apply_mutation u ;;; apply_mutations rest
  end.

(** *** Changes made in place

    A caller that holds one of the three containers of the machine
    ([machine.appointment_data], [machine.get_available_slots()],
    [machine.get_user_appointments()]) can change it in place:
    [append], [pop], [clear], [update], an item assignment or deletion.
    The object stays the same object, of the same kind, and holds other
    contents.  The model takes the contents after the operation as
    given. *)
Inductive container := AppointmentData | AvailableSlots | UserAppointments.

Definition held (k : container) : machine -> val :=
  match k with
  | AppointmentData => appointment_data
  | AvailableSlots => available_slots
  | UserAppointments => user_appointments
  end.

Definition same_kind (o o' : obj) : bool :=
  match o, o' with
  | ODict _, ODict _ => true
  | OList _, OList _ => true
  | _, _ => false
  end.

(** An operation on [target] after which it holds [contents].  No
    operation makes a list of a dictionary, and a value that is not a
    container has none that changes it. *)
Definition change_in_place (target : val) (contents : obj) : M heap unit :=
  match target with
  | VRef l =>
      o <- deref l ;;
      if same_kind o contents then store l contents else raise TypeError
  | _ => raise AttributeError
  end.

(** What a caller does to the live record: a call of the class, or a
    change in place of a container the machine holds. *)
Inductive change :=
  | Call (u : mutation)
  | InPlace (k : container) (contents : obj).

Definition apply_change (ch : change) : M cfg unit :=
  match ch with
  | Call u => apply_mutation u
  | InPlace k contents =>
      target <- attr (held k) ;;
      on_heap (change_in_place target contents)
  end.

Fixpoint apply_changes (chs : list change) : M cfg unit :=
  match chs with
  | [] => ret tt
  | ch :: rest => apply_change ch ;;; apply_changes rest
  end.

(** The objects the snapshot on top of the stack is made of: the stack,
    the snapshot, and its copies of the three containers. *)
Definition snapshot_objects (c : cfg) : list val :=
  context_stack (self c) ::
  match top_snapshot c with
  | Some snap =>
      snap ::
      match target (hp c) snap with
      | Some (ODict entries) =>
          omap (fun k => dict_lookup k entries)
               ["appointment_data"; "available_slots"; "user_appointments"]
      | _ => []
      end
  | None => []
  end.

(** The three containers the machine holds are objects of the store, and
    none of them is its context stack. *)
Definition separate (c : cfg) : Prop :=
  forall k, is_Some (target (hp c) (held k (self c)))
            /\ held k (self c) ≠ context_stack (self c).

(** The caller does not hand one of the objects [vs] to the machine as
    its new list of slots or of appointments. *)
Definition keeps_out (vs : list val) (ch : change) : bool :=
  match ch with
  | Call (SetAvailableSlots v) => bool_decide (v ∉ vs)
  | Call (SetUserAppointments v) => bool_decide (v ∉ vs)
  | _ => true
  end.

(** A caller that changes a stored value in place:
    [machine.get_appointment_data(key)[inner] = value]. *)
Definition set_nested (key inner : string) (value : val) : M cfg unit :=
  stored <- get_appointment_data key ;;
  on_heap (setitem stored inner value).

(** A machine whose data holds a structured value: the chosen slot, a
    dictionary of its own. *)
Definition slot_cfg : cfg :=
  Cfg [ODict [("slot", VRef 4)]; OList []; OList []; OList [];
       ODict [("start", VStr "2025-11-15T09:00:00")]]
      (Machine (VState COLLECTING_PATIENT_INFO) (VRef 0) (VRef 1) VNone
               (VRef 2) (VRef 3)).

(** ** What the JSON functions denote *)

(** The two loops of [json_loads], by name. *)
Fixpoint loads_items (l : list json) : M heap (list val) :=
  match l with
  | [] => ret []
  | j :: rest =>
      v <- json_loads j ;;
      vs <- loads_items rest ;;
      ret (v :: vs)
  end.

Fixpoint loads_fields (l : list (string * json)) : M heap (list (string * val)) :=
  match l with
  | [] => ret []
  | (k, j) :: rest =>
      v <- json_loads j ;;
      kvs <- loads_fields rest ;;
      ret ((k, v) :: kvs)
  end.

(** Entries added one by one to an empty dictionary. *)
Definition dict_of {V} (kvs : list (string * V)) : list (string * V) :=
  fold_left (fun d kv => dict_store kv.1 kv.2 d) kvs [].

(** The value of what [json_loads] builds from a document. *)
Fixpoint decode (j : json) : pyval :=
  match j with
  | JNull => PNone
  | JBool b => PBool b
  | JInt z => PInt z
  | JStr s => PStr s
  | JArr items => PList (map decode items)
  | JObj fields => PDict (dict_of (map (fun kv => (kv.1, decode kv.2)) fields))
  end.

(** Nesting depth of a document. *)
Fixpoint depth (j : json) : nat :=
  match j with
  | JArr items => S (max_list (map depth items))
  | JObj fields => S (max_list (map (fun kv => depth kv.2) fields))
  | _ => 0
  end.

(** No object of the document repeats a key. *)
Fixpoint distinct_keys (j : json) : Prop :=
  match j with
  | JArr items => foldr (fun j' P => distinct_keys j' /\ P) True items
  | JObj fields =>
      NoDup fields.*1
      /\ foldr (fun kv P => distinct_keys kv.2 /\ P) True fields
  | _ => True
  end.

Fixpoint pdistinct_keys (p : pyval) : Prop :=
  match p with
  | PList items => foldr (fun p' P => pdistinct_keys p' /\ P) True items
  | PDict entries =>
      NoDup entries.*1
      /\ foldr (fun kv P => pdistinct_keys kv.2 /\ P) True entries
  | _ => True
  end.

(** A dictionary has each key once: an invariant of the interpreter. *)
Definition heap_wf (h : heap) : Prop :=
  Forall (fun o => match o with
                   | ODict kvs => NoDup kvs.*1
                   | OList _ => True
                   end) h.

(** A snapshot as [save_context] pushes it: a dictionary whose ['state']
    is the enumeration member itself. *)
Definition pushed_snapshot (h : heap) (v : val) : Prop :=
  exists l kvs s,
    v = VRef l /\ h !! l = Some (ODict kvs)
    /\ dict_lookup "state" kvs = Some (VState s).

(** ** Comparing machines, and a process restart *)

(** Two machines, each in its store, are logically equal: attribute by
    attribute they hold the same value. *)
Definition machine_equal (h : heap) (m : machine) (h' : heap) (m' : machine)
  : Prop :=
  value_of h (state m) = value_of h' (state m')
  /\ value_of h (appointment_data m) = value_of h' (appointment_data m')
  /\ value_of h (available_slots m) = value_of h' (available_slots m')
  /\ value_of h (selected_slot m) = value_of h' (selected_slot m')
  /\ value_of h (context_stack m) = value_of h' (context_stack m')
  /\ value_of h (user_appointments m) = value_of h' (user_appointments m').

(** A new process: the database file is what remains. *)
Definition restart (w : world) : world :=
  World [] [] (table w) ∅ (enable_persistence w).

(** ** Worlds used as examples *)

(** A session that has just been offered its slots and has picked the
    first: the date is a [date], the slot a dictionary shared by
    [available_slots] and [selected_slot]. *)
Definition booking_world : world :=
  World [ ODict [("date", VDate (Date 2025 11 15)); ("time", VStr "09:00")];
          OList [VRef 4];
          OList [];
          OList [];
          ODict [("start", VStr "2025-11-15T09:00:00");
                 ("end", VStr "2025-11-15T09:30:00");
                 ("available", VBool true)] ]
        [ Machine (VState COLLECTING_PATIENT_INFO) (VRef 0) (VRef 1) (VRef 4)
                  (VRef 2) (VRef 3) ]
        ∅
        {["+5511999999999" := 0]}
        true.

(** A session suspended by [save_context]. *)
Definition suspended_world : world :=
  World [ ODict [("time", VStr "14:00")];
          OList [];
          OList [VRef 7];
          OList [];
          ODict [("time", VStr "14:00")];
          OList [];
          OList [];
          ODict [("state", VState COLLECTING_DATE);
                 ("appointment_data", VRef 4);
                 ("available_slots", VRef 5);
                 ("selected_slot", VNone);
                 ("user_appointments", VRef 6);
                 ("timestamp", VStr "2025-11-05T10:00:00")] ]
        [ Machine (VState OFF_TOPIC) (VRef 0) (VRef 1) VNone (VRef 2)
                  (VRef 3) ]
        ∅
        {["+5511999999999" := 0]}
        true.

(** A database whose record for the key names no state. *)
Definition corrupt_world : world :=
  World [] []
        {["+5511999999999" :=
            Row "+5511999999999" "NOT_A_REAL_STATE"
                (Text (JObj [])) (Text (JArr []))]}
        ∅
        true.

(** ** Notions used by the proofs *)

(** No container the machine holds is among the protected objects
    [P]. *)
Definition unprotected (P : loc -> Prop) (c : cfg) : Prop :=
  forall k a, held k (self c) = VRef a -> ~ P a.

(** The live dictionary is not among the protected objects [P]; a
    protected object the data attribute names can only be a list, which
    [setitem] does not write to. *)
Definition guarded (P : loc -> Prop) (c : cfg) : Prop :=
  forall a, appointment_data (self c) = VRef a -> P a ->
            exists xs, hp c !! a = Some (OList xs).


(** What [json_loads] does: it only allocates, at least one object per
    level of nesting, and the value of what it returns is [decode j] in
    every later store. *)
Definition loads_spec (j : json) : Prop :=
  forall h, exists ext v,
    json_loads j h = (h ++ ext, Ok v)
    /\ depth j <= length ext
    /\ forall n ext', depth j <= n ->
         reify n (h ++ ext ++ ext') v = Some (decode j).


(** An entry of a dictionary and the entry of its value. *)
Definition entry_rel {V W} (g : V -> option W)
    (kv : string * V) (pe : string * W) : Prop :=
  pair kv.1 <$> g kv.2 = Some pe.

(** Calls of [get_or_create_session] for one key made one after another,
    each running to its end before the next starts. *)
Fixpoint resolve_in_turn (session_id : string) (callers : list string)
  : M world (list nat) :=
  match callers with
  | [] => ret []
  | phone_number :: rest =>
      i <- ConversationManager.get_or_create_session session_id phone_number ;;
      others <- resolve_in_turn session_id rest ;;
      ret (i :: others)
  end.

(** ** Values without a name *)

(** The values that have no [name] attribute: [None], a Boolean, an
    integer, a string, a date, a dictionary or a list.  Together with the
    members of [ConversationState] they are the values of the model; an
    object of another class that has a [name], such as a member of another
    enumeration, is not among them. *)
Definition nameless (v : val) : Prop :=
  match v with
  | VNone | VBool _ | VInt _ | VStr _ | VDate _ | VRef _ => True
  | VState _ => False
  end.

(** ** The life of a machine *)

(** The calls of the class that change a machine. *)
Inductive call :=
  | Mutate (u : mutation)
  | SaveContext (now : string)
  | RestoreContext.

Definition run_call (k : call) : M cfg unit :=
  match k with
  | Mutate u => apply_mutation u
  | SaveContext now => save_context now
  | RestoreContext => (_ <- restore_context ;; ret tt)
  end.

(** A machine built by the constructor and then changed only through its
    methods, while its caller may allocate objects of its own.  The
    arguments of the calls are values of the model: members of
    [ConversationState] and values that have no [name] ([None], Booleans,
    integers, strings, dates, dictionaries, lists). *)
Inductive reachable : cfg -> Prop :=
  | reachable_new h h' m :
      __init__ h = (h', Ok m) -> reachable (Cfg h' m)
  | reachable_alloc c o :
      reachable c -> reachable (Cfg (hp c ++ [o]) (self c))
  | reachable_call c k c' r :
      reachable c -> run_call k c = (c', r) -> reachable c'.

(** A snapshot of the stack [stack]: a dictionary with the five entries
    [restore_context] reads, whose state is a member and whose data is a
    live dictionary that is not itself a snapshot of the stack. *)
Definition snapshot_ok (h : heap) (stack : list val) (x : val) : Prop :=
  exists t es s ad av sel ua,
    x = VRef t /\ h !! t = Some (ODict es)
    /\ dict_lookup "state" es = Some (VState s)
    /\ dict_lookup "appointment_data" es = Some (VRef ad)
    /\ is_Some (h !! ad) /\ (VRef ad ∉ stack)
    /\ dict_lookup "available_slots" es = Some av
    /\ dict_lookup "selected_slot" es = Some sel
    /\ dict_lookup "user_appointments" es = Some ua.

(** What every reachable machine satisfies. *)
Definition machine_inv (c : cfg) : Prop :=
  (exists s, state (self c) = VState s)
  /\ exists cs stack a,
       context_stack (self c) = VRef cs
       /\ hp c !! cs = Some (OList stack)
       /\ Forall (snapshot_ok (hp c) stack) stack
       /\ appointment_data (self c) = VRef a
       /\ is_Some (hp c !! a)
       /\ (VRef a ∉ stack).

(** A value that is not a dangling reference. *)
Definition live (h : heap) (v : val) : Prop :=
  match v with
  | VRef l => is_Some (h !! l)
  | _ => True
  end.

(** A world with persistence switched off, whose table still holds a
    record. *)
Definition offline_world : world :=
  World [] []
        {["+5511999999999" :=
            Row "+5511999999999" "GREETING" (Text (JObj [])) (Text (JArr []))]}
        ∅
        false.

(** ** [conversation.py]: [handle_incoming_message] *)

Section Driver.

(** [handle_message(state_machine, message_text, phone_number)] of
    [message_handlers.py], the dialogue step: it works on the machine it
    is given, returns the reply and may raise. *)
Variable handle_message : string -> string -> M cfg string.

Definition handle_incoming_message (session_id message_text : string)
  : M world string :=
  let phone_number := session_id in
  state_machine <-
    ConversationManager.get_or_create_session session_id phone_number ;;
  response <-
    on_instance state_machine (handle_message message_text phone_number) ;;
  ConversationManager.save_session session_id phone_number state_machine ;;;
  ret response.

End Driver.

(** A dialogue step used as an example: it moves the machine to
    [GREETING] and answers. *)
Definition greet (message_text phone_number : string) : M cfg string :=
  transition_to (VState GREETING) ;;; ret "Ola!".

(** A dialogue step that fails after it has changed the machine. *)
Definition greet_then_fail (message_text phone_number : string)
  : M cfg string :=
  transition_to (VState GREETING) ;;; raise ValueError.

(** A world with persistence on and nothing in it. *)
Definition empty_world : world := World [] [] ∅ ∅ true.

(** * Reasoning about computations *)

Section Monad_steps.
Context {S A B : Type}.

Lemma bind_ok (m : M S A) (k : A -> M S B) s s' a :
  m s = (s', Ok a) -> bind m k s = k a s'.
Proof. unfold bind. by intros ->. Qed.

Lemma bind_raise (m : M S A) (k : A -> M S B) s s' e :
  m s = (s', Raise e) -> bind m k s = (s', Raise e).
Proof. unfold bind. by intros ->. Qed.

Lemma try_except_ok (m : M S A) (hdl : exn -> M S A) s s' a :
  m s = (s', Ok a) -> try_except m hdl s = (s', Ok a).
Proof. unfold try_except. by intros ->. Qed.

Lemma try_except_raise (m : M S A) (hdl : exn -> M S A) s s' e :
  m s = (s', Raise e) -> try_except m hdl s = hdl e s'.
Proof. unfold try_except. by intros ->. Qed.
End Monad_steps.

Lemma on_heap_run {A} (m : M heap A) h s h' r :
  m h = (h', r) -> on_heap m (Cfg h s) = (Cfg h' s, r).
Proof. unfold on_heap. simpl. by intros ->. Qed.

Lemma member_named_name s : member_named (name s) = Some s.
Proof. by destruct s. Qed.

Lemma member_named_None n : (forall s, name s ≠ n) -> member_named n = None.
Proof.
  intros H. unfold member_named.
  destruct (List.find _ members) as [s|] eqn:E; [|done].
  apply List.find_some in E as [_ E]. apply String.eqb_eq in E.
  by destruct (H s).
Qed.

(** ** The store *)

Lemma lookup_alloc (h : heap) o : (h ++ [o]) !! length h = Some o.
Proof. by rewrite list_lookup_middle. Qed.

Lemma lookup_alloc_old (h : heap) o l x :
  h !! l = Some x -> (h ++ [o]) !! l = Some x.
Proof. intros H. by apply lookup_app_l_Some. Qed.

Lemma lookup_store_eq (h : heap) l o o' :
  h !! l = Some o -> <[l := o']> h !! l = Some o'.
Proof. intros H. apply list_lookup_insert_eq. by eapply lookup_lt_Some. Qed.

Lemma lookup_store_ne (h : heap) l l' o x :
  l ≠ l' -> h !! l' = Some x -> <[l := o]> h !! l' = Some x.
Proof. intros Hne H. by rewrite list_lookup_insert_ne. Qed.

Lemma deref_run (h : heap) l o : h !! l = Some o -> deref l h = (h, Ok o).
Proof. unfold deref. by intros ->. Qed.

Lemma get_method_dict (h : heap) l kvs k d :
  h !! l = Some (ODict kvs) ->
  get_method (VRef l) k d h = (h, Ok (default d (dict_lookup k kvs))).
Proof.
  intros H. unfold get_method. by erewrite bind_ok by by apply deref_run.
Qed.

Lemma getitem_dict (h : heap) l kvs k v :
  h !! l = Some (ODict kvs) -> dict_lookup k kvs = Some v ->
  getitem (VRef l) k h = (h, Ok v).
Proof.
  intros H Hk. unfold getitem.
  erewrite bind_ok by by apply deref_run. simpl. by rewrite Hk.
Qed.

Lemma setitem_dict (h : heap) l kvs k v :
  h !! l = Some (ODict kvs) ->
  setitem (VRef l) k v h = (<[l := ODict (dict_store k v kvs)]> h, Ok tt).
Proof.
  intros H. unfold setitem. by erewrite bind_ok by by apply deref_run.
Qed.

Lemma copy_method_ref (h : heap) l o :
  h !! l = Some o -> copy_method (VRef l) h = (h ++ [o], Ok (VRef (length h))).
Proof.
  intros H. unfold copy_method. by erewrite bind_ok by by apply deref_run.
Qed.

Lemma append_method_list (h : heap) l xs v :
  h !! l = Some (OList xs) ->
  append_method (VRef l) v h = (<[l := OList (xs ++ [v])]> h, Ok tt).
Proof.
  intros H. unfold append_method. by erewrite bind_ok by by apply deref_run.
Qed.

Lemma pop_method_list (h : heap) l xs v :
  h !! l = Some (OList (xs ++ [v])) ->
  pop_method (VRef l) h = (<[l := OList xs]> h, Ok v).
Proof.
  intros H. unfold pop_method. erewrite bind_ok by by apply deref_run.
  simpl. rewrite last_snoc, removelast_last. reflexivity.
Qed.

Lemma truthy_list (h : heap) l xs :
  h !! l = Some (OList xs) ->
  truthy (VRef l) h = (h, Ok (negb (Nat.eqb (length xs) 0))).
Proof. intros H. unfold truthy. by erewrite bind_ok by by apply deref_run. Qed.

Lemma len_list (h : heap) l xs :
  h !! l = Some (OList xs) -> len (VRef l) h = (h, Ok (length xs)).
Proof. intros H. unfold len. by erewrite bind_ok by by apply deref_run. Qed.

Lemma dict_lookup_store {V} k (v : V) kvs :
  dict_lookup k (dict_store k v kvs) = Some v.
Proof.
  induction kvs as [|[k' v'] kvs IH]; simpl.
  - by rewrite String.eqb_refl.
  - destruct (String.eqb k' k) eqn:E; simpl.
    + by rewrite String.eqb_refl.
    + by rewrite E.
Qed.

Lemma dict_lookup_store_ne {V} k k' (v : V) kvs :
  k ≠ k' -> dict_lookup k' (dict_store k v kvs) = dict_lookup k' kvs.
Proof.
  intros Hne. induction kvs as [|[k0 v0] kvs IH]; simpl.
  - by destruct (String.eqb_spec k k').
  - destruct (String.eqb_spec k0 k) as [->|]; simpl.
    + by destruct (String.eqb_spec k k').
    + by rewrite IH.
Qed.

(** Looking an object up in a store built by allocations and updates. *)
Ltac loc_bounds :=
  repeat match goal with
    | H : ?h !! ?l = Some _ |- _ =>
        lazymatch goal with
        | _ : l < length h |- _ => fail
        | _ => pose proof (lookup_lt_Some h l _ H)
        end
    end.

(** Two references differ: they hold objects of different kinds, or one
    of them was allocated after the other. *)
Ltac loc_neq :=
  first
    [ congruence
    | intros ?; subst; congruence
    | loc_bounds; rewrite ?length_app, ?length_insert in *; simpl in *; lia ].

Ltac solve_lookup :=
  first
    [ eassumption
    | apply lookup_alloc
    | apply lookup_alloc_old; solve_lookup
    | eapply lookup_store_eq; solve_lookup
    | apply lookup_store_ne; [loc_neq | solve_lookup] ].

(** One primitive call whose outcome is determined by the context. *)
Ltac py_prim :=
  first
    [ reflexivity
    | apply on_heap_run; py_prim
    | eapply get_method_dict; solve_lookup
    | eapply getitem_dict; [solve_lookup | reflexivity]
    | eapply setitem_dict; solve_lookup
    | eapply copy_method_ref; solve_lookup
    | eapply append_method_list; solve_lookup
    | eapply pop_method_list; solve_lookup
    | eapply truthy_list; solve_lookup
    | eapply len_list; solve_lookup ].

Ltac py_step := erewrite bind_ok by py_prim; simpl.
Ltac py_steps := repeat py_step.

(** * The state machine *)

(** C1. Round trip of serialization: for a machine whose state is a member
    of the enumeration, [from_dict(to_dict())] succeeds and returns a
    machine with the same [state], [appointment_data], [available_slots],
    [selected_slot], [context_stack] and [user_appointments] as the
    original (the same member and the very same objects); the original
    machine is unchanged, and so is every object that existed before. *)
Theorem from_dict_to_dict_roundtrip (c : cfg) (s : ConversationState) :
  state (self c) = VState s ->
  exists h' m',
    (d <- to_dict ;; on_heap (from_dict d)) c = (Cfg h' (self c), Ok m')
    /\ state m' = state (self c)
    /\ appointment_data m' = appointment_data (self c)
    /\ available_slots m' = available_slots (self c)
    /\ selected_slot m' = selected_slot (self c)
    /\ context_stack m' = context_stack (self c)
    /\ user_appointments m' = user_appointments (self c)
    /\ (forall l o, hp c !! l = Some o -> h' !! l = Some o).
Proof.
  destruct c as [h [st ad av sel cs ua]]. simpl. intros ->.
  do 2 eexists. split.
  - erewrite bind_ok.
    2:{ unfold to_dict. py_steps. py_prim. }
    apply on_heap_run.
    unfold from_dict, __init__. py_steps.
    rewrite member_named_name. py_steps.
    reflexivity.
  - cbn. repeat split. intros l o Hl. solve_lookup.
Qed.

Lemma from_dict_to_dict_roundtrip_witness :
  exists h' m',
    (d <- to_dict ;; on_heap (from_dict d)) initial_cfg
    = (Cfg h' (self initial_cfg), Ok m')
    /\ state m' = state (self initial_cfg)
    /\ appointment_data m' = appointment_data (self initial_cfg)
    /\ available_slots m' = available_slots (self initial_cfg)
    /\ selected_slot m' = selected_slot (self initial_cfg)
    /\ context_stack m' = context_stack (self initial_cfg)
    /\ user_appointments m' = user_appointments (self initial_cfg)
    /\ (forall l o, hp initial_cfg !! l = Some o -> h' !! l = Some o).
Proof. apply (from_dict_to_dict_roundtrip initial_cfg IDLE). reflexivity. Defined.

(** C7. [restore_context] on a machine whose context stack is the empty
    list returns [False] and changes nothing: neither an attribute of the
    machine nor an object of the store. *)
Theorem restore_context_empty_stack (c : cfg) (l : loc) :
  context_stack (self c) = VRef l ->
  hp c !! l = Some (OList []) ->
  restore_context c = (c, Ok false).
Proof.
  destruct c as [h m]. simpl. intros Hcs Hl.
  unfold restore_context. py_step. rewrite Hcs. py_step. reflexivity.
Qed.

Lemma restore_context_empty_stack_witness :
  restore_context initial_cfg = (initial_cfg, Ok false).
Proof. apply (restore_context_empty_stack initial_cfg 2); reflexivity. Defined.

(** C9. [clear_appointment_data] always succeeds; afterwards
    [appointment_data] is an empty dictionary, [available_slots] an empty
    list and [selected_slot] is [None], while [state] and [context_stack]
    are what they were and every object that existed before (the stack and
    its snapshots among them) is unchanged. *)
Theorem clear_appointment_data_frame (c : cfg) :
  exists c' d l,
    clear_appointment_data c = (c', Ok tt)
    /\ appointment_data (self c') = VRef d /\ hp c' !! d = Some (ODict [])
    /\ available_slots (self c') = VRef l /\ hp c' !! l = Some (OList [])
    /\ selected_slot (self c') = VNone
    /\ state (self c') = state (self c)
    /\ context_stack (self c') = context_stack (self c)
    /\ (forall l' o, hp c !! l' = Some o -> hp c' !! l' = Some o).
Proof.
  destruct c as [h m]. simpl. do 3 eexists. split.
  - unfold clear_appointment_data. py_steps. reflexivity.
  - cbn. repeat split; try solve_lookup.
    intros l' o Hl. solve_lookup.
Qed.

(** C5. Errors of [from_dict].  On a record whose [state] entry is a
    string that is not the name of a member, [from_dict] raises (it is the
    [KeyError] of the enumeration lookup) and returns no machine; on a
    record with no [state] entry at all it succeeds, and the machine it
    returns is in state [IDLE]. *)
Theorem from_dict_state_errors (h : heap) (l : loc) (kvs : list (string * val)) :
  h !! l = Some (ODict kvs) ->
  (forall n, dict_lookup "state" kvs = Some (VStr n) ->
             (forall s, name s ≠ n) ->
             exists h', from_dict (VRef l) h = (h', Raise KeyError))
  /\ (dict_lookup "state" kvs = None ->
      exists h' m, from_dict (VRef l) h = (h', Ok m)
                   /\ state m = VState IDLE).
Proof.
  intros Hl. split.
  - intros n Hst Hn. eexists.
    unfold from_dict, __init__. py_steps. rewrite Hst. simpl.
    rewrite (member_named_None n Hn). reflexivity.
  - intros Hst. do 2 eexists. split.
    + unfold from_dict, __init__. py_steps. rewrite Hst. simpl.
      py_steps. reflexivity.
    + reflexivity.
Qed.

Lemma from_dict_state_errors_witness :
  (exists h', from_dict (VRef 0) [ODict [("state", VStr "NOT_A_REAL_STATE")]]
              = (h', Raise KeyError))
  /\ (exists h' m, from_dict (VRef 0) [ODict []] = (h', Ok m)
                   /\ state m = VState IDLE).
Proof.
  split.
  - apply (proj1 (from_dict_state_errors
                    [ODict [("state", VStr "NOT_A_REAL_STATE")]] 0
                    [("state", VStr "NOT_A_REAL_STATE")] eq_refl)
                 "NOT_A_REAL_STATE").
    + reflexivity.
    + intros s; destruct s; discriminate.
  - apply (proj2 (from_dict_state_errors [ODict []] 0 [] eq_refl)).
    reflexivity.
Defined.

(** C8. Suspend and resume.  On a machine in [COLLECTING_DATE] (with a
    dictionary of data, lists of slots and of appointments, and a context
    stack), storing ['time' = '14:00'], saving the context, moving to
    [OFF_TOPIC] and clearing the data leaves [get_appointment_data('time')]
    at [None]; [restore_context] then returns [True], after which the
    state is [COLLECTING_DATE] and [get_appointment_data('time')] is
    ['14:00'] again. *)
Theorem suspend_resume (h : heap) (m : machine) (now : string)
    (ad av ua cs : loc) (kvs : list (string * val)) (slots apps stack : list val) :
  state m = VState COLLECTING_DATE ->
  appointment_data m = VRef ad -> h !! ad = Some (ODict kvs) ->
  available_slots m = VRef av -> h !! av = Some (OList slots) ->
  user_appointments m = VRef ua -> h !! ua = Some (OList apps) ->
  context_stack m = VRef cs -> h !! cs = Some (OList stack) ->
  exists c1 c2,
    (set_appointment_data "time" (VStr "14:00") ;;;
     save_context now ;;;
     transition_to (VState OFF_TOPIC) ;;;
     clear_appointment_data ;;;
     get_appointment_data "time") (Cfg h m) = (c1, Ok VNone)
    /\ restore_context c1 = (c2, Ok true)
    /\ get_state c2 = (c2, Ok (VState COLLECTING_DATE))
    /\ get_appointment_data "time" c2 = (c2, Ok (VStr "14:00")).
Proof.
  destruct m as [st ad0 av0 sel cs0 ua0]. simpl.
  intros -> -> Had -> Hav -> Hua -> Hcs.
  do 2 eexists. split; [|split; [|split]].
  - erewrite bind_ok.
    2:{ unfold set_appointment_data. py_steps. py_prim. }
    erewrite bind_ok.
    2:{ unfold save_context. py_steps. reflexivity. }
    erewrite bind_ok.
    2:{ unfold transition_to. py_steps. reflexivity. }
    erewrite bind_ok.
    2:{ unfold clear_appointment_data. py_steps. reflexivity. }
    unfold get_appointment_data. py_steps.
    erewrite on_heap_run by (eapply get_method_dict; solve_lookup).
    reflexivity.
  - unfold restore_context. py_step. py_step.
    rewrite length_app, Nat.add_1_r. simpl.
    py_steps. reflexivity.
  - reflexivity.
  - unfold get_appointment_data. py_steps.
    erewrite on_heap_run.
    2:{ eapply get_method_dict. solve_lookup. }
    by rewrite dict_lookup_store.
Qed.

Lemma suspend_resume_witness :
  exists c1 c2,
    (set_appointment_data "time" (VStr "14:00") ;;;
     save_context "2025-11-05T10:00:00" ;;;
     transition_to (VState OFF_TOPIC) ;;;
     clear_appointment_data ;;;
     get_appointment_data "time") collecting_date_cfg = (c1, Ok VNone)
    /\ restore_context c1 = (c2, Ok true)
    /\ get_state c2 = (c2, Ok (VState COLLECTING_DATE))
    /\ get_appointment_data "time" c2 = (c2, Ok (VStr "14:00")).
Proof.
  apply (suspend_resume _ _ "2025-11-05T10:00:00" 0 1 3 2 [] [] [] []);
    reflexivity.
Defined.

(** C3, as stated, fails.  The slot stored under ['slot'] is shared by the
    live record and the snapshot: after [save_context], changing the
    slot's ['start'] through the live record changes the value of the
    snapshot on top of the stack. *)
Lemma snapshot_shares_nested_values :
  exists c1 c2,
    save_context "2025-11-05T10:00:00" slot_cfg = (c1, Ok tt)
    /\ set_nested "slot" "start" (VStr "2025-11-15T10:00:00") c1 = (c2, Ok tt)
    /\ top_snapshot_value c1 ≠ top_snapshot_value c2.
Proof.
  do 2 eexists. split; [|split].
  - vm_compute. reflexivity.
  - vm_compute. reflexivity.
  - vm_compute. discriminate.
Qed.

(** ** Taking a run apart *)

Section Monad_inversion.
Context {S A B : Type}.

Lemma bind_inv (m : M S A) (k : A -> M S B) s s2 r :
  bind m k s = (s2, r) ->
  (exists s1 a, m s = (s1, Ok a) /\ k a s1 = (s2, r))
  \/ (exists e, m s = (s2, Raise e) /\ r = Raise e).
Proof.
  unfold bind. destruct (m s) as [s1 [a|e]]; intros H.
  - left. eauto.
  - right. inversion H. eauto.
Qed.

Lemma bind_inv_ok (m : M S A) (k : A -> M S B) s s2 b :
  bind m k s = (s2, Ok b) ->
  exists s1 a, m s = (s1, Ok a) /\ k a s1 = (s2, Ok b).
Proof.
  intros H. apply bind_inv in H as [H|[e [_ H]]]; [done | discriminate].
Qed.
End Monad_inversion.

Lemma on_heap_inv {A} (m : M heap A) c c' r :
  on_heap m c = (c', r) -> exists h', m (hp c) = (h', r) /\ c' = Cfg h' (self c).
Proof.
  unfold on_heap. destruct (m (hp c)) as [h' r']. intros H. inversion H. eauto.
Qed.

Lemma deref_inv (l : loc) (h h' : heap) r :
  deref l h = (h', r) ->
  h' = h /\ (match h !! l with Some o => r = Ok o | None => r = Raise SystemError end).
Proof. unfold deref. destruct (h !! l); intros H; by inversion H. Qed.

Lemma copy_method_inv_ok v (h h' : heap) r :
  copy_method v h = (h', Ok r) ->
  exists l o, v = VRef l /\ h !! l = Some o /\ h' = h ++ [o]
              /\ r = VRef (length h).
Proof.
  destruct v; try discriminate. simpl. intros H.
  apply bind_inv_ok in H as (h1 & o & Hd & Ha).
  apply deref_inv in Hd as [-> Hd].
  destruct (h !! l) as [o'|] eqn:E; [|discriminate].
  injection Hd as ->. inversion Ha. eauto 10.
Qed.

Lemma append_method_inv_ok v x (h h' : heap) :
  append_method v x h = (h', Ok tt) ->
  exists l xs, v = VRef l /\ h !! l = Some (OList xs)
               /\ h' = <[l := OList (xs ++ [x])]> h.
Proof.
  destruct v; try discriminate. simpl. intros H.
  apply bind_inv_ok in H as (h1 & o & Hd & Ha).
  apply deref_inv in Hd as [-> Hd].
  destruct (h !! l) as [o'|] eqn:E; [|discriminate].
  injection Hd as ->. destruct o' as [kvs|xs]; [discriminate|].
  inversion Ha. eauto 10.
Qed.

(** What [setitem] leaves alone: every object but the dictionary it
    writes to; in particular every list. *)
Lemma setitem_frame v k x (h h' : heap) r :
  setitem v k x h = (h', r) ->
  length h' = length h
  /\ forall l, (v ≠ VRef l \/ exists xs, h !! l = Some (OList xs)) ->
               h' !! l = h !! l.
Proof.
  destruct v; simpl; intros H; try (inversion H; subst; by split).
  apply bind_inv in H as [(h1 & o & Hd & Hs)|(e & Hd & ->)].
  - apply deref_inv in Hd as [-> Hd].
    destruct (h !! l) as [o'|] eqn:E; [|discriminate].
    injection Hd as ->. destruct o' as [kvs|xs].
    + inversion Hs; subst. split; [by rewrite length_insert|].
      intros l' [Hne|[xs Hxs]].
      * rewrite list_lookup_insert_ne; [done | congruence].
      * rewrite list_lookup_insert_ne; [done | congruence].
    + inversion Hs; subst. by split.
  - apply deref_inv in Hd as [-> _]. by split.
Qed.

Lemma len_frame v (h h' : heap) r : len v h = (h', r) -> h' = h.
Proof.
  destruct v; simpl; intros H; try by inversion H.
  apply bind_inv in H as [(h1 & o & Hd & Hs)|(e & Hd & ->)].
  - apply deref_inv in Hd as [-> _]. destruct o; by inversion Hs.
  - by apply deref_inv in Hd as [-> _].
Qed.

(** One step of a successful sequence. *)
Ltac inv_step H :=
  let Hs := fresh "Hs" in
  apply bind_inv_ok in H as (? & ? & Hs & H);
  first [ apply on_heap_inv in Hs as (? & Hs & ->)
        | (inversion Hs; subst; clear Hs) ];
  simpl in *.

(** The shape of a successful [save_context]. *)
Lemma save_context_inv now c c1 :
  save_context now c = (c1, Ok tt) ->
  exists ad av ua cs o_ad o_av o_ua stack h4,
    appointment_data (self c) = VRef ad /\ hp c !! ad = Some o_ad
    /\ available_slots (self c) = VRef av
    /\ user_appointments (self c) = VRef ua
    /\ context_stack (self c) = VRef cs
    /\ h4 = (((hp c ++ [o_ad]) ++ [o_av]) ++ [o_ua]) ++
             [ODict [ ("state", state (self c));
                      ("appointment_data", VRef (length (hp c)));
                      ("available_slots", VRef (length (hp c ++ [o_ad])));
                      ("selected_slot", selected_slot (self c));
                      ("user_appointments",
                       VRef (length ((hp c ++ [o_ad]) ++ [o_av])));
                      ("timestamp", VStr now) ]]
    /\ h4 !! cs = Some (OList stack)
    /\ c1 = Cfg (<[cs := OList (stack ++
                    [VRef (length (((hp c ++ [o_ad]) ++ [o_av]) ++ [o_ua]))])]> h4)
                (self c).
Proof.
  destruct c as [h m]. unfold save_context. simpl. intros H.
  inv_step H. inv_step H. inv_step H.
  apply copy_method_inv_ok in Hs as (ad & o_ad & Had & Hlad & -> & ->).
  inv_step H. inv_step H.
  apply copy_method_inv_ok in Hs as (av & o_av & Hav & Hlav & -> & ->).
  inv_step H. inv_step H. inv_step H.
  apply copy_method_inv_ok in Hs as (ua & o_ua & Hua & Hlua & -> & ->).
  inv_step H. inversion Hs; subst; clear Hs. inv_step H. inv_step H.
  destruct x0.
  apply append_method_inv_ok in Hs as (cs & stack & Hcs & Hlcs & ->).
  inv_step H. inv_step H. inversion H; subst.
  apply len_frame in Hs as ->.
  exists ad, av, ua, cs, o_ad, o_av, o_ua, stack. eexists.
  repeat split; eauto.
Qed.

(** ** What a mutation of the live record leaves alone *)

Lemma apply_mutation_frame (P : loc -> Prop) u c c' r :
  apply_mutation u c = (c', r) ->
  (forall x, P x -> is_Some (hp c !! x)) ->
  guarded P c ->
  (forall x, P x -> hp c' !! x = hp c !! x)
  /\ context_stack (self c') = context_stack (self c)
  /\ guarded P c'.
Proof.
  destruct c as [h m]. intros Hrun Hlive Hg.
  destruct u; simpl in Hrun.
  - (* set_appointment_data *)
    unfold set_appointment_data in Hrun.
    apply bind_inv in Hrun as [(c0 & d & Hs & Hrun)|(e & Hs & _)];
      [|discriminate].
    inversion Hs; subst; clear Hs. simpl in Hrun.
    apply on_heap_inv in Hrun as (h' & Hrun & ->). simpl in *.
    apply setitem_frame in Hrun as [Hlen Hfr].
    assert (Hkeep : forall x, P x -> h' !! x = h !! x).
    { intros x Px. apply Hfr.
      destruct (decide (appointment_data m = VRef x)) as [E|E]; [|by left].
      right. by apply Hg. }
    repeat split; [done..|].
    intros a Ha Pa. simpl in *. rewrite (Hkeep a Pa). by apply Hg.
  - (* clear_appointment_data *)
    unfold clear_appointment_data in Hrun.
    erewrite bind_ok in Hrun by py_prim. simpl in Hrun.
    erewrite bind_ok in Hrun by py_prim. simpl in Hrun.
    erewrite bind_ok in Hrun by py_prim. simpl in Hrun.
    erewrite bind_ok in Hrun by py_prim. simpl in Hrun.
    inversion Hrun; subst; clear Hrun. simpl.
    assert (Hkeep : forall x, P x ->
              ((h ++ [ODict []]) ++ [OList []]) !! x = h !! x).
    { intros x Px. destruct (Hlive x Px) as [o Ho]. simpl in Ho.
      rewrite Ho. solve_lookup. }
    repeat split; [done..|].
    intros a Ha Pa. injection Ha as <-.
    destruct (Hlive _ Pa) as [o Ho]. simpl in Ho.
    apply lookup_lt_Some in Ho. lia.
  - inversion Hrun; subst. simpl. repeat split; done.
  - inversion Hrun; subst. simpl. repeat split; done.
  - inversion Hrun; subst. simpl. repeat split; done.
  - (* transition_to *)
    unfold transition_to in Hrun.
    erewrite bind_ok in Hrun by py_prim. simpl in Hrun.
    destruct (state m); simpl in Hrun;
      try (inversion Hrun; subst; simpl; repeat split; done).
    destruct new_state; simpl in Hrun;
      inversion Hrun; subst; simpl; repeat split; done.
Qed.

Lemma apply_mutations_frame (P : loc -> Prop) us : forall c c' r,
  apply_mutations us c = (c', r) ->
  (forall x, P x -> is_Some (hp c !! x)) ->
  guarded P c ->
  (forall x, P x -> hp c' !! x = hp c !! x)
  /\ context_stack (self c') = context_stack (self c).
Proof.
  induction us as [|u us IH]; intros c c' r Hrun Hlive Hg; simpl in Hrun.
  - inversion Hrun; subst. by split.
  - apply bind_inv in Hrun as [(c0 & [] & Hu & Hrun)|(e & Hu & _)].
    + destruct (apply_mutation_frame P _ _ _ _ Hu Hlive Hg) as (Hk & Hcs & Hg').
      destruct (IH _ _ _ Hrun) as [Hk' Hcs']; [|done|].
      { intros x Px. rewrite (Hk x Px). by apply Hlive. }
      split; [|congruence].
      intros x Px. rewrite (Hk' x Px). by apply Hk.
    + destruct (apply_mutation_frame P _ _ _ _ Hu Hlive Hg) as (Hk & Hcs & _).
      by split.
Qed.

(** ** What a change in place leaves alone *)

Lemma unprotected_guarded P c : unprotected P c -> guarded P c.
Proof. intros Hu a Ha Pa. by destruct (Hu AppointmentData a Ha). Qed.

Lemma change_in_place_frame v o (h h' : heap) r :
  change_in_place v o h = (h', r) ->
  forall l, v ≠ VRef l -> h' !! l = h !! l.
Proof.
  destruct v; simpl; intros H; try (by inversion H).
  apply bind_inv in H as [(h1 & o' & Hd & Hs)|(e & Hd & ->)].
  - apply deref_inv in Hd as [-> _].
    destruct (same_kind o' o); inversion Hs; subst; [|done].
    intros l' Hne. rewrite list_lookup_insert_ne; [done | congruence].
  - by apply deref_inv in Hd as [-> _].
Qed.

(** The containers a machine holds after a call: the ones it held, new
    objects, or the argument of a setter. *)
Lemma apply_mutation_unprotected (P : loc -> Prop) vs u c c' r :
  apply_mutation u c = (c', r) ->
  (forall x, P x -> is_Some (hp c !! x)) ->
  (forall x, P x -> VRef x ∈ vs) ->
  keeps_out vs (Call u) = true ->
  unprotected P c ->
  unprotected P c'.
Proof.
  destruct c as [h m]. intros Hrun Hlive Hvs Hout Hu.
  destruct u; simpl in Hrun.
  - unfold set_appointment_data in Hrun.
    apply bind_inv in Hrun as [(c0 & d & Hs & Hrun)|(e & Hs & _)];
      [|discriminate].
    inversion Hs; subst; clear Hs. simpl in Hrun.
    by apply on_heap_inv in Hrun as (h' & Hrun & ->).
  - unfold clear_appointment_data in Hrun.
    erewrite bind_ok in Hrun by py_prim. simpl in Hrun.
    erewrite bind_ok in Hrun by py_prim. simpl in Hrun.
    erewrite bind_ok in Hrun by py_prim. simpl in Hrun.
    erewrite bind_ok in Hrun by py_prim. simpl in Hrun.
    inversion Hrun; subst; clear Hrun.
    intros k a Ha Pa. destruct (Hlive a Pa) as [o Ho]. simpl in Ho.
    apply lookup_lt_Some in Ho.
    destruct k; simpl in Ha.
    + injection Ha as <-. lia.
    + injection Ha as <-. rewrite length_app in Ho. simpl in Ho. lia.
    + by eapply (Hu UserAppointments).
  - inversion Hrun; subst; clear Hrun. simpl in Hout.
    apply bool_decide_eq_true in Hout.
    intros k a Ha Pa. destruct k; simpl in Ha.
    + by eapply (Hu AppointmentData).
    + subst slots. by apply Hout, Hvs.
    + by eapply (Hu UserAppointments).
  - inversion Hrun; subst; clear Hrun.
    intros k a Ha Pa. destruct k; simpl in Ha.
    + by eapply (Hu AppointmentData).
    + by eapply (Hu AvailableSlots).
    + by eapply (Hu UserAppointments).
  - inversion Hrun; subst; clear Hrun. simpl in Hout.
    apply bool_decide_eq_true in Hout.
    intros k a Ha Pa. destruct k; simpl in Ha.
    + by eapply (Hu AppointmentData).
    + by eapply (Hu AvailableSlots).
    + subst appointments. by apply Hout, Hvs.
  - unfold transition_to in Hrun.
    erewrite bind_ok in Hrun by py_prim. simpl in Hrun.
    assert (Hself : forall k, held k (self c') = held k m).
    { destruct (state m); simpl in Hrun;
        try (inversion Hrun; subst; by intros []).
      destruct new_state; simpl in Hrun;
        inversion Hrun; subst; by intros []. }
    intros k a Ha. rewrite Hself in Ha. by eapply Hu.
Qed.

Lemma apply_change_frame (P : loc -> Prop) vs ch c c' r :
  apply_change ch c = (c', r) ->
  (forall x, P x -> is_Some (hp c !! x)) ->
  (forall x, P x -> VRef x ∈ vs) ->
  keeps_out vs ch = true ->
  unprotected P c ->
  (forall x, P x -> hp c' !! x = hp c !! x)
  /\ context_stack (self c') = context_stack (self c)
  /\ unprotected P c'.
Proof.
  intros Hrun Hlive Hvs Hout Hu. destruct ch as [u|k contents].
  - simpl in Hrun.
    destruct (apply_mutation_frame P _ _ _ _ Hrun Hlive
                (unprotected_guarded _ _ Hu)) as (Hk & Hcs & _).
    repeat split; [done..|].
    by eapply apply_mutation_unprotected.
  - destruct c as [h m]. simpl in Hrun.
    apply bind_inv in Hrun as [(c0 & d & Hs & Hrun)|(e & Hs & _)];
      [|discriminate].
    inversion Hs; subst; clear Hs. simpl in Hrun.
    apply on_heap_inv in Hrun as (h' & Hrun & ->). simpl in *.
    repeat split; [|done].
    intros x Px. eapply change_in_place_frame; [exact Hrun|].
    intros E. by eapply (Hu k).
Qed.

Lemma apply_changes_frame (P : loc -> Prop) vs chs : forall c c' r,
  apply_changes chs c = (c', r) ->
  (forall x, P x -> is_Some (hp c !! x)) ->
  (forall x, P x -> VRef x ∈ vs) ->
  forallb (keeps_out vs) chs = true ->
  unprotected P c ->
  (forall x, P x -> hp c' !! x = hp c !! x)
  /\ context_stack (self c') = context_stack (self c).
Proof.
  induction chs as [|ch chs IH]; intros c c' r Hrun Hlive Hvs Hout Hu;
    simpl in Hrun.
  - inversion Hrun; subst. by split.
  - simpl in Hout. apply andb_prop in Hout as [Hout1 Hout2].
    apply bind_inv in Hrun as [(c0 & [] & Hch & Hrun)|(e & Hch & _)].
    + destruct (apply_change_frame P vs _ _ _ _ Hch Hlive Hvs Hout1 Hu)
        as (Hk & Hcs & Hu').
      destruct (IH _ _ _ Hrun) as [Hk' Hcs']; [|done..|].
      { intros x Px. rewrite (Hk x Px). by apply Hlive. }
      split; [|congruence].
      intros x Px. rewrite (Hk' x Px). by apply Hk.
    + destruct (apply_change_frame P vs _ _ _ _ Hch Hlive Hvs Hout1 Hu)
        as (Hk & Hcs & _).
      by split.
Qed.

(** C3, amended.  After a successful [save_context], nothing the caller
    does to the live record changes the snapshot on top of the stack one
    level deep: neither a call that changes the record
    ([set_appointment_data], [clear_appointment_data],
    [set_available_slots], [set_selected_slot], [set_user_appointments],
    [transition_to]) nor a change made in place to the dictionary of data
    or to one of the two lists the machine holds, whether the sequence
    completes or raises.  The snapshot keeps its entries, and its copies
    of [appointment_data], [available_slots] and [user_appointments] keep
    theirs.  The machine is one whose three containers are objects apart
    from its context stack, and the caller does not hand the stack, the
    snapshot or one of its copies to [set_available_slots] or
    [set_user_appointments]. *)
Theorem save_context_snapshot_isolated (now : string) (c c1 c2 : cfg)
    (chs : list change) (r : result unit) :
  save_context now c = (c1, Ok tt) ->
  separate c ->
  forallb (keeps_out (snapshot_objects c1)) chs = true ->
  apply_changes chs c1 = (c2, r) ->
  is_Some (snapshot_view c1) /\ snapshot_view c2 = snapshot_view c1.
Proof.
  intros Hsave Hsep Hout Hrun.
  apply save_context_inv in Hsave
    as (ad & av & ua & cs & o_ad & o_av & o_ua & stack & h4 &
        Had & Hlad & Hav & Hua & Hcs & Hh4 & Hlcs & ->).
  destruct c as [h m]. simpl in *.
  remember (length (((h ++ [o_ad]) ++ [o_av]) ++ [o_ua])) as t eqn:Et.
  remember ( [("state", state m); ("appointment_data", VRef (length h));
                   ("available_slots", VRef (length (h ++ [o_ad])));
                   ("selected_slot", selected_slot m);
                   ("user_appointments", VRef (length ((h ++ [o_ad]) ++ [o_av])));
                   ("timestamp", VStr now)]) as entries eqn:Eentries.
  remember (<[cs:=OList (stack ++ [VRef t])]> h4) as h5 eqn:Eh5.
  assert (Hlen4 : length h4 = length h + 4).
  { subst h4. rewrite !length_app. simpl. lia. }
  assert (Ht : h4 !! t = Some (ODict entries)).
  { rewrite Hh4, Et. apply lookup_alloc. }
  assert (Hne : cs ≠ t) by congruence.
  assert (H5cs : h5 !! cs = Some (OList (stack ++ [VRef t]))).
  { subst h5. by eapply lookup_store_eq. }
  assert (H5t : h5 !! t = Some (ODict entries)).
  { subst h5. by apply lookup_store_ne. }
  set (P := fun x : loc =>
              x = cs \/ x = t \/ x = length h \/ x = length (h ++ [o_ad])
              \/ x = length ((h ++ [o_ad]) ++ [o_av])).
  assert (Hobjs : snapshot_objects (Cfg h5 m)
                  = [VRef cs; VRef t; VRef (length h);
                     VRef (length (h ++ [o_ad]));
                     VRef (length ((h ++ [o_ad]) ++ [o_av]))]).
  { unfold snapshot_objects, top_snapshot, target. simpl.
    rewrite Hcs, H5cs, last_snoc, H5t. by rewrite Eentries. }
  rewrite Hobjs in Hout.
  assert (Hvs : forall x, P x ->
            VRef x ∈ [VRef cs; VRef t; VRef (length h);
                      VRef (length (h ++ [o_ad]));
                      VRef (length ((h ++ [o_ad]) ++ [o_av]))]).
  { intros x [-> | [-> | [-> | [-> | ->]]]]; set_solver. }
  assert (Hlive : forall x, P x -> is_Some (hp (Cfg h5 m) !! x)).
  { intros x Px. simpl. apply lookup_lt_is_Some. subst h5.
    rewrite length_insert, Hlen4.
    destruct Px as [-> | [-> | [-> | [-> | ->]]]].
    - apply lookup_lt_Some in Hlcs. lia.
    - subst t. rewrite !length_app. simpl. lia.
    - lia.
    - rewrite !length_app. simpl. lia.
    - rewrite !length_app. simpl. lia. }
  assert (Hold : forall k a, held k m = VRef a -> a < length h /\ a ≠ cs).
  { intros k a Ha. destruct (Hsep k) as [[o Ho] Hne']. simpl in Ho, Hne'.
    rewrite Ha in Ho, Hne'. simpl in Ho. split.
    - by eapply lookup_lt_Some.
    - congruence. }
  assert (Hu : unprotected P (Cfg h5 m)).
  { intros k a Ha Pa. simpl in Ha. destruct (Hold k a Ha) as [Hlt Hnecs].
    destruct Pa as [-> | [-> | [-> | [-> | ->]]]]; [done|..].
    - subst t. rewrite !length_app in Hlt. simpl in Hlt. lia.
    - lia.
    - rewrite !length_app in Hlt. simpl in Hlt. lia.
    - rewrite !length_app in Hlt. simpl in Hlt. lia. }
  destruct (apply_changes_frame P _ chs _ _ _ Hrun Hlive Hvs Hout Hu)
    as [Hk Hcs2].
  simpl in Hk, Hcs2.
  assert (Hview : forall c', context_stack (self c') = VRef cs ->
            (forall x, P x -> hp c' !! x = h5 !! x) ->
            snapshot_view c'
            = Some (entries, h5 !! length h, h5 !! length (h ++ [o_ad]),
                    h5 !! length ((h ++ [o_ad]) ++ [o_av]))).
  { intros c' Hc' Hsame. unfold snapshot_view, top_snapshot, target.
    rewrite Hc'. rewrite (Hsame cs), H5cs by (unfold P; tauto).
    rewrite last_snoc. rewrite (Hsame t), H5t by (unfold P; tauto).
    replace (dict_lookup "appointment_data" entries)
      with (Some (VRef (length h))) by (by rewrite Eentries).
    replace (dict_lookup "available_slots" entries)
      with (Some (VRef (length (h ++ [o_ad])))) by (by rewrite Eentries).
    replace (dict_lookup "user_appointments" entries)
      with (Some (VRef (length ((h ++ [o_ad]) ++ [o_av]))))
      by (by rewrite Eentries).
    simpl. rewrite !Hsame by (unfold P; tauto). reflexivity. }
  rewrite (Hview (Cfg h5 m)) by done.
  rewrite (Hview c2) by (by rewrite ?Hcs2).
  split; [by eexists | done].
Qed.

Lemma save_context_snapshot_isolated_witness :
  exists c1 c2 r,
    save_context "2025-11-05T10:00:00" slot_cfg = (c1, Ok tt)
    /\ apply_changes [Call (SetAppointmentData "time" (VStr "14:00"));
                      InPlace AvailableSlots (OList [VRef 4]);
                      InPlace AppointmentData (ODict []);
                      Call (SetAvailableSlots (VRef 4));
                      Call (TransitionTo (VState OFF_TOPIC));
                      Call ClearAppointmentData;
                      InPlace UserAppointments (OList [VStr "2025-11-20"])]
         c1 = (c2, r)
    /\ is_Some (snapshot_view c1) /\ snapshot_view c2 = snapshot_view c1.
Proof.
  do 3 eexists.
  split; [vm_compute; reflexivity|]. split; [vm_compute; reflexivity|].
  eapply (save_context_snapshot_isolated "2025-11-05T10:00:00" slot_cfg _ _
            [Call (SetAppointmentData "time" (VStr "14:00"));
             InPlace AvailableSlots (OList [VRef 4]);
             InPlace AppointmentData (ODict []);
             Call (SetAvailableSlots (VRef 4));
             Call (TransitionTo (VState OFF_TOPIC));
             Call ClearAppointmentData;
             InPlace UserAppointments (OList [VStr "2025-11-20"])]).
  - vm_compute; reflexivity.
  - intros []; (split; [by eexists | discriminate]).
  - vm_compute; reflexivity.
  - vm_compute; reflexivity.
Defined.

(** * Persistence *)

Lemma dict_lookup_elem {V} k (v : V) kvs :
  dict_lookup k kvs = Some v -> (k, v) ∈ kvs.
Proof.
  induction kvs as [|[k' v'] kvs IH]; simpl; [done|].
  destruct (String.eqb_spec k' k) as [->|_].
  - intros [= ->]. left.
  - intros H. right. by apply IH.
Qed.

(** ** A saved context cannot be encoded *)

Lemma encode_member_entry entries k s :
  (k, PState s) ∈ entries -> DateTimeEncoder.encode (PDict entries) = None.
Proof.
  intros Hin. simpl.
  rewrite (mapM_None_2 _ entries); [done|].
  apply Exists_exists. by exists (k, PState s).
Qed.

Lemma encode_list_fails items p :
  p ∈ items -> DateTimeEncoder.encode p = None ->
  DateTimeEncoder.encode (PList items) = None.
Proof.
  intros Hin Hp. simpl.
  rewrite (mapM_None_2 _ items); [done|].
  apply Exists_exists. by exists p.
Qed.

Lemma reify_pushed_snapshot n h x p :
  pushed_snapshot h x -> reify n h x = Some p ->
  DateTimeEncoder.encode p = None.
Proof.
  intros (l & kvs & s & -> & Hl & Hst) Hp.
  destruct n as [|n]; [done|]. simpl in Hp. rewrite Hl in Hp.
  destruct (mapM _ kvs) as [entries|] eqn:E; [|done].
  injection Hp as <-.
  apply mapM_Some_1 in E.
  apply dict_lookup_elem in Hst.
  apply list_elem_of_lookup in Hst as [i Hi].
  destruct (Forall2_lookup_l _ _ _ _ _ E Hi) as (e & He & Hfe).
  simpl in Hfe. destruct n; simpl in Hfe; injection Hfe as <-.
  all: eapply encode_member_entry, list_elem_of_lookup_2, He.
Qed.

(** [json.dumps] never changes the store. *)
Lemma json_dumps_frame v (h h' : heap) r : json_dumps v h = (h', r) -> h' = h.
Proof.
  unfold json_dumps. destruct (value_of h v) as [p|]; [|by intros [= <-]].
  destruct (DateTimeEncoder.encode p); by intros [= <-].
Qed.

Lemma json_dumps_saved_context (h : heap) cs xs x :
  h !! cs = Some (OList xs) -> x ∈ xs -> pushed_snapshot h x ->
  exists e, json_dumps (VRef cs) h = (h, Raise e).
Proof.
  intros Hcs Hin Hsnap. unfold json_dumps, value_of. simpl. rewrite Hcs.
  destruct (mapM _ xs) as [items|] eqn:E; simpl; [|by eexists].
  apply mapM_Some_1 in E.
  apply list_elem_of_lookup in Hin as [i Hi].
  destruct (Forall2_lookup_l _ _ _ _ _ E Hi) as (p & Hp & Hrp).
  rewrite (mapM_None_2 _ items); [by eexists|].
  apply Exists_exists. exists p. split.
  - by eapply list_elem_of_lookup_2.
  - by eapply reify_pushed_snapshot.
Qed.

(** What [save_context] pushes is such a snapshot. *)
Lemma save_context_pushes_member now c c1 s :
  state (self c) = VState s ->
  save_context now c = (c1, Ok tt) ->
  exists x, top_snapshot c1 = Some x /\ pushed_snapshot (hp c1) x.
Proof.
  intros Hst Hsave.
  apply save_context_inv in Hsave
    as (ad & av & ua & cs & o_ad & o_av & o_ua & stack & h4 &
        Had & Hlad & Hav & Hua & Hcs & Hh4 & Hlcs & ->).
  eexists. unfold top_snapshot, target. simpl. rewrite Hcs.
  erewrite lookup_store_eq by eassumption. rewrite last_snoc.
  split; [done|]. do 3 eexists. split; [done|]. split.
  - apply lookup_store_ne.
    + intros E. rewrite E, Hh4, lookup_alloc in Hlcs. discriminate.
    + rewrite Hh4. apply lookup_alloc.
  - simpl. by rewrite Hst.
Qed.

(** ** Steps of the session manager *)

Lemma on_objects_run {A} (m : M heap A) w h' r :
  m (objects w) = (h', r) ->
  on_objects m w
  = (World h' (instances w) (table w) (sessions w) (enable_persistence w), r).
Proof. unfold on_objects. by intros ->. Qed.

Lemma world_eta w :
  World (objects w) (instances w) (table w) (sessions w) (enable_persistence w)
  = w.
Proof. by destruct w. Qed.

Lemma on_objects_dumps v w r :
  json_dumps v (objects w) = (objects w, r) ->
  on_objects (json_dumps v) w = (w, r).
Proof. intros H. erewrite on_objects_run by done. by rewrite world_eta. Qed.

Lemma json_dumps_result v (h : heap) :
  exists r, json_dumps v h = (h, r).
Proof.
  destruct (json_dumps v h) as [h' r] eqn:E.
  pose proof (json_dumps_frame _ _ _ _ E) as ->. eauto.
Qed.

Lemma on_instance_attr {A} (f : machine -> A) w i m :
  instances w !! i = Some m -> on_instance i (attr f) w = (w, Ok (f m)).
Proof.
  intros H. unfold on_instance. rewrite H. simpl.
  rewrite list_insert_id by done. by rewrite world_eta.
Qed.

(** C4. Persisting a machine whose context stack holds a snapshot pushed
    by [save_context] fails.  The snapshot holds its ['state'] as the
    enumeration member, which the encoder rejects; [Database.save_session]
    catches the exception and returns [False], whatever the other
    arguments, and writes nothing; [ConversationManager.save_session]
    returns normally and leaves the session table, like everything else,
    as it was.  So the durable record of a suspended session is never
    brought up to date. *)
Theorem save_session_fails_with_saved_context (w : world) (i : nat)
    (m : machine) (session_id phone_number : string) (cs : loc)
    (stack : list val) (x : val) :
  instances w !! i = Some m ->
  context_stack m = VRef cs ->
  objects w !! cs = Some (OList stack) ->
  x ∈ stack ->
  pushed_snapshot (objects w) x ->
  (forall st, Database.save_session session_id phone_number st
                (appointment_data m) (context_stack m) w = (w, Ok false))
  /\ ConversationManager.save_session session_id phone_number i w
     = (w, Ok tt).
Proof.
  intros Hi Hcs Hlcs Hx Hsnap.
  destruct (json_dumps_saved_context _ _ _ _ Hlcs Hx Hsnap) as [e He].
  assert (Hdb : forall st, Database.save_session session_id phone_number st
                  (appointment_data m) (context_stack m) w = (w, Ok false)).
  { intros st. unfold Database.save_session. rewrite Hcs.
    destruct (json_dumps_result (appointment_data m) (objects w)) as [[j|e'] Hr].
    - erewrite try_except_raise; [reflexivity|].
      erewrite bind_ok by by apply on_objects_dumps.
      erewrite bind_raise; [reflexivity|]. by apply on_objects_dumps.
    - erewrite try_except_raise; [reflexivity|].
      erewrite bind_raise; [reflexivity|]. by apply on_objects_dumps. }
  split; [done|].
  unfold ConversationManager.save_session.
  erewrite bind_ok by reflexivity.
  destruct (enable_persistence w); simpl; [|done].
  destruct (state m) eqn:Est.
  all: try (erewrite try_except_raise; [reflexivity|];
            erewrite bind_ok by (by apply on_instance_attr);
            rewrite Est; reflexivity).
  erewrite try_except_ok; [reflexivity|].
  erewrite bind_ok by (by apply on_instance_attr). rewrite Est. simpl.
  erewrite bind_ok by reflexivity.
  erewrite bind_ok by (by apply on_instance_attr).
  erewrite bind_ok by (by apply on_instance_attr).
  erewrite bind_ok by apply Hdb. reflexivity.
Qed.

(** ** Documents and the values they denote *)

Lemma json_induction (P : json -> Prop) :
  P JNull -> (forall b, P (JBool b)) -> (forall z, P (JInt z)) ->
  (forall s, P (JStr s)) ->
  (forall items, Forall P items -> P (JArr items)) ->
  (forall fields, Forall (fun kv => P kv.2) fields -> P (JObj fields)) ->
  forall j, P j.
Proof.
  intros HN HB HI HS HA HO. fix IH 1.
  intros [|b|z|s|items|fields];
    [apply HN | apply HB | apply HI | apply HS | apply HA | apply HO].
  - induction items as [|j items IHitems]; constructor; [apply IH | apply IHitems].
  - induction fields as [|[k j] fields IHfields]; constructor;
      [apply IH | apply IHfields].
Qed.

Lemma pyval_induction (P : pyval -> Prop) :
  P PNone -> (forall b, P (PBool b)) -> (forall z, P (PInt z)) ->
  (forall s, P (PStr s)) -> (forall d, P (PDate d)) ->
  (forall s, P (PState s)) ->
  (forall items, Forall P items -> P (PList items)) ->
  (forall entries, Forall (fun kv => P kv.2) entries -> P (PDict entries)) ->
  forall p, P p.
Proof.
  intros HN HB HI HS HD HM HA HO. fix IH 1.
  intros [|b|z|s|d|s|items|entries];
    [apply HN | apply HB | apply HI | apply HS | apply HD | apply HM
    | apply HA | apply HO].
  - induction items as [|p items IHitems]; constructor; [apply IH | apply IHitems].
  - induction entries as [|[k p] entries IHentries]; constructor;
      [apply IH | apply IHentries].
Qed.

Lemma json_loads_arr items :
  json_loads (JArr items) = (xs <- loads_items items ;; alloc (OList xs)).
Proof. reflexivity. Qed.

Lemma json_loads_obj fields :
  json_loads (JObj fields)
  = (kvs <- loads_fields fields ;; alloc (ODict (dict_of kvs))).
Proof. reflexivity. Qed.

Lemma loads_items_spec items :
  Forall loads_spec items ->
  forall h, exists ext vs,
    loads_items items h = (h ++ ext, Ok vs)
    /\ max_list (map depth items) <= length ext
    /\ forall n ext', max_list (map depth items) <= n ->
         mapM (reify n (h ++ ext ++ ext')) vs = Some (map decode items).
Proof.
  induction 1 as [|j items Hj _ IH]; intros h.
  - exists [], []. simpl. rewrite app_nil_r. by repeat split.
  - destruct (Hj h) as (ext1 & v & Hrun1 & Hd1 & Hv).
    destruct (IH (h ++ ext1)) as (ext2 & vs & Hrun2 & Hd2 & Hvs).
    exists (ext1 ++ ext2), (v :: vs). simpl. split; [|split].
    + erewrite bind_ok by eassumption. erewrite bind_ok by eassumption.
      by rewrite app_assoc.
    + rewrite length_app. lia.
    + intros n ext' Hn. rewrite <- (app_assoc ext1).
      rewrite Hv by lia. simpl.
      specialize (Hvs n ext'). rewrite <- !app_assoc in Hvs.
      rewrite Hvs by lia. reflexivity.
Qed.

Lemma loads_fields_spec fields :
  Forall (fun kv => loads_spec kv.2) fields ->
  forall h, exists ext kvs,
    loads_fields fields h = (h ++ ext, Ok kvs)
    /\ max_list (map (fun kv => depth kv.2) fields) <= length ext
    /\ forall n ext', max_list (map (fun kv => depth kv.2) fields) <= n ->
         mapM (fun kv => pair kv.1 <$> reify n (h ++ ext ++ ext') kv.2) kvs
         = Some (map (fun kv => (kv.1, decode kv.2)) fields).
Proof.
  induction 1 as [|[k j] fields Hj _ IH]; intros h.
  - exists [], []. simpl. rewrite app_nil_r. by repeat split.
  - destruct (Hj h) as (ext1 & v & Hrun1 & Hd1 & Hv).
    destruct (IH (h ++ ext1)) as (ext2 & kvs & Hrun2 & Hd2 & Hkvs).
    exists (ext1 ++ ext2), ((k, v) :: kvs). simpl in *. split; [|split].
    + erewrite bind_ok by eassumption. erewrite bind_ok by eassumption.
      by rewrite app_assoc.
    + rewrite length_app. lia.
    + intros n ext' Hn. rewrite <- (app_assoc ext1).
      rewrite Hv by lia. simpl.
      specialize (Hkvs n ext'). rewrite <- !app_assoc in Hkvs.
      rewrite Hkvs by lia. reflexivity.
Qed.

Section Dict_of.
Context {V W : Type} (g : V -> option W).

Lemma entry_related kv pe : entry_rel g kv pe -> pe.1 = kv.1 /\ g kv.2 = Some pe.2.
Proof.
  unfold entry_rel. destruct kv as [k v], pe as [k' w]. simpl.
  destruct (g v); simpl; [|done]. by intros [= -> ->].
Qed.

Lemma dict_store_related k v w d pd :
  g v = Some w -> Forall2 (entry_rel g) d pd ->
  Forall2 (entry_rel g) (dict_store k v d) (dict_store k w pd).
Proof.
  intros Hv. induction 1 as [|[k1 v1] [k2 w2] d pd Hr Htl IH]; simpl.
  - constructor; [|constructor]. unfold entry_rel. simpl. by rewrite Hv.
  - destruct (entry_related _ _ Hr) as [Hk Hg]. simpl in *. subst k2.
    destruct (String.eqb k1 k).
    + constructor; [|done]. unfold entry_rel. simpl. by rewrite Hv.
    + by constructor.
Qed.

Lemma fold_store_related kvs pes :
  Forall2 (entry_rel g) kvs pes -> forall d pd, Forall2 (entry_rel g) d pd ->
  Forall2 (entry_rel g) (fold_left (fun d kv => dict_store kv.1 kv.2 d) kvs d)
            (fold_left (fun d kv => dict_store kv.1 kv.2 d) pes pd).
Proof.
  induction 1 as [|kv pe kvs pes Hr _ IH]; intros d pd Hd; simpl;
    [exact Hd|].
  apply IH. destruct (entry_related _ _ Hr) as [-> Hg].
  by apply dict_store_related.
Qed.

Lemma mapM_dict_of kvs pes :
  mapM (fun kv => pair kv.1 <$> g kv.2) kvs = Some pes ->
  mapM (fun kv => pair kv.1 <$> g kv.2) (dict_of kvs) = Some (dict_of pes).
Proof.
  intros H. apply mapM_Some_1 in H. apply mapM_Some_2.
  apply (fold_store_related _ _ H). constructor.
Qed.
End Dict_of.

Lemma json_loads_spec j : loads_spec j.
Proof.
  induction j as [|b|z|s|items IH|fields IH] using json_induction; intros h.
  1-4: exists []; eexists; simpl; rewrite app_nil_r;
       (split; [reflexivity|]); (split; [lia|]); by intros [|n] ext' _.
  - destruct (loads_items_spec items IH h) as (ext & vs & Hrun & Hd & Hvs).
    exists (ext ++ [OList vs]), (VRef (length (h ++ ext))). split; [|split].
    + rewrite json_loads_arr. erewrite bind_ok by eassumption.
      unfold alloc. by rewrite app_assoc.
    + simpl. rewrite length_app. simpl. lia.
    + intros [|n] ext' Hn; simpl in Hn; [lia|]. simpl.
      replace (h ++ (ext ++ [OList vs]) ++ ext')
        with ((h ++ ext) ++ OList vs :: ext')
        by (by rewrite <- !app_assoc).
      rewrite list_lookup_middle by done.
      replace ((h ++ ext) ++ OList vs :: ext')
        with (h ++ ext ++ OList vs :: ext')
        by (by rewrite <- !app_assoc).
      rewrite Hvs by lia. reflexivity.
  - destruct (loads_fields_spec fields IH h) as (ext & kvs & Hrun & Hd & Hkvs).
    exists (ext ++ [ODict (dict_of kvs)]), (VRef (length (h ++ ext))).
    split; [|split].
    + rewrite json_loads_obj. erewrite bind_ok by eassumption.
      unfold alloc. by rewrite app_assoc.
    + simpl. rewrite length_app. simpl. lia.
    + intros [|n] ext' Hn; simpl in Hn; [lia|]. simpl.
      replace (h ++ (ext ++ [ODict (dict_of kvs)]) ++ ext')
        with ((h ++ ext) ++ ODict (dict_of kvs) :: ext')
        by (by rewrite <- !app_assoc).
      rewrite list_lookup_middle by done.
      replace ((h ++ ext) ++ ODict (dict_of kvs) :: ext')
        with (h ++ ext ++ ODict (dict_of kvs) :: ext')
        by (by rewrite <- !app_assoc).
      erewrite mapM_dict_of; [reflexivity|].
      apply Hkvs. lia.
Qed.

(** ** Encoding what was decoded *)

Lemma dict_store_fresh {V} k (v : V) d :
  k ∉ d.*1 -> dict_store k v d = d ++ [(k, v)].
Proof.
  induction d as [|[k' v'] d IH]; simpl; [done|].
  intros Hk. apply not_elem_of_cons in Hk as [Hne Hk].
  destruct (String.eqb_spec k' k) as [->|_]; [done|]. by rewrite IH.
Qed.

Lemma fold_store_nodup {V} (kvs d : list (string * V)) :
  NoDup (d ++ kvs).*1 ->
  fold_left (fun d kv => dict_store kv.1 kv.2 d) kvs d = d ++ kvs.
Proof.
  revert d. induction kvs as [|[k v] kvs IH]; intros d Hnd; simpl.
  - by rewrite app_nil_r.
  - rewrite dict_store_fresh.
    + rewrite IH; rewrite <- app_assoc; done.
    + rewrite fmap_app in Hnd. simpl in Hnd.
      apply NoDup_app in Hnd as (_ & Hd & _).
      intros Hin. apply (Hd k Hin). left.
Qed.

Lemma dict_of_nodup {V} (kvs : list (string * V)) :
  NoDup kvs.*1 -> dict_of kvs = kvs.
Proof. intros H. unfold dict_of. by rewrite fold_store_nodup. Qed.

Lemma distinct_keys_arr items :
  distinct_keys (JArr items) <-> Forall distinct_keys items.
Proof.
  simpl. induction items as [|j items IH]; simpl.
  - split; [constructor | done].
  - rewrite Forall_cons. by rewrite IH.
Qed.

Lemma distinct_keys_obj fields :
  distinct_keys (JObj fields)
  <-> NoDup fields.*1 /\ Forall (fun kv => distinct_keys kv.2) fields.
Proof.
  simpl. apply and_iff_compat_l.
  induction fields as [|kv fields IH]; simpl.
  - split; [constructor | done].
  - rewrite Forall_cons. by rewrite IH.
Qed.

Lemma pdistinct_keys_list items :
  pdistinct_keys (PList items) <-> Forall pdistinct_keys items.
Proof.
  simpl. induction items as [|j items IH]; simpl.
  - split; [constructor | done].
  - rewrite Forall_cons. by rewrite IH.
Qed.

Lemma pdistinct_keys_dict entries :
  pdistinct_keys (PDict entries)
  <-> NoDup entries.*1 /\ Forall (fun kv => pdistinct_keys kv.2) entries.
Proof.
  simpl. apply and_iff_compat_l.
  induction entries as [|kv entries IH]; simpl.
  - split; [constructor | done].
  - rewrite Forall_cons. by rewrite IH.
Qed.

Lemma encode_decode j :
  distinct_keys j -> DateTimeEncoder.encode (decode j) = Some j.
Proof.
  induction j as [|b|z|s|items IH|fields IH] using json_induction;
    intros Hd; try reflexivity.
  - apply distinct_keys_arr in Hd. simpl.
    rewrite (mapM_Some_2 _ _ items); [done|].
    apply Forall2_fmap_l, Forall_Forall2_diag.
    rewrite Forall_forall in IH, Hd. apply Forall_forall.
    intros j Hj. by apply IH, Hd.
  - apply distinct_keys_obj in Hd as [Hnd Hd].
    cbn [decode]. rewrite dict_of_nodup.
    2:{ rewrite <- list_fmap_compose. exact Hnd. }
    cbn [DateTimeEncoder.encode].
    rewrite (mapM_Some_2 _ _ fields); [done|].
    apply Forall2_fmap_l, Forall_Forall2_diag.
    rewrite Forall_forall in IH, Hd. apply Forall_forall.
    intros [k j] Hj. simpl.
    pose proof (IH _ Hj (Hd _ Hj)) as E. simpl in E. by rewrite E.
Qed.

(** ** Documents written from a well-formed store *)

Lemma mapM_keys {V W} (g : V -> option W)
    (kvs : list (string * V)) (pes : list (string * W)) :
  mapM (fun kv => pair kv.1 <$> g kv.2) kvs = Some pes -> pes.*1 = kvs.*1.
Proof.
  intros H. apply mapM_Some_1 in H.
  induction H as [|[k v] [k' w] kvs pes Hr _ IH]; [done|].
  simpl in Hr. destruct (g v); simpl in Hr; [|done].
  injection Hr as -> ->. rewrite !fmap_cons. by rewrite IH.
Qed.

Lemma heap_wf_lookup (h : heap) l kvs :
  heap_wf h -> h !! l = Some (ODict kvs) -> NoDup kvs.*1.
Proof.
  intros Hwf Hl. unfold heap_wf in Hwf. rewrite Forall_lookup in Hwf.
  apply (Hwf l _ Hl).
Qed.

Lemma reify_distinct_keys h :
  heap_wf h -> forall n v p, reify n h v = Some p -> pdistinct_keys p.
Proof.
  intros Hwf. induction n as [|n IH]; intros v p Hp.
  - destruct v; simpl in Hp; try (injection Hp as <-; exact I). done.
  - destruct v; simpl in Hp; try (injection Hp as <-; exact I).
    destruct (h !! l) as [[kvs|xs]|] eqn:Hl; [| |done].
    + destruct (mapM _ kvs) as [entries|] eqn:E; [|done].
      injection Hp as <-. apply pdistinct_keys_dict. split.
      * rewrite (mapM_keys _ _ _ E). by eapply heap_wf_lookup.
      * apply mapM_Some_1 in E. apply Forall_forall. intros e He.
        apply list_elem_of_lookup in He as [i Hi].
        destruct (Forall2_lookup_r _ _ _ _ _ E Hi) as (kv & _ & Hkv).
        simpl in Hkv. destruct (reify n h kv.2) as [p|] eqn:Er; [|done].
        injection Hkv as <-. simpl. by eapply IH.
    + destruct (mapM _ xs) as [items|] eqn:E; [|done].
      injection Hp as <-. apply pdistinct_keys_list.
      apply mapM_Some_1 in E. apply Forall_forall. intros e He.
      apply list_elem_of_lookup in He as [i Hi].
      destruct (Forall2_lookup_r _ _ _ _ _ E Hi) as (x & _ & Hx).
      by eapply IH.
Qed.

Lemma encode_distinct_keys p :
  pdistinct_keys p -> forall j, DateTimeEncoder.encode p = Some j ->
  distinct_keys j.
Proof.
  induction p as [|b|z|s|d|s|items IH|entries IH] using pyval_induction;
    intros Hd j Hj; simpl in Hj; try (injection Hj as <-; exact I); try done.
  - destruct (mapM _ items) as [js|] eqn:E; [|done]. injection Hj as <-.
    apply pdistinct_keys_list in Hd. apply distinct_keys_arr.
    apply mapM_Some_1 in E. apply Forall_forall. intros j Hin.
    apply list_elem_of_lookup in Hin as [i Hi].
    destruct (Forall2_lookup_r _ _ _ _ _ E Hi) as (p & Hp & Hpj).
    apply list_elem_of_lookup_2 in Hp.
    rewrite Forall_forall in IH, Hd. by eapply IH, Hpj; [|apply Hd].
  - destruct (mapM _ entries) as [fields|] eqn:E; [|done]. injection Hj as <-.
    apply pdistinct_keys_dict in Hd as [Hnd Hd]. apply distinct_keys_obj.
    split; [by rewrite (mapM_keys _ _ _ E)|].
    apply mapM_Some_1 in E. apply Forall_forall. intros [k j] Hin.
    apply list_elem_of_lookup in Hin as [i Hi].
    destruct (Forall2_lookup_r _ _ _ _ _ E Hi) as ([k' p] & Hp & Hpj).
    apply list_elem_of_lookup_2 in Hp. simpl in *.
    destruct (DateTimeEncoder.encode p) as [j'|] eqn:Ej; [|done].
    injection Hpj as -> ->.
    rewrite Forall_forall in IH, Hd.
    by eapply (IH _ Hp), Ej; apply (Hd _ Hp).
Qed.

(** Writing a value and reading the document back gives a value that is
    written as the same document. *)
Lemma dumps_loads_roundtrip (h : heap) v j :
  heap_wf h -> json_dumps v h = (h, Ok j) ->
  forall h0, exists ext v',
    json_loads j h0 = (h0 ++ ext, Ok v')
    /\ forall ext', json_dumps v' (h0 ++ ext ++ ext')
                    = (h0 ++ ext ++ ext', Ok j).
Proof.
  intros Hwf Hd h0.
  assert (Hj : distinct_keys j).
  { unfold json_dumps, value_of in Hd.
    destruct (reify _ h v) as [p|] eqn:Ep; [|done].
    destruct (DateTimeEncoder.encode p) as [j'|] eqn:Ej; [|done].
    injection Hd as <-.
    eapply encode_distinct_keys; [|done]. by eapply reify_distinct_keys. }
  destruct (json_loads_spec j h0) as (ext & v' & Hrun & Hdepth & Hv).
  exists ext, v'. split; [done|]. intros ext'.
  unfold json_dumps, value_of. rewrite Hv.
  - by rewrite encode_decode.
  - rewrite !length_app. lia.
Qed.

(** ** Reading a session back *)

Lemma load_cell_spec c empty (h : heap) :
  exists ext r, Database.load_cell c empty h = (h ++ ext, r).
Proof.
  destruct c as [|doc|]; simpl.
  - destruct (json_loads_spec empty h) as (ext & v & H & _). eauto.
  - destruct (json_loads_spec doc h) as (ext & v & H & _). eauto.
  - exists [], (Raise ValueError). by rewrite app_nil_r.
Qed.

(** [get_session] never raises and changes nothing but the store, which
    it extends; it returns a dictionary only for a key that has a row, and
    with the state text of that row. *)
Lemma get_session_spec session_id w :
  exists ext r,
    Database.get_session session_id w
    = (World (objects w ++ ext) (instances w) (table w) (sessions w)
             (enable_persistence w), Ok r)
    /\ match r with
       | Some sd => exists rw, table w !! session_id = Some rw
                               /\ sd_state sd = row_state rw
       | None => True
       end.
Proof.
  destruct w as [h ins t ss ep]. unfold Database.get_session.
  simpl. unfold try_except, bind, gets. simpl.
  destruct (t !! session_id) as [rw|] eqn:Ht; simpl.
  - destruct (load_cell_spec (row_appointment_data rw) (JObj []) h)
      as (ext1 & r1 & H1).
    unfold on_objects at 1. simpl. rewrite H1.
    destruct r1 as [ad|e].
    + destruct (load_cell_spec (row_context_stack rw) (JArr []) (h ++ ext1))
        as (ext2 & r2 & H2).
      unfold on_objects. simpl. rewrite H2.
      destruct r2 as [cs|e]; simpl.
      * exists (ext1 ++ ext2). eexists. rewrite app_assoc. split; [done|].
        simpl. eauto.
      * exists (ext1 ++ ext2), None. by rewrite app_assoc.
    + exists ext1, None. done.
  - exists [], None. by rewrite app_nil_r.
Qed.

Lemma new_instance_spec w :
  exists h' m ad av cs ua,
    new_instance w
    = (World h' (instances w ++ [m]) (table w) (sessions w)
             (enable_persistence w), Ok (length (instances w)))
    /\ state m = VState IDLE
    /\ appointment_data m = VRef ad /\ h' !! ad = Some (ODict [])
    /\ available_slots m = VRef av /\ h' !! av = Some (OList [])
    /\ selected_slot m = VNone
    /\ context_stack m = VRef cs /\ h' !! cs = Some (OList [])
    /\ user_appointments m = VRef ua /\ h' !! ua = Some (OList [])
    /\ (forall l o, objects w !! l = Some o -> h' !! l = Some o).
Proof.
  destruct w as [h ins t ss ep]. do 6 eexists. split; [reflexivity|].
  cbn. repeat split; try solve_lookup.
  intros l o Hl. solve_lookup.
Qed.

(** C6. A persisted record that names no member of the enumeration does
    not make [get_or_create_session] raise: on a cache miss, with
    persistence on, the call returns a fresh instance in state [IDLE] with
    an empty [appointment_data] and an empty [context_stack], and caches it
    under the session key; the record itself is left as it is. *)
Theorem resolve_corrupt_record (w : world) (session_id phone_number : string)
    (rw : row) :
  sessions w !! session_id = None ->
  enable_persistence w = true ->
  table w !! session_id = Some rw ->
  (forall s, name s ≠ row_state rw) ->
  exists w' i m ad cs,
    ConversationManager.get_or_create_session session_id phone_number w
    = (w', Ok i)
    /\ instances w !! i = None
    /\ instances w' !! i = Some m
    /\ state m = VState IDLE
    /\ appointment_data m = VRef ad /\ objects w' !! ad = Some (ODict [])
    /\ context_stack m = VRef cs /\ objects w' !! cs = Some (OList [])
    /\ sessions w' !! session_id = Some i
    /\ table w' = table w.
Proof.
  intros Hmiss Hpers Hrow Hname.
  unfold ConversationManager.get_or_create_session.
  erewrite bind_ok by reflexivity. rewrite Hmiss.
  erewrite bind_ok by reflexivity. rewrite Hpers.
  destruct (get_session_spec session_id w) as (ext & r & Hget & Hr).
  set (w1 := World (objects w ++ ext) (instances w) (table w) (sessions w)
                   (enable_persistence w)) in *.
  assert (Hrestore : exists h2 ins2,
    try_except
      (session_data <- Database.get_session session_id ;;
       match session_data with
       | Some sd =>
           state_machine <- new_instance ;;
           s <- ConversationState_getitem (VStr (sd_state sd)) ;;
           on_instance state_machine (assign with_state (VState s)) ;;;
           on_instance state_machine
             (assign with_appointment_data (sd_appointment_data sd)) ;;;
           on_instance state_machine
             (assign with_context_stack (sd_context_stack sd)) ;;;
           set_sessions (insert session_id state_machine) ;;;
           ret (Some state_machine)
       | None => ret None
       end)
      (fun _ => ret None) w
    = (World h2 (instances w ++ ins2) (table w) (sessions w)
             (enable_persistence w), Ok None)).
  { destruct r as [sd|].
    - destruct Hr as (rw' & Hrw' & Hst). rewrite Hrow in Hrw'.
      injection Hrw' as <-.
      destruct (new_instance_spec w1) as (h2 & m0 & ? & ? & ? & ? & Hnew & _).
      exists h2, [m0].
      erewrite try_except_raise; [reflexivity|].
      erewrite bind_ok by exact Hget. cbv beta iota.
      erewrite bind_ok by exact Hnew.
      erewrite bind_raise; [reflexivity|].
      unfold ConversationState_getitem. rewrite Hst.
      by rewrite (member_named_None _ Hname).
    - exists (objects w ++ ext), []. rewrite app_nil_r.
      erewrite try_except_ok; [reflexivity|].
      by erewrite bind_ok by exact Hget. }
  destruct Hrestore as (h2 & ins2 & Hrestore).
  erewrite bind_ok by exact Hrestore. simpl.
  set (w2 := World h2 (instances w ++ ins2) (table w) (sessions w)
                   (enable_persistence w)) in *.
  destruct (new_instance_spec w2)
    as (h3 & m & ad & av & cs & ua & Hnew & Hst & Had & Hlad & _ & _ & _
        & Hcs & Hlcs & _).
  erewrite bind_ok by exact Hnew.
  do 5 eexists. split; [reflexivity|]. simpl.
  split; [|split; [|repeat split; eauto]].
  - apply lookup_ge_None. rewrite length_app. lia.
  - apply list_lookup_middle. done.
  - apply lookup_insert_eq.
Qed.

Lemma save_session_fails_with_saved_context_witness :
  (forall st, Database.save_session "+5511999999999" "+5511999999999" st
                (VRef 0) (VRef 2) suspended_world
              = (suspended_world, Ok false))
  /\ ConversationManager.save_session "+5511999999999" "+5511999999999" 0
       suspended_world
     = (suspended_world, Ok tt).
Proof.
  apply (save_session_fails_with_saved_context suspended_world 0
           (Machine (VState OFF_TOPIC) (VRef 0) (VRef 1) VNone (VRef 2)
                    (VRef 3))
           "+5511999999999" "+5511999999999" 2 [VRef 7] (VRef 7)).
  - reflexivity.
  - reflexivity.
  - reflexivity.
  - apply list_elem_of_here.
  - exists 7. do 2 eexists. repeat split; reflexivity.
Defined.

Lemma resolve_corrupt_record_witness :
  exists w' i m ad cs,
    ConversationManager.get_or_create_session
      "+5511999999999" "+5511999999999" corrupt_world = (w', Ok i)
    /\ instances corrupt_world !! i = None
    /\ instances w' !! i = Some m
    /\ state m = VState IDLE
    /\ appointment_data m = VRef ad /\ objects w' !! ad = Some (ODict [])
    /\ context_stack m = VRef cs /\ objects w' !! cs = Some (OList [])
    /\ sessions w' !! "+5511999999999" = Some i
    /\ table w' = table corrupt_world.
Proof.
  apply (resolve_corrupt_record corrupt_world "+5511999999999"
           "+5511999999999"
           (Row "+5511999999999" "NOT_A_REAL_STATE"
                (Text (JObj [])) (Text (JArr [])))).
  - reflexivity.
  - reflexivity.
  - vm_compute. reflexivity.
  - intros s; destruct s; discriminate.
Defined.

(** C2, as stated, fails.  The session of [booking_world] is saved, the
    process restarts, and the session is resolved again: the machine that
    comes back has no available slots and no selected slot, so it is not
    equal to the one that was saved. *)
Lemma persistence_drops_slots :
  exists w1 w2 i' m m',
    ConversationManager.save_session "+5511999999999" "+5511999999999" 0
      booking_world = (w1, Ok tt)
    /\ ConversationManager.get_or_create_session
         "+5511999999999" "+5511999999999" (restart w1) = (w2, Ok i')
    /\ instances booking_world !! 0 = Some m
    /\ instances w2 !! i' = Some m'
    /\ value_of (objects booking_world) (available_slots m)
       ≠ value_of (objects w2) (available_slots m')
    /\ value_of (objects booking_world) (selected_slot m)
       ≠ value_of (objects w2) (selected_slot m')
    /\ ~ machine_equal (objects booking_world) m (objects w2) m'.
Proof.
  do 5 eexists.
  split; [vm_compute; reflexivity|].
  split; [vm_compute; reflexivity|].
  split; [reflexivity|].
  split; [vm_compute; reflexivity|].
  split; [vm_compute; discriminate|].
  split; [vm_compute; discriminate|].
  intros (_ & _ & H & _). vm_compute in H. discriminate.
Qed.

(** ** Writing a session and reading it back *)

Lemma db_save_session_inv session_id phone_number st ad cs w w1 :
  Database.save_session session_id phone_number st ad cs w = (w1, Ok true) ->
  exists ja jc,
    json_dumps ad (objects w) = (objects w, Ok ja)
    /\ json_dumps cs (objects w) = (objects w, Ok jc)
    /\ w1 = World (objects w) (instances w)
                  (Database.upsert session_id phone_number st ja jc (table w))
                  (sessions w) (enable_persistence w).
Proof.
  unfold Database.save_session. intros H.
  destruct (json_dumps_result ad (objects w)) as [[ja|e] Ha].
  2:{ erewrite try_except_raise in H.
      - discriminate.
      - erewrite bind_raise; [reflexivity|]. by apply on_objects_dumps. }
  destruct (json_dumps_result cs (objects w)) as [[jc|e] Hc].
  2:{ erewrite try_except_raise in H.
      - discriminate.
      - erewrite bind_ok by by apply on_objects_dumps.
        erewrite bind_raise; [reflexivity|]. by apply on_objects_dumps. }
  erewrite try_except_ok in H.
  2:{ erewrite bind_ok by by apply on_objects_dumps.
      erewrite bind_ok by by apply on_objects_dumps.
      erewrite bind_ok by reflexivity. reflexivity. }
  injection H as <-. eauto.
Qed.

Lemma upsert_lookup session_id phone_number st ja jc (t : gmap string row) :
  exists ph,
    Database.upsert session_id phone_number st ja jc t !! session_id
    = Some (Row ph st (Text ja) (Text jc)).
Proof.
  unfold Database.upsert. destruct (t !! session_id) as [r|];
    eexists; apply lookup_insert_eq.
Qed.

Lemma get_session_text session_id w ph st ja jc h1 h2 va vc :
  table w !! session_id = Some (Row ph st (Text ja) (Text jc)) ->
  json_loads ja (objects w) = (h1, Ok va) ->
  json_loads jc h1 = (h2, Ok vc) ->
  Database.get_session session_id w
  = (World h2 (instances w) (table w) (sessions w) (enable_persistence w),
     Ok (Some (SessionDict st va vc))).
Proof.
  intros Ht Ha Hc. unfold Database.get_session.
  erewrite try_except_ok; [reflexivity|].
  erewrite bind_ok by reflexivity. rewrite Ht. simpl.
  erewrite bind_ok by (by apply on_objects_run).
  erewrite bind_ok by (by apply on_objects_run).
  reflexivity.
Qed.

Lemma on_instance_assign upd v w i m :
  instances w !! i = Some m ->
  on_instance i (assign upd v) w
  = (World (objects w) (<[i := upd v m]> (instances w)) (table w)
           (sessions w) (enable_persistence w), Ok tt).
Proof. intros H. unfold on_instance. by rewrite H. Qed.

(** C2, amended.  When [Database.save_session] has written the session
    (it returned [True]), a later [get_or_create_session] that misses the
    cache, in the same process or after a restart, returns a new machine
    with the saved [state], and with an [appointment_data] and a
    [context_stack] that are written as the same JSON documents as the
    saved ones.  Its [available_slots] and [user_appointments] are empty
    lists and its [selected_slot] is [None], whatever the saved machine
    held: these three are not stored. *)
Theorem persisted_session_rehydrated (w w1 : world)
    (session_id phone_number : string) (i : nat) (m : machine)
    (s : ConversationState) :
  heap_wf (objects w) ->
  enable_persistence w = true ->
  instances w !! i = Some m ->
  state m = VState s ->
  Database.save_session session_id phone_number (name s)
    (appointment_data m) (context_stack m) w = (w1, Ok true) ->
  forall w0 : world,
    table w0 = table w1 ->
    sessions w0 !! session_id = None ->
    enable_persistence w0 = true ->
    exists w2 i' m' ja jc av ua,
      ConversationManager.save_session session_id phone_number i w
      = (w1, Ok tt)
      /\ ConversationManager.get_or_create_session session_id phone_number w0
         = (w2, Ok i')
      /\ instances w0 !! i' = None
      /\ instances w2 !! i' = Some m'
      /\ sessions w2 !! session_id = Some i'
      /\ state m' = VState s
      /\ json_dumps (appointment_data m) (objects w) = (objects w, Ok ja)
      /\ json_dumps (appointment_data m') (objects w2) = (objects w2, Ok ja)
      /\ json_dumps (context_stack m) (objects w) = (objects w, Ok jc)
      /\ json_dumps (context_stack m') (objects w2) = (objects w2, Ok jc)
      /\ available_slots m' = VRef av /\ objects w2 !! av = Some (OList [])
      /\ selected_slot m' = VNone
      /\ user_appointments m' = VRef ua /\ objects w2 !! ua = Some (OList []).
Proof.
  intros Hwf Hpw Hi Hst Hsave w0 Htable Hmiss Hpers.
  assert (Hmgr : ConversationManager.save_session session_id phone_number i w
                 = (w1, Ok tt)).
  { unfold ConversationManager.save_session.
    erewrite bind_ok by reflexivity. rewrite Hpw. simpl.
    erewrite try_except_ok; [reflexivity|].
    erewrite bind_ok by (by apply on_instance_attr). rewrite Hst. simpl.
    erewrite bind_ok by reflexivity.
    erewrite bind_ok by (by apply on_instance_attr).
    erewrite bind_ok by (by apply on_instance_attr).
    erewrite bind_ok by exact Hsave. reflexivity. }
  apply db_save_session_inv in Hsave as (ja & jc & Hja & Hjc & Hw1).
  rewrite Hw1 in Htable.
  simpl in Htable.
  destruct (upsert_lookup session_id phone_number (name s) ja jc (table w))
    as [ph Hrow].
  rewrite <- Htable in Hrow.
  destruct (dumps_loads_roundtrip _ _ _ Hwf Hja (objects w0))
    as (ext1 & va & Hla & Hda).
  destruct (dumps_loads_roundtrip _ _ _ Hwf Hjc (objects w0 ++ ext1))
    as (ext2 & vc & Hlc & Hdc).
  pose proof (get_session_text _ _ _ _ _ _ _ _ _ _ Hrow Hla Hlc) as Hget.
  set (wl := World ((objects w0 ++ ext1) ++ ext2) (instances w0) (table w0)
                   (sessions w0) (enable_persistence w0)) in *.
  destruct (new_instance_spec wl)
    as (h3 & m0 & ad & av & cs & ua & Hnew & _ & _ & _ & Hav & Hlav & Hsel
        & _ & _ & Hua & Hlua & Hold).
  assert (Hh3 : h3 = ((objects w0 ++ ext1) ++ ext2)
                     ++ [ODict []; OList []; OList []; OList []]).
  { unfold new_instance in Hnew.
    erewrite bind_ok in Hnew by (apply on_objects_run; reflexivity).
    injection Hnew as Hh _. rewrite <- Hh. simpl. by rewrite <- !app_assoc. }
  set (mk := fun m0 => with_context_stack vc
                (with_appointment_data va (with_state (VState s) m0))).
  exists (World h3 (instances w0 ++ [mk m0]) (table w0)
                (<[session_id := length (instances w0)]> (sessions w0))
                (enable_persistence w0)),
         (length (instances w0)), (mk m0), ja, jc, av, ua.
  split; [exact Hmgr|].
  split.
  { unfold ConversationManager.get_or_create_session.
    erewrite bind_ok by reflexivity. rewrite Hmiss.
    erewrite bind_ok by reflexivity. rewrite Hpers.
    erewrite bind_ok.
    2:{ erewrite try_except_ok; [reflexivity|].
        erewrite bind_ok by exact Hget. cbv beta iota.
        erewrite bind_ok by exact Hnew.
        erewrite bind_ok.
        2:{ unfold ConversationState_getitem. simpl.
            rewrite member_named_name. reflexivity. }
        erewrite bind_ok.
        2:{ apply on_instance_assign. simpl. apply list_lookup_middle. done. }
        erewrite bind_ok.
        2:{ apply on_instance_assign. simpl.
            apply list_lookup_insert_eq. rewrite length_app. simpl. lia. }
        erewrite bind_ok.
        2:{ apply on_instance_assign. simpl.
            apply list_lookup_insert_eq. rewrite !length_insert, length_app.
            simpl. lia. }
        erewrite bind_ok by reflexivity.
        reflexivity. }
    simpl. unfold ret. f_equal. f_equal; [|done].
    rewrite !list_insert_insert_eq.
    replace (length (instances w0)) with (length (instances w0) + 0) at 1
      by lia.
    rewrite insert_app_r. reflexivity. }
  simpl. split; [apply lookup_ge_None; lia|].
  split; [by apply list_lookup_middle|].
  split; [apply lookup_insert_eq|].
  split; [done|]. split; [done|].
  split.
  { rewrite Hh3. rewrite <- !app_assoc. apply Hda. }
  split; [done|].
  split.
  { rewrite Hh3. rewrite <- (app_assoc (objects w0 ++ ext1)). apply Hdc. }
  repeat split; done.
Qed.

Lemma persisted_session_rehydrated_witness :
  let w1 := (ConversationManager.save_session
               "+5511999999999" "+5511999999999" 0 booking_world).1 in
  exists w2 i' m' ja jc av ua,
    ConversationManager.save_session "+5511999999999" "+5511999999999" 0
      booking_world = (w1, Ok tt)
    /\ ConversationManager.get_or_create_session
         "+5511999999999" "+5511999999999" (restart w1) = (w2, Ok i')
    /\ instances (restart w1) !! i' = None
    /\ instances w2 !! i' = Some m'
    /\ sessions w2 !! "+5511999999999" = Some i'
    /\ state m' = VState COLLECTING_PATIENT_INFO
    /\ json_dumps (VRef 0) (objects booking_world)
       = (objects booking_world, Ok ja)
    /\ json_dumps (appointment_data m') (objects w2) = (objects w2, Ok ja)
    /\ json_dumps (VRef 2) (objects booking_world)
       = (objects booking_world, Ok jc)
    /\ json_dumps (context_stack m') (objects w2) = (objects w2, Ok jc)
    /\ available_slots m' = VRef av /\ objects w2 !! av = Some (OList [])
    /\ selected_slot m' = VNone
    /\ user_appointments m' = VRef ua /\ objects w2 !! ua = Some (OList []).
Proof.
  intros w1.
  apply (persisted_session_rehydrated booking_world w1
           "+5511999999999" "+5511999999999" 0
           (Machine (VState COLLECTING_PATIENT_INFO) (VRef 0) (VRef 1)
                    (VRef 4) (VRef 2) (VRef 3))
           COLLECTING_PATIENT_INFO).
  - unfold heap_wf, booking_world. simpl.
    repeat match goal with
           | |- Forall _ (_ :: _) => apply Forall_cons; split
           | |- Forall _ [] => apply Forall_nil
           | |- True => exact I
           | |- NoDup _ => compute_done
           end.
  - reflexivity.
  - reflexivity.
  - reflexivity.
  - vm_compute. reflexivity.
  - reflexivity.
  - reflexivity.
  - reflexivity.
Defined.

(** ** Calls made in turn *)

Lemma get_or_create_session_cached w session_id phone_number i :
  sessions w !! session_id = Some i ->
  ConversationManager.get_or_create_session session_id phone_number w
  = (w, Ok i).
Proof.
  intros H. unfold ConversationManager.get_or_create_session.
  erewrite bind_ok by reflexivity. by rewrite H.
Qed.

Lemma get_or_create_session_unseen w session_id phone_number :
  sessions w !! session_id = None ->
  table w !! session_id = None ->
  exists h' m,
    ConversationManager.get_or_create_session session_id phone_number w
    = (World h' (instances w ++ [m]) (table w)
             (<[session_id := length (instances w)]> (sessions w))
             (enable_persistence w),
       Ok (length (instances w)))
    /\ state m = VState IDLE.
Proof.
  intros Hmiss Hrow.
  unfold ConversationManager.get_or_create_session.
  erewrite bind_ok by reflexivity. rewrite Hmiss.
  erewrite bind_ok by reflexivity.
  destruct (new_instance_spec w) as (h' & m & ? & ? & ? & ? & Hnew & Hst & _).
  exists h', m. split; [|done].
  destruct (enable_persistence w) eqn:Hp.
  - erewrite bind_ok.
    2:{ erewrite try_except_ok; [reflexivity|].
        unfold Database.get_session.
        erewrite bind_ok.
        2:{ erewrite try_except_ok; [reflexivity|].
            erewrite bind_ok by reflexivity. rewrite Hrow. reflexivity. }
        reflexivity. }
    simpl. erewrite bind_ok by exact Hnew.
    erewrite bind_ok by reflexivity. simpl. by rewrite ?Hp.
  - erewrite bind_ok by reflexivity.
    simpl. erewrite bind_ok by exact Hnew.
    erewrite bind_ok by reflexivity. simpl. by rewrite ?Hp.
Qed.

(** Any number of calls for a key never seen, made one after another:
    the first creates one machine, every call returns that instance, and
    no other instance is created. *)
Lemma resolve_in_turn_one_instance w session_id callers :
  sessions w !! session_id = None ->
  table w !! session_id = None ->
  callers ≠ [] ->
  exists w' m,
    resolve_in_turn session_id callers w
    = (w', Ok (replicate (length callers) (length (instances w))))
    /\ instances w' = instances w ++ [m]
    /\ sessions w' !! session_id = Some (length (instances w)).
Proof.
  intros Hmiss Hrow Hne. destruct callers as [|p rest]; [done|]. clear Hne.
  destruct (get_or_create_session_unseen w session_id p Hmiss Hrow)
    as (h' & m & Hfirst & _).
  set (w1 := World h' (instances w ++ [m]) (table w)
                   (<[session_id := length (instances w)]> (sessions w))
                   (enable_persistence w)) in *.
  assert (Hhit : sessions w1 !! session_id = Some (length (instances w)))
    by apply lookup_insert_eq.
  assert (Hrest : resolve_in_turn session_id rest w1
                  = (w1, Ok (replicate (length rest) (length (instances w))))).
  { induction rest as [|q rest IH]; [done|]. simpl.
    erewrite bind_ok by (by apply get_or_create_session_cached).
    erewrite bind_ok by exact IH. reflexivity. }
  exists w1, m. split; [|done].
  simpl. erewrite bind_ok by exact Hfirst.
  erewrite bind_ok by exact Hrest. reflexivity.
Qed.

(** * More about the state machine *)

Lemma setitem_inv_ok v k x (h h' : heap) :
  setitem v k x h = (h', Ok tt) ->
  exists a kvs, v = VRef a /\ h !! a = Some (ODict kvs)
                /\ h' = <[a := ODict (dict_store k x kvs)]> h.
Proof.
  destruct v; try discriminate. simpl. intros H.
  apply bind_inv_ok in H as (h1 & o & Hd & Hs).
  apply deref_inv in Hd as [-> Hd].
  destruct (h !! l) as [o'|] eqn:E; [|discriminate].
  injection Hd as ->. destruct o' as [kvs|xs]; [|discriminate].
  inversion Hs. eauto 10.
Qed.

Lemma set_appointment_data_run (h : heap) m a kvs k v :
  appointment_data m = VRef a -> h !! a = Some (ODict kvs) ->
  set_appointment_data k v (Cfg h m)
  = (Cfg (<[a := ODict (dict_store k v kvs)]> h) m, Ok tt).
Proof.
  intros Ha Hl. unfold set_appointment_data.
  erewrite bind_ok by reflexivity. cbn [self]. rewrite Ha.
  by erewrite on_heap_run by (by apply setitem_dict).
Qed.

Lemma clear_appointment_data_run (h : heap) m :
  clear_appointment_data (Cfg h m)
  = (Cfg ((h ++ [ODict []]) ++ [OList []])
         (with_selected_slot VNone
            (with_available_slots (VRef (length (h ++ [ODict []])))
               (with_appointment_data (VRef (length h)) m))),
     Ok tt).
Proof. reflexivity. Qed.

(** X1. Writing and reading the data.  After a successful
    [set_appointment_data(key, value)], [get_appointment_data(key)]
    returns [value] and [get_appointment_data] of any other key returns
    what it returned before; the call changes no attribute of the machine
    and no object other than the data dictionary. *)
Theorem set_then_get_appointment_data (c c' : cfg) (key : string) (value : val) :
  set_appointment_data key value c = (c', Ok tt) ->
  get_appointment_data key c' = (c', Ok value)
  /\ (forall k, k ≠ key ->
        (get_appointment_data k c').2 = (get_appointment_data k c).2)
  /\ self c' = self c
  /\ (forall l, appointment_data (self c) ≠ VRef l -> hp c' !! l = hp c !! l).
Proof.
  destruct c as [h m]. unfold set_appointment_data. intros H.
  apply bind_inv_ok in H as (c0 & d & Hs & H). inversion Hs; subst; clear Hs.
  apply on_heap_inv in H as (h' & H & ->). simpl in *.
  apply setitem_inv_ok in H as (a & kvs & Ha & Hl & ->).
  assert (Hl' : <[a:=ODict (dict_store key value kvs)]> h !! a
                = Some (ODict (dict_store key value kvs)))
    by (by eapply lookup_store_eq).
  split; [|split; [|split]].
  - unfold get_appointment_data. py_step. rewrite Ha.
    erewrite on_heap_run by (eapply get_method_dict; exact Hl').
    by rewrite dict_lookup_store.
  - intros k Hk. unfold get_appointment_data.
    erewrite !bind_ok by reflexivity. simpl. rewrite Ha.
    erewrite !on_heap_run by (eapply get_method_dict; eassumption).
    simpl. by rewrite dict_lookup_store_ne.
  - reflexivity.
  - intros l Hne. apply list_lookup_insert_ne. congruence.
Qed.

Lemma set_then_get_appointment_data_witness :
  exists c',
    set_appointment_data "time" (VStr "14:00") initial_cfg = (c', Ok tt)
    /\ get_appointment_data "time" c' = (c', Ok (VStr "14:00")).
Proof.
  eexists. split; [vm_compute; reflexivity|].
  apply (set_then_get_appointment_data initial_cfg _ "time" (VStr "14:00")).
  vm_compute; reflexivity.
Defined.

Lemma all_in_dict (h : heap) a kvs keys :
  h !! a = Some (ODict kvs) ->
  all_in (VRef a) keys h
  = (h, Ok (forallb (fun k => bool_decide (is_Some (dict_lookup k kvs))) keys)).
Proof.
  intros Ha. induction keys as [|k keys IH]; [done|]. simpl.
  erewrite bind_ok.
  2:{ unfold contains. erewrite bind_ok by (by apply deref_run). reflexivity. }
  destruct (bool_decide (is_Some (dict_lookup k kvs))); simpl; [apply IH|done].
Qed.

(** X2. The completion test.  On a machine whose data is a dictionary,
    [is_appointment_complete] changes nothing and returns [True] exactly
    when each of ['date'], ['time'], ['patient_name'] and
    ['patient_email'] is a key of the data, whatever the values. *)
Theorem is_appointment_complete_iff (c : cfg) (a : loc)
    (kvs : list (string * val)) :
  appointment_data (self c) = VRef a ->
  hp c !! a = Some (ODict kvs) ->
  exists b,
    is_appointment_complete c = (c, Ok b)
    /\ (b = true <->
        is_Some (dict_lookup "date" kvs) /\ is_Some (dict_lookup "time" kvs)
        /\ is_Some (dict_lookup "patient_name" kvs)
        /\ is_Some (dict_lookup "patient_email" kvs)).
Proof.
  destruct c as [h m]. simpl. intros Ha Hl.
  eexists. split.
  - unfold is_appointment_complete.
    erewrite bind_ok by reflexivity. cbn [self]. rewrite Ha.
    erewrite on_heap_run by (by apply all_in_dict). reflexivity.
  - unfold required_fields. simpl.
    rewrite !andb_true_iff, !bool_decide_eq_true. tauto.
Qed.

Lemma is_appointment_complete_iff_witness :
  exists b,
    is_appointment_complete initial_cfg = (initial_cfg, Ok b)
    /\ (b = true <->
        is_Some (dict_lookup "date" (@nil (string * val)))
        /\ is_Some (dict_lookup "time" (@nil (string * val)))
        /\ is_Some (dict_lookup "patient_name" (@nil (string * val)))
        /\ is_Some (dict_lookup "patient_email" (@nil (string * val)))).
Proof.
  apply (is_appointment_complete_iff initial_cfg 0 []); reflexivity.
Defined.

(** X3. Collecting the four fields, in any state of the rest of the
    machine: after the four [set_appointment_data] calls the machine is
    complete, and after [clear_appointment_data] it is not. *)
Theorem complete_after_four_fields (c : cfg) (a : loc)
    (kvs : list (string * val)) (d t n e : val) :
  appointment_data (self c) = VRef a ->
  hp c !! a = Some (ODict kvs) ->
  exists c1 c2,
    (set_appointment_data "date" d ;;;
     set_appointment_data "time" t ;;;
     set_appointment_data "patient_name" n ;;;
     set_appointment_data "patient_email" e ;;;
     is_appointment_complete) c = (c1, Ok true)
    /\ (clear_appointment_data ;;; is_appointment_complete) c1
       = (c2, Ok false).
Proof.
  destruct c as [h m]. simpl. intros Ha Hl.
  do 2 eexists. split.
  - do 4 (erewrite bind_ok
            by (eapply set_appointment_data_run; [exact Ha | solve_lookup])).
    unfold is_appointment_complete.
    erewrite bind_ok by reflexivity. cbn [self]. rewrite Ha.
    erewrite on_heap_run by (apply all_in_dict; solve_lookup).
    f_equal. f_equal. unfold required_fields. simpl.
    rewrite !andb_true_iff, !bool_decide_eq_true.
    repeat split; eexists;
      repeat first [ apply dict_lookup_store
                   | rewrite dict_lookup_store_ne by discriminate ].
  - erewrite bind_ok by apply clear_appointment_data_run.
    unfold is_appointment_complete.
    erewrite bind_ok by reflexivity. cbn [self appointment_data].
    erewrite on_heap_run by (apply all_in_dict; solve_lookup).
    reflexivity.
Qed.

Lemma complete_after_four_fields_witness :
  exists c1 c2,
    (set_appointment_data "date" (VDate (Date 2025 11 15)) ;;;
     set_appointment_data "time" (VStr "14:00") ;;;
     set_appointment_data "patient_name" (VStr "Ana") ;;;
     set_appointment_data "patient_email" (VStr "ana@example.com") ;;;
     is_appointment_complete) initial_cfg = (c1, Ok true)
    /\ (clear_appointment_data ;;; is_appointment_complete) c1
       = (c2, Ok false).
Proof.
  apply (complete_after_four_fields initial_cfg 0 []); reflexivity.
Defined.

(** X4. [transition_to] has no transition table: from any member it moves
    to any member, changing the state and nothing else.  Given a value
    that has no [name] attribute ([None], a Boolean, an integer, a string,
    a date, a dictionary or a list) it raises [AttributeError], from the
    trace line that formats [new_state.name] before the assignment, and
    the machine keeps its state. *)
Theorem transition_to_any_member (c : cfg) (s0 : ConversationState) :
  state (self c) = VState s0 ->
  (forall s, transition_to (VState s) c
             = (Cfg (hp c) (with_state (VState s) (self c)), Ok tt))
  /\ (forall v, nameless v ->
                transition_to v c = (c, Raise AttributeError)).
Proof.
  destruct c as [h m]. simpl. intros Hst. split.
  - intros s. unfold transition_to. py_step. rewrite Hst. reflexivity.
  - intros v Hv. unfold transition_to. py_step. rewrite Hst. simpl.
    by destruct v.
Qed.

Lemma transition_to_any_member_witness :
  transition_to (VState CONFIRMING_CANCELLATION) initial_cfg
  = (Cfg (hp initial_cfg)
         (with_state (VState CONFIRMING_CANCELLATION) (self initial_cfg)),
     Ok tt)
  /\ transition_to (VStr "GREETING") initial_cfg
     = (initial_cfg, Raise AttributeError).
Proof.
  destruct (transition_to_any_member initial_cfg IDLE eq_refl) as [H1 H2].
  split; [apply H1 | by apply H2].
Defined.

(** ** [save_context] step by step *)

Lemma copy_method_frame v (h h' : heap) r :
  copy_method v h = (h', r) ->
  (exists ext, h' = h ++ ext).
Proof.
  destruct v; simpl; intros H;
    try (injection H as <- _; exists []; by rewrite app_nil_r).
  apply bind_inv in H as [(h1 & o & Hd & Hs)|(e & Hd & ->)].
  - apply deref_inv in Hd as [-> _]. injection Hs as <- _. eauto.
  - apply deref_inv in Hd as [-> _]. exists []. by rewrite app_nil_r.
Qed.

Lemma append_method_raise v x (h h' : heap) e :
  append_method v x h = (h', Raise e) -> h' = h.
Proof.
  destruct v; simpl; intros H; try by injection H as <-.
  apply bind_inv in H as [(h1 & o & Hd & Hs)|(e' & Hd & _)].
  - apply deref_inv in Hd as [-> _]. destruct o; [by injection Hs as <-|done].
  - by apply deref_inv in Hd as [-> _].
Qed.

(** A [save_context] that raises has only allocated: it leaves the
    machine and every object as they were. *)
Lemma save_context_raise now c c' e :
  save_context now c = (c', Raise e) ->
  exists ext, c' = Cfg (hp c ++ ext) (self c).
Proof.
  destruct c as [h m]. unfold save_context. intros H.
  repeat match type of H with
         | bind (attr _) _ _ = _ =>
             erewrite bind_ok in H by reflexivity; cbn [self hp] in H
         end.
  apply bind_inv in H as [(c1 & ad' & Hs & H)|(e' & Hs & _)].
  2:{ apply on_heap_inv in Hs as (h1 & Hs & ->).
      apply copy_method_frame in Hs as [ext ->]. eauto. }
  apply on_heap_inv in Hs as (h1 & Hs & ->).
  apply copy_method_frame in Hs as [ext1 ->].
  repeat match type of H with
         | bind (attr _) _ _ = _ =>
             erewrite bind_ok in H by reflexivity; cbn [self hp] in H
         end.
  apply bind_inv in H as [(c1 & av' & Hs & H)|(e' & Hs & _)].
  2:{ apply on_heap_inv in Hs as (h1 & Hs & ->).
      apply copy_method_frame in Hs as [ext ->]. simpl.
      rewrite <- app_assoc. eauto. }
  apply on_heap_inv in Hs as (h1 & Hs & ->).
  apply copy_method_frame in Hs as [ext2 ->]. simpl in H.
  repeat match type of H with
         | bind (attr _) _ _ = _ =>
             erewrite bind_ok in H by reflexivity; cbn [self hp] in H
         end.
  apply bind_inv in H as [(c1 & ua' & Hs & H)|(e' & Hs & _)].
  2:{ apply on_heap_inv in Hs as (h1 & Hs & ->).
      apply copy_method_frame in Hs as [ext ->]. simpl.
      rewrite <- !app_assoc. eauto. }
  apply on_heap_inv in Hs as (h1 & Hs & ->).
  apply copy_method_frame in Hs as [ext3 ->]. simpl in H.
  erewrite bind_ok in H by reflexivity. cbn [self hp] in H.
  erewrite bind_ok in H by reflexivity. cbn [self hp] in H.
  apply bind_inv in H as [(c1 & [] & Hs & H)|(e' & Hs & _)].
  2:{ apply on_heap_inv in Hs as (h1 & Hs & ->).
      apply append_method_raise in Hs as ->. simpl.
      rewrite <- !app_assoc. eauto. }
  apply on_heap_inv in Hs as (h1 & Hs & ->). simpl in *.
  apply append_method_inv_ok in Hs as (cs & stack & Hcs & Hlcs & ->).
  erewrite bind_ok in H by reflexivity. cbn [self hp] in H.
  rewrite Hcs in H.
  erewrite bind_ok in H.
  2:{ apply on_heap_run. eapply len_list. by eapply lookup_store_eq. }
  discriminate.
Qed.

(** X5. [save_context] pushes one snapshot or nothing.  On a machine with
    a context stack, a call that returns has put exactly one new
    dictionary on top of the stack, above the snapshots that were there;
    a call that raises leaves the stack as it was.  Either way the
    attributes of the machine and every other existing object are
    unchanged. *)
Theorem save_context_pushes_one (now : string) (c c1 : cfg) (r : result unit)
    (cs : loc) (stack : list val) :
  context_stack (self c) = VRef cs ->
  hp c !! cs = Some (OList stack) ->
  save_context now c = (c1, r) ->
  self c1 = self c
  /\ (forall l o, l ≠ cs -> hp c !! l = Some o -> hp c1 !! l = Some o)
  /\ match r with
     | Ok _ => exists t es, hp c !! t = None
                            /\ hp c1 !! t = Some (ODict es)
                            /\ hp c1 !! cs = Some (OList (stack ++ [VRef t]))
     | Raise _ => hp c1 !! cs = Some (OList stack)
     end.
Proof.
  intros Hcs Hlcs Hrun. destruct r as [[]|e].
  - apply save_context_inv in Hrun
      as (ad & av & ua & cs' & o_ad & o_av & o_ua & stack0 & h4 &
          Had & Hlad & Hav & Hua & Hcs' & Hh4 & Hlcs' & ->).
    rewrite Hcs in Hcs'. injection Hcs' as <-.
    assert (H4 : forall l o, hp c !! l = Some o -> h4 !! l = Some o).
    { intros l o Hl. rewrite Hh4. solve_lookup. }
    rewrite (H4 _ _ Hlcs) in Hlcs'. injection Hlcs' as <-.
    simpl. split; [done|]. split.
    + intros l o Hne Hl. apply lookup_store_ne; auto.
    + exists (length (((hp c ++ [o_ad]) ++ [o_av]) ++ [o_ua])). eexists.
      split; [|split].
      * apply lookup_ge_None. rewrite !length_app. simpl. lia.
      * apply lookup_store_ne.
        -- apply lookup_lt_Some in Hlcs. rewrite !length_app. simpl. lia.
        -- rewrite Hh4. apply lookup_alloc.
      * eapply lookup_store_eq. by apply H4.
  - apply save_context_raise in Hrun as [ext ->]. simpl.
    split; [done|]. split.
    + intros l o _ Hl. by apply lookup_app_l_Some.
    + by apply lookup_app_l_Some.
Qed.

Lemma save_context_pushes_one_witness :
  self (save_context "2025-11-05T10:00:00" initial_cfg).1 = self initial_cfg
  /\ (forall l o, l ≠ 2 -> hp initial_cfg !! l = Some o ->
                  hp (save_context "2025-11-05T10:00:00" initial_cfg).1 !! l
                  = Some o)
  /\ match (save_context "2025-11-05T10:00:00" initial_cfg).2 with
     | Ok _ =>
         exists t es,
           hp initial_cfg !! t = None
           /\ hp (save_context "2025-11-05T10:00:00" initial_cfg).1 !! t
              = Some (ODict es)
           /\ hp (save_context "2025-11-05T10:00:00" initial_cfg).1 !! 2
              = Some (OList ([] ++ [VRef t]))
     | Raise _ =>
         hp (save_context "2025-11-05T10:00:00" initial_cfg).1 !! 2
         = Some (OList [])
     end.
Proof.
  apply (save_context_pushes_one "2025-11-05T10:00:00" initial_cfg
           (save_context "2025-11-05T10:00:00" initial_cfg).1
           (save_context "2025-11-05T10:00:00" initial_cfg).2 2 []);
    reflexivity.
Defined.

(** The shape of a successful [save_context], with the copies it
    takes. *)
Lemma save_context_shape now c c1 :
  save_context now c = (c1, Ok tt) ->
  exists ad av ua cs o_ad o_av o_ua stack h4,
    appointment_data (self c) = VRef ad /\ hp c !! ad = Some o_ad
    /\ available_slots (self c) = VRef av
    /\ (hp c ++ [o_ad]) !! av = Some o_av
    /\ user_appointments (self c) = VRef ua
    /\ ((hp c ++ [o_ad]) ++ [o_av]) !! ua = Some o_ua
    /\ context_stack (self c) = VRef cs
    /\ h4 = (((hp c ++ [o_ad]) ++ [o_av]) ++ [o_ua]) ++
             [ODict [ ("state", state (self c));
                      ("appointment_data", VRef (length (hp c)));
                      ("available_slots", VRef (length (hp c ++ [o_ad])));
                      ("selected_slot", selected_slot (self c));
                      ("user_appointments",
                       VRef (length ((hp c ++ [o_ad]) ++ [o_av])));
                      ("timestamp", VStr now) ]]
    /\ h4 !! cs = Some (OList stack)
    /\ c1 = Cfg (<[cs := OList (stack ++
                    [VRef (length (((hp c ++ [o_ad]) ++ [o_av]) ++ [o_ua]))])]> h4)
                (self c).
Proof.
  destruct c as [h m]. unfold save_context. simpl. intros H.
  inv_step H. inv_step H. inv_step H.
  apply copy_method_inv_ok in Hs as (ad & o_ad & Had & Hlad & -> & ->).
  inv_step H. inv_step H.
  apply copy_method_inv_ok in Hs as (av & o_av & Hav & Hlav & -> & ->).
  inv_step H. inv_step H. inv_step H.
  apply copy_method_inv_ok in Hs as (ua & o_ua & Hua & Hlua & -> & ->).
  inv_step H. inversion Hs; subst; clear Hs. inv_step H. inv_step H.
  destruct x0.
  apply append_method_inv_ok in Hs as (cs & stack & Hcs & Hlcs & ->).
  inv_step H. inv_step H. inversion H; subst.
  apply len_frame in Hs as ->.
  exists ad, av, ua, cs, o_ad, o_av, o_ua, stack. eexists.
  repeat split; eauto.
Qed.

(** X6. Suspending and resuming, in general.  On a machine whose state is
    a member, after a successful [save_context] and then any sequence of
    changes to the live record that does not touch the stack (whether the
    sequence completes or raises), [restore_context] returns [True] and
    the machine is back where it was saved: the same state and selected
    slot, an [appointment_data], [available_slots] and
    [user_appointments] with the contents they had at the save, and the
    stack as it was before the save. *)
Theorem save_then_restore (now : string) (c c1 c2 : cfg) (us : list mutation)
    (r : result unit) (s : ConversationState) (cs : loc) (stack : list val) :
  state (self c) = VState s ->
  context_stack (self c) = VRef cs ->
  hp c !! cs = Some (OList stack) ->
  live (hp c) (available_slots (self c)) ->
  live (hp c) (user_appointments (self c)) ->
  save_context now c = (c1, Ok tt) ->
  apply_mutations us c1 = (c2, r) ->
  exists c3,
    restore_context c2 = (c3, Ok true)
    /\ state (self c3) = VState s
    /\ target (hp c3) (appointment_data (self c3))
       = target (hp c) (appointment_data (self c))
    /\ target (hp c3) (available_slots (self c3))
       = target (hp c) (available_slots (self c))
    /\ selected_slot (self c3) = selected_slot (self c)
    /\ target (hp c3) (user_appointments (self c3))
       = target (hp c) (user_appointments (self c))
    /\ context_stack (self c3) = VRef cs
    /\ hp c3 !! cs = Some (OList stack).
Proof.
  intros Hst Hcs Hlcs Hlav Hlua Hsave Hrun.
  apply save_context_shape in Hsave
    as (ad & av & ua & cs' & o_ad & o_av & o_ua & stack0 & h4 &
        Had & Hlad & Hav & Hlav' & Hua & Hlua' & Hcs' & Hh4 & Hlcs' & ->).
  rewrite Hcs in Hcs'. injection Hcs' as <-.
  destruct c as [h m]. simpl in *.
  assert (H4 : forall l o, h !! l = Some o -> h4 !! l = Some o).
  { intros l o Hl. rewrite Hh4. solve_lookup. }
  rewrite (H4 _ _ Hlcs) in Hlcs'. injection Hlcs' as <-.
  rewrite Hav in Hlav. rewrite Hua in Hlua. simpl in Hlav, Hlua.
  destruct Hlav as [o_av' Hlav]. destruct Hlua as [o_ua' Hlua].
  assert (o_av' = o_av) as ->.
  { assert ((h ++ [o_ad]) !! av = Some o_av') by solve_lookup. congruence. }
  assert (o_ua' = o_ua) as ->.
  { assert (((h ++ [o_ad]) ++ [o_av]) !! ua = Some o_ua') by solve_lookup.
    congruence. }
  pose proof (lookup_lt_Some _ _ _ Hlad) as Bad.
  pose proof (lookup_lt_Some _ _ _ Hlcs) as Bcs.
  remember (length (((h ++ [o_ad]) ++ [o_av]) ++ [o_ua])) as t eqn:Et.
  remember (length (h ++ [o_ad])) as av1 eqn:Eav1.
  remember (length ((h ++ [o_ad]) ++ [o_av])) as ua1 eqn:Eua1.
  assert (Hlen4 : length h4 = length h + 4).
  { rewrite Hh4, !length_app. simpl. lia. }
  assert (Bt : t = length h + 3) by (rewrite Et, !length_app; simpl; lia).
  assert (Bav1 : av1 = length h + 1) by (rewrite Eav1, !length_app; simpl; lia).
  assert (Bua1 : ua1 = length h + 2)
    by (rewrite Eua1, !length_app; simpl; lia).
  assert (H4ad : h4 !! length h = Some o_ad) by (rewrite Hh4; solve_lookup).
  assert (H4av : h4 !! av1 = Some o_av)
    by (rewrite Hh4, Eav1; solve_lookup).
  assert (H4ua : h4 !! ua1 = Some o_ua)
    by (rewrite Hh4, Eua1; solve_lookup).
  assert (H4t : h4 !! t = Some (ODict
            [("state", state m); ("appointment_data", VRef (length h));
             ("available_slots", VRef av1);
             ("selected_slot", selected_slot m);
             ("user_appointments", VRef ua1);
             ("timestamp", VStr now)])).
  { rewrite Hh4, Et. apply lookup_alloc. }
  clear Hh4 Et Eav1 Eua1.
  remember (<[cs:=OList (stack ++ [VRef t])]> h4) as h5 eqn:Eh5.
  assert (H5 : forall l o, l ≠ cs -> h4 !! l = Some o -> h5 !! l = Some o).
  { intros l o Hne Hl. rewrite Eh5. by apply lookup_store_ne. }
  assert (H5cs : h5 !! cs = Some (OList (stack ++ [VRef t]))).
  { rewrite Eh5. eapply lookup_store_eq. by apply H4. }
  set (P := fun x : loc =>
              x = cs \/ x = t \/ x = length h \/ x = av1 \/ x = ua1).
  assert (Hlive : forall x, P x -> is_Some (hp (Cfg h5 m) !! x)).
  { intros x Px. simpl. apply lookup_lt_is_Some.
    rewrite Eh5, length_insert, Hlen4. unfold P in Px. lia. }
  assert (Hg : guarded P (Cfg h5 m)).
  { intros a Ha Pa. simpl in *. rewrite Had in Ha. injection Ha as <-.
    unfold P in Pa.
    assert (ad = cs) as -> by lia. eauto. }
  destruct (apply_mutations_frame P us _ _ _ Hrun Hlive Hg) as [Hk Hcs2].
  destruct c2 as [h2 m2]. simpl in Hk, Hcs2. rewrite Hcs in Hcs2.
  assert (H2cs : h2 !! cs = Some (OList (stack ++ [VRef t]))).
  { rewrite Hk by (unfold P; tauto). done. }
  assert (H2t : h2 !! t = Some (ODict
            [("state", state m); ("appointment_data", VRef (length h));
             ("available_slots", VRef av1);
             ("selected_slot", selected_slot m);
             ("user_appointments", VRef ua1);
             ("timestamp", VStr now)])).
  { rewrite Hk by (unfold P; tauto). apply H5; [lia|done]. }
  assert (H2ad : h2 !! length h = Some o_ad).
  { rewrite Hk by (unfold P; tauto). apply H5; [lia|done]. }
  assert (H2av : h2 !! av1 = Some o_av).
  { rewrite Hk by (unfold P; tauto). apply H5; [lia|done]. }
  assert (H2ua : h2 !! ua1 = Some o_ua).
  { rewrite Hk by (unfold P; tauto). apply H5; [lia|done]. }
  destruct m2 as [st2 ad2 av2 sel2 cs2 ua2]. simpl in Hcs2. subst cs2.
  eexists. split.
  - unfold restore_context. py_step. py_step.
    rewrite length_app, Nat.add_1_r. simpl.
    py_steps. rewrite Hst. reflexivity.
  - simpl. rewrite Had, Hav, Hua. simpl.
    rewrite Hlad, Hlav, Hlua.
    repeat split; try done.
    + rewrite list_lookup_insert_ne by lia. done.
    + rewrite list_lookup_insert_ne by lia. done.
    + rewrite list_lookup_insert_ne by lia. done.
    + by eapply lookup_store_eq.
Qed.

Lemma save_then_restore_witness :
  exists c1 c2 r c3,
    save_context "2025-11-05T10:00:00" slot_cfg = (c1, Ok tt)
    /\ apply_mutations [TransitionTo (VState OFF_TOPIC);
                        ClearAppointmentData;
                        SetAppointmentData "time" (VStr "16:00")] c1 = (c2, r)
    /\ restore_context c2 = (c3, Ok true)
    /\ state (self c3) = VState COLLECTING_PATIENT_INFO
    /\ target (hp c3) (appointment_data (self c3))
       = target (hp slot_cfg) (appointment_data (self slot_cfg))
    /\ target (hp c3) (available_slots (self c3))
       = target (hp slot_cfg) (available_slots (self slot_cfg))
    /\ selected_slot (self c3) = selected_slot (self slot_cfg)
    /\ target (hp c3) (user_appointments (self c3))
       = target (hp slot_cfg) (user_appointments (self slot_cfg))
    /\ context_stack (self c3) = VRef 2
    /\ hp c3 !! 2 = Some (OList []).
Proof.
  set (us := [TransitionTo (VState OFF_TOPIC); ClearAppointmentData;
              SetAppointmentData "time" (VStr "16:00")]).
  set (c1 := (save_context "2025-11-05T10:00:00" slot_cfg).1).
  set (c2 := (apply_mutations us c1).1).
  set (r := (apply_mutations us c1).2).
  destruct (save_then_restore "2025-11-05T10:00:00" slot_cfg c1 c2 us r
              COLLECTING_PATIENT_INFO 2 []) as (c3 & H);
    [ reflexivity | reflexivity | reflexivity | by eexists | by eexists
    | vm_compute; reflexivity | vm_compute; reflexivity | ].
  exists c1, c2, r, c3.
  split; [vm_compute; reflexivity|]. split; [vm_compute; reflexivity|].
  exact H.
Defined.

(** X7. What [from_dict(to_dict())] returns is not an independent copy: it
    holds the very containers of the original, so a
    [set_appointment_data] through the new machine is read back by
    [get_appointment_data] on the original. *)
Theorem from_dict_shares_containers (c : cfg) (s : ConversationState)
    (a : loc) (kvs : list (string * val)) :
  state (self c) = VState s ->
  appointment_data (self c) = VRef a ->
  hp c !! a = Some (ODict kvs) ->
  exists h1 m',
    (d <- to_dict ;; on_heap (from_dict d)) c = (Cfg h1 (self c), Ok m')
    /\ forall k v, exists h2,
         set_appointment_data k v (Cfg h1 m') = (Cfg h2 m', Ok tt)
         /\ get_appointment_data k (Cfg h2 (self c))
            = (Cfg h2 (self c), Ok v).
Proof.
  destruct c as [h [st ad av sel cs ua]]. simpl. intros -> -> Hl.
  do 2 eexists. split.
  - erewrite bind_ok.
    2:{ unfold to_dict. py_steps. py_prim. }
    apply on_heap_run.
    unfold from_dict, __init__. py_steps.
    rewrite member_named_name. py_steps.
    reflexivity.
  - intros k v. eexists. split.
    + eapply set_appointment_data_run; [reflexivity | solve_lookup].
    + unfold get_appointment_data.
      erewrite bind_ok by reflexivity. cbn [self appointment_data].
      erewrite on_heap_run.
      2:{ eapply get_method_dict. eapply lookup_store_eq. solve_lookup. }
      by rewrite dict_lookup_store.
Qed.

Lemma from_dict_shares_containers_witness :
  exists h1 m',
    (d <- to_dict ;; on_heap (from_dict d)) initial_cfg
    = (Cfg h1 (self initial_cfg), Ok m')
    /\ forall k v, exists h2,
         set_appointment_data k v (Cfg h1 m') = (Cfg h2 m', Ok tt)
         /\ get_appointment_data k (Cfg h2 (self initial_cfg))
            = (Cfg h2 (self initial_cfg), Ok v).
Proof.
  apply (from_dict_shares_containers initial_cfg IDLE 0 []); reflexivity.
Defined.

(** ** The invariant of a machine *)

Lemma snapshot_ok_keep (h h' : heap) stack stack' x :
  snapshot_ok h stack x ->
  (forall t es, x = VRef t -> h !! t = Some (ODict es) ->
                h' !! t = Some (ODict es)) ->
  (forall l, is_Some (h !! l) -> is_Some (h' !! l)) ->
  (forall l, is_Some (h !! l) -> VRef l ∉ stack -> VRef l ∉ stack') ->
  snapshot_ok h' stack' x.
Proof.
  intros (t & es & s & ad & av & sel & ua & -> & Ht & Hs & Had & Hlad & Hnad
          & Hav & Hsel & Hua) Hdict Hsome Hnot.
  exists t, es, s, ad, av, sel, ua. repeat split; eauto.
Qed.

Lemma snapshot_ok_ref (h : heap) stack x :
  snapshot_ok h stack x -> exists t es, x = VRef t /\ h !! t = Some (ODict es).
Proof. intros (t & es & ? & ? & ? & ? & ? & -> & Ht & _). eauto. Qed.

(** The invariant survives a change of the store that keeps the stack,
    the snapshots and the liveness of every reference. *)
Lemma machine_inv_frame (h h' : heap) (m m' : machine) :
  machine_inv (Cfg h m) ->
  (forall l xs, h !! l = Some (OList xs) -> h' !! l = Some (OList xs)) ->
  (forall l es, appointment_data m ≠ VRef l ->
                h !! l = Some (ODict es) -> h' !! l = Some (ODict es)) ->
  (forall l, is_Some (h !! l) -> is_Some (h' !! l)) ->
  context_stack m' = context_stack m ->
  (exists s, state m' = VState s) ->
  (appointment_data m' = appointment_data m
   \/ exists a, appointment_data m' = VRef a /\ h !! a = None
                /\ is_Some (h' !! a)) ->
  machine_inv (Cfg h' m').
Proof.
  intros [_ (cs & stack & a & Hcs & Hlcs & Hall & Ha & Hla & Hna)]
         Hlist Hdict Hsome Hcs' Hst' Hdata.
  split; [done|]. simpl in *.
  assert (Hall' : Forall (snapshot_ok h' stack) stack).
  { rewrite Forall_forall in Hall. apply Forall_forall. intros x Hx.
    eapply snapshot_ok_keep; [by apply Hall| |done|done].
    intros t es -> Ht. apply Hdict; [|done].
    rewrite Ha. intros [= ->]. done. }
  destruct Hdata as [Hsame|(a' & Ha' & Hfresh & Hlive)].
  - exists cs, stack, a. rewrite Hcs', Hsame. repeat split; eauto.
  - exists cs, stack, a'. rewrite Hcs'. repeat split; eauto.
    intros Hin. rewrite Forall_forall in Hall.
    destruct (snapshot_ok_ref _ _ _ (Hall _ Hin)) as (t & es & [= <-] & Ht).
    congruence.
Qed.

Lemma machine_inv_new h h' m : __init__ h = (h', Ok m) -> machine_inv (Cfg h' m).
Proof.
  intros H. injection H as <- <-. split; [by eexists|].
  eexists _, [], _. simpl. repeat split.
  - solve_lookup.
  - constructor.
  - eexists. solve_lookup.
  - apply not_elem_of_nil.
Qed.

Lemma machine_inv_mutation u c c' r :
  machine_inv c -> apply_mutation u c = (c', r) -> machine_inv c'.
Proof.
  destruct c as [h m]. intros Hinv Hrun.
  pose proof Hinv as [[s Hst] _]. simpl in Hst.
  destruct u; simpl in Hrun.
  - (* set_appointment_data *)
    unfold set_appointment_data in Hrun.
    erewrite bind_ok in Hrun by reflexivity. cbn [self] in Hrun.
    apply on_heap_inv in Hrun as (h' & Hrun & ->). simpl in *.
    apply setitem_frame in Hrun as [Hlen Hfr].
    eapply machine_inv_frame; eauto.
    + intros l xs Hl. rewrite Hfr; eauto.
    + intros l es Hne Hl. rewrite Hfr; eauto.
    + intros l Hl. apply lookup_lt_is_Some. rewrite Hlen.
      by apply lookup_lt_is_Some.
  - (* clear_appointment_data *)
    rewrite clear_appointment_data_run in Hrun. injection Hrun as <- _.
    eapply machine_inv_frame; eauto.
    + intros l xs Hl. solve_lookup.
    + intros l es _ Hl. solve_lookup.
    + intros l [o Hl]. eexists. solve_lookup.
    + right. eexists. split; [reflexivity|]. split.
      * by apply lookup_ge_None.
      * eexists. solve_lookup.
  - injection Hrun as <- _. eapply machine_inv_frame; eauto.
  - injection Hrun as <- _. eapply machine_inv_frame; eauto.
  - injection Hrun as <- _. eapply machine_inv_frame; eauto.
  - (* transition_to *)
    unfold transition_to in Hrun.
    erewrite bind_ok in Hrun by reflexivity. cbn [self] in Hrun.
    rewrite Hst in Hrun. simpl in Hrun.
    destruct new_state; simpl in Hrun; injection Hrun as <- _;
      eapply machine_inv_frame; eauto.
Qed.

Lemma machine_inv_save now c c' r :
  machine_inv c -> save_context now c = (c', r) -> machine_inv c'.
Proof.
  intros Hinv Hrun. destruct r as [[]|e].
  2:{ apply save_context_raise in Hrun as [ext ->]. destruct c as [h m].
      pose proof Hinv as [Hst _].
      eapply machine_inv_frame; eauto.
      - intros l xs Hl. by apply lookup_app_l_Some.
      - intros l es _ Hl. by apply lookup_app_l_Some.
      - intros l [o Hl]. exists o. by apply lookup_app_l_Some. }
  apply save_context_shape in Hrun
    as (ad & av & ua & cs' & o_ad & o_av & o_ua & stack0 & h4 &
        Had & Hlad & Hav & Hlav & Hua & Hlua & Hcs' & Hh4 & Hlcs' & ->).
  destruct c as [h m].
  destruct Hinv as [[s Hst] (cs & stack & a & Hcs & Hlcs & Hall & Ha & Hla & Hna)].
  simpl in *.
  rewrite Hcs in Hcs'. injection Hcs' as <-.
  rewrite Had in Ha. injection Ha as <-.
  assert (H4 : forall l o, h !! l = Some o -> h4 !! l = Some o).
  { intros l o Hl. rewrite Hh4. solve_lookup. }
  rewrite (H4 _ _ Hlcs) in Hlcs'. injection Hlcs' as <-.
  remember (length (((h ++ [o_ad]) ++ [o_av]) ++ [o_ua])) as t eqn:Et.
  assert (Bt : t = length h + 3) by (rewrite Et, !length_app; simpl; lia).
  assert (Hlen4 : length h4 = length h + 4).
  { rewrite Hh4, !length_app. simpl. lia. }
  pose proof (lookup_lt_Some _ _ _ Hlcs) as Bcs.
  pose proof (lookup_lt_Some _ _ _ Hlad) as Bad.
  set (h5 := <[cs:=OList (stack ++ [VRef t])]> h4).
  assert (H5 : forall l o, l ≠ cs -> h4 !! l = Some o -> h5 !! l = Some o).
  { intros l o Hne Hl. unfold h5. by apply lookup_store_ne. }
  assert (Hsome : forall l, is_Some (h !! l) -> is_Some (h5 !! l)).
  { intros l Hl. apply lookup_lt_is_Some. unfold h5.
    rewrite length_insert, Hlen4. apply lookup_lt_is_Some in Hl. lia. }
  assert (Hfresh : forall l, is_Some (h !! l) -> VRef l ∉ stack ->
                             VRef l ∉ stack ++ [VRef t]).
  { intros l Hl Hn Hin. apply elem_of_app in Hin as [Hin|Hin]; [done|].
    apply list_elem_of_singleton in Hin. injection Hin as ->.
    apply lookup_lt_is_Some in Hl. lia. }
  split; [by eexists|].
  exists cs, (stack ++ [VRef t]), ad. simpl.
  split; [done|]. split; [by eapply lookup_store_eq, H4|].
  split; [|split; [done|split; [by apply Hsome|by apply Hfresh]]].
  apply Forall_app. split.
  - rewrite Forall_forall in Hall. apply Forall_forall. intros x Hx.
    eapply snapshot_ok_keep; [by apply Hall| |done|done].
    intros t' es -> Ht'. apply H5; [congruence|by apply H4].
  - constructor; [|constructor].
    exists t. do 6 eexists.
    split; [reflexivity|]. split.
    { apply H5; [lia|]. rewrite Hh4, Et. apply lookup_alloc. }
    simpl. rewrite Hst. repeat split; try reflexivity.
    + apply lookup_lt_is_Some. unfold h5. rewrite length_insert, Hlen4. lia.
    + intros Hin. apply elem_of_app in Hin as [Hin|Hin].
      * rewrite Forall_forall in Hall.
        destruct (snapshot_ok_ref _ _ _ (Hall _ Hin)) as (t' & es & E & Ht').
        injection E as <-. apply lookup_lt_Some in Ht'. lia.
      * apply list_elem_of_singleton in Hin. injection Hin as Hin. lia.
Qed.

(** On a machine that satisfies the invariant, [restore_context] does not
    raise. *)
Lemma machine_inv_restore c c' r :
  machine_inv c -> restore_context c = (c', r) ->
  machine_inv c' /\ exists b, r = Ok b.
Proof.
  destruct c as [h m].
  intros Hinv Hrun. pose proof Hinv as
    [[s Hst] (cs & stack & a & Hcs & Hlcs & Hall & Ha & Hla & Hna)].
  simpl in *.
  destruct m as [st ad av sel cs0 ua]. simpl in *. subst.
  destruct stack as [|x0 stack0] using rev_ind.
  - unfold restore_context in Hrun.
    erewrite bind_ok in Hrun by reflexivity. cbn [self context_stack] in Hrun.
    erewrite bind_ok in Hrun by py_prim. simpl in Hrun.
    injection Hrun as <- <-. split; [done|by eexists].
  - clear IHstack0.
    apply Forall_app in Hall as [Hall Hx]. apply Forall_cons in Hx as [Hx _].
    destruct Hx as (t & es & s' & ad' & av' & sel' & ua' & -> & Ht & Hs & Had
                    & Hlad & Hnad & Hav & Hsel & Hua).
    assert (Hne : cs ≠ t) by congruence.
    assert (Ht' : <[cs:=OList stack0]> h !! t = Some (ODict es))
      by (by apply lookup_store_ne).
    unfold restore_context in Hrun.
    erewrite bind_ok in Hrun by reflexivity. cbn [self context_stack] in Hrun.
    erewrite bind_ok in Hrun by py_prim. 
    rewrite length_app, Nat.add_1_r in Hrun. cbn [negb Nat.eqb] in Hrun.
    erewrite bind_ok in Hrun by reflexivity. cbn [self context_stack] in Hrun.
    erewrite bind_ok in Hrun by py_prim. cbn [self hp] in Hrun.
    repeat (erewrite bind_ok in Hrun
              by (first [ reflexivity
                        | apply on_heap_run; eapply getitem_dict; eassumption ]);
            cbn [self hp with_state with_appointment_data
                 with_available_slots with_selected_slot
                 with_user_appointments state appointment_data
                 available_slots selected_slot context_stack
                 user_appointments] in Hrun).
    injection Hrun as <- <-. split; [|by eexists].
    split; [by eexists|].
    exists cs, stack0, ad'. simpl.
    split; [done|]. split; [by eapply lookup_store_eq|].
    assert (Hsome : forall l, is_Some (h !! l) ->
                              is_Some (<[cs:=OList stack0]> h !! l)).
    { intros l Hl. apply lookup_lt_is_Some. rewrite length_insert.
      by apply lookup_lt_is_Some. }
    assert (Hsub : forall l, VRef l ∉ stack0 ++ [VRef t] -> VRef l ∉ stack0).
    { intros l Hn Hin. apply Hn. apply elem_of_app. by left. }
    split; [|split; [done|split; [by apply Hsome|by apply Hsub]]].
    rewrite Forall_forall in Hall. apply Forall_forall. intros x Hx.
    eapply snapshot_ok_keep; [by apply Hall| |done|].
    + intros t' es' -> Ht2. apply lookup_store_ne; [congruence|done].
    + intros l _. apply Hsub.
Qed.

Lemma machine_inv_call k c c' r :
  machine_inv c -> run_call k c = (c', r) -> machine_inv c'.
Proof.
  intros Hinv Hrun. destruct k as [u|now|]; simpl in Hrun.
  - by eapply machine_inv_mutation.
  - by eapply machine_inv_save.
  - destruct (restore_context c) as [c1 r1] eqn:E.
    destruct (machine_inv_restore _ _ _ Hinv E) as [Hinv1 [b ->]].
    unfold bind in Hrun. rewrite E in Hrun. by injection Hrun as <- _.
Qed.

Lemma reachable_machine_inv c : reachable c -> machine_inv c.
Proof.
  induction 1 as [h h' m Hnew|c o _ IH|c k c' r _ IH Hrun].
  - by eapply machine_inv_new.
  - destruct c as [h m]. pose proof IH as [Hst _].
    eapply machine_inv_frame; eauto.
    + intros l xs Hl. by apply lookup_app_l_Some.
    + intros l es _ Hl. by apply lookup_app_l_Some.
    + intros l [o' Hl]. exists o'. by apply lookup_app_l_Some.
  - by eapply machine_inv_call.
Qed.

(** X8. The invariant of the class.  A machine built by the constructor
    and then changed only through its methods, in any order, whether the
    calls return or raise, with arguments that are members of
    [ConversationState] or values without a [name] ([None], Booleans,
    integers, strings, dates, dictionaries, lists), always has a member
    of the enumeration as its state and a list as its context stack,
    every element of which is a snapshot pushed by [save_context] with a
    member as its ['state']; and on such a machine [restore_context]
    never raises. *)
Theorem reachable_invariant (c : cfg) :
  reachable c ->
  (exists s, state (self c) = VState s)
  /\ (exists cs stack,
        context_stack (self c) = VRef cs
        /\ hp c !! cs = Some (OList stack)
        /\ Forall (pushed_snapshot (hp c)) stack)
  /\ (exists c' b, restore_context c = (c', Ok b)).
Proof.
  intros Hr. pose proof (reachable_machine_inv c Hr) as Hinv.
  pose proof Hinv as [Hst (cs & stack & a & Hcs & Hlcs & Hall & _)].
  split; [done|]. split.
  - exists cs, stack. repeat split; [done..|].
    eapply Forall_impl; [exact Hall|].
    intros x (t & es & s & ? & ? & ? & ? & -> & Ht & Hs & _).
    exists t, es, s. done.
  - destruct (restore_context c) as [c' r] eqn:E.
    destruct (machine_inv_restore _ _ _ Hinv E) as [_ [b ->]]. eauto.
Qed.

Lemma reachable_invariant_witness :
  let c := (save_context "2025-11-05T10:00:00" initial_cfg).1 in
  (exists s, state (self c) = VState s)
  /\ (exists cs stack,
        context_stack (self c) = VRef cs
        /\ hp c !! cs = Some (OList stack)
        /\ Forall (pushed_snapshot (hp c)) stack)
  /\ (exists c' b, restore_context c = (c', Ok b)).
Proof.
  intros c. apply (reachable_invariant c).
  apply (reachable_call initial_cfg (SaveContext "2025-11-05T10:00:00") c
           (Ok tt)).
  - apply (reachable_new [] _ _ eq_refl).
  - reflexivity.
Defined.

(** * More about the session manager *)

(** The attempt of [get_or_create_session] to restore a session from the
    database: it never raises; it either caches a new instance and
    returns it, or returns nothing and has left the cache alone.  The
    table is never written, and existing instances are kept. *)
Lemma restore_attempt_spec session_id w :
  exists w1 res,
    try_except
      (session_data <- Database.get_session session_id ;;
       match session_data with
       | Some sd =>
           state_machine <- new_instance ;;
           s <- ConversationState_getitem (VStr (sd_state sd)) ;;
           on_instance state_machine (assign with_state (VState s)) ;;;
           on_instance state_machine
             (assign with_appointment_data (sd_appointment_data sd)) ;;;
           on_instance state_machine
             (assign with_context_stack (sd_context_stack sd)) ;;;
           set_sessions (insert session_id state_machine) ;;;
           ret (Some state_machine)
       | None => ret None
       end)
      (fun _ => ret None) w
    = (w1, Ok res)
    /\ table w1 = table w
    /\ enable_persistence w1 = enable_persistence w
    /\ (exists ins, instances w1 = instances w ++ ins)
    /\ match res with
       | Some i => sessions w1 = <[session_id := i]> (sessions w)
                   /\ instances w !! i = None
                   /\ is_Some (instances w1 !! i)
       | None => sessions w1 = sessions w
       end.
Proof.
  destruct (get_session_spec session_id w) as (ext & r & Hget & Hr).
  set (w0 := World (objects w ++ ext) (instances w) (table w) (sessions w)
                   (enable_persistence w)) in *.
  destruct r as [sd|].
  2:{ exists w0, None. split.
      - erewrite try_except_ok; [reflexivity|].
        by erewrite bind_ok by exact Hget.
      - simpl. repeat split; try done. exists []. by rewrite app_nil_r. }
  destruct (new_instance_spec w0) as (h2 & m0 & ? & ? & ? & ? & Hnew & _).
  destruct (member_named (sd_state sd)) as [s|] eqn:Es.
  - set (mk := with_context_stack (sd_context_stack sd)
                 (with_appointment_data (sd_appointment_data sd)
                    (with_state (VState s) m0))).
    exists (World h2 (instances w ++ [mk]) (table w)
                  (<[session_id := length (instances w)]> (sessions w))
                  (enable_persistence w)),
           (Some (length (instances w))).
    split.
    + erewrite try_except_ok; [reflexivity|].
      erewrite bind_ok by exact Hget. cbv beta iota.
      erewrite bind_ok by exact Hnew.
      erewrite bind_ok.
      2:{ unfold ConversationState_getitem. rewrite Es. reflexivity. }
      erewrite bind_ok.
      2:{ apply on_instance_assign. simpl. apply list_lookup_middle. done. }
      erewrite bind_ok.
      2:{ apply on_instance_assign. simpl.
          apply list_lookup_insert_eq. rewrite length_app. simpl. lia. }
      erewrite bind_ok.
      2:{ apply on_instance_assign. simpl.
          apply list_lookup_insert_eq. rewrite !length_insert, length_app.
          simpl. lia. }
      erewrite bind_ok by reflexivity.
      simpl. unfold ret. f_equal. f_equal.
      rewrite !list_insert_insert_eq.
      replace (length (instances w)) with (length (instances w) + 0) at 1
        by lia.
      rewrite insert_app_r. reflexivity.
    + simpl. repeat split; eauto.
      * by apply lookup_ge_None.
      * eexists. by apply list_lookup_middle.
  - exists (World h2 (instances w ++ [m0]) (table w) (sessions w)
                  (enable_persistence w)), None.
    split.
    + erewrite try_except_raise; [reflexivity|].
      erewrite bind_ok by exact Hget. cbv beta iota.
      erewrite bind_ok by exact Hnew.
      erewrite bind_raise; [reflexivity|].
      unfold ConversationState_getitem. by rewrite Es.
    + simpl. repeat split; eauto.
Qed.

Lemma get_or_create_session_outcome (w : world)
    (session_id phone_number : string) :
  exists w' i,
    ConversationManager.get_or_create_session session_id phone_number w
    = (w', Ok i)
    /\ sessions w' !! session_id = Some i
    /\ table w' = table w
    /\ (forall k, k ≠ session_id -> sessions w' !! k = sessions w !! k)
    /\ (forall j m, instances w !! j = Some m -> instances w' !! j = Some m)
    /\ (forall phone_number',
          ConversationManager.get_or_create_session session_id phone_number' w'
          = (w', Ok i)).
Proof.
  destruct (sessions w !! session_id) as [i|] eqn:Hc.
  { exists w, i. split; [by apply get_or_create_session_cached|].
    repeat split; try done. intros p. by apply get_or_create_session_cached. }
  assert (Hmain : exists w' i,
    ConversationManager.get_or_create_session session_id phone_number w
    = (w', Ok i)
    /\ sessions w' = <[session_id := i]> (sessions w)
    /\ table w' = table w
    /\ (forall j m, instances w !! j = Some m -> instances w' !! j = Some m)).
  { unfold ConversationManager.get_or_create_session.
    erewrite bind_ok by reflexivity. rewrite Hc.
    erewrite bind_ok by reflexivity.
    assert (Hattempt : exists w1 res,
      (if enable_persistence w
       then try_except
         (session_data <- Database.get_session session_id ;;
          match session_data with
          | Some sd =>
              state_machine <- new_instance ;;
              s <- ConversationState_getitem (VStr (sd_state sd)) ;;
              on_instance state_machine (assign with_state (VState s)) ;;;
              on_instance state_machine
                (assign with_appointment_data (sd_appointment_data sd)) ;;;
              on_instance state_machine
                (assign with_context_stack (sd_context_stack sd)) ;;;
              set_sessions (insert session_id state_machine) ;;;
              ret (Some state_machine)
          | None => ret None
          end)
         (fun _ => ret None)
       else ret None) w = (w1, Ok res)
      /\ table w1 = table w
      /\ (exists ins, instances w1 = instances w ++ ins)
      /\ match res with
         | Some i => sessions w1 = <[session_id := i]> (sessions w)
         | None => sessions w1 = sessions w
         end).
    { destruct (enable_persistence w).
      - destruct (restore_attempt_spec session_id w)
          as (w1 & res & H & Ht & _ & Hi & Hres).
        exists w1, res. repeat split; try done.
        destruct res; [by destruct Hres|done].
      - exists w, None. repeat split; try done.
        exists []. by rewrite app_nil_r. }
    destruct Hattempt as (w1 & res & Hatt & Ht & [ins Hins] & Hres).
    erewrite bind_ok by exact Hatt.
    destruct res as [i|].
    - exists w1, i. repeat split; try done.
      intros j m Hj. rewrite Hins. by apply lookup_app_l_Some.
    - destruct (new_instance_spec w1)
        as (h' & m & ? & ? & ? & ? & Hnew & _).
      erewrite bind_ok by exact Hnew.
      erewrite bind_ok by reflexivity.
      eexists _, _. split; [reflexivity|]. simpl.
      rewrite Hres. repeat split; try done.
      intros j m' Hj. rewrite Hins.
      apply lookup_app_l_Some. by apply lookup_app_l_Some. }
  destruct Hmain as (w' & i & Hrun & Hs & Ht & Hi).
  assert (Hhit : sessions w' !! session_id = Some i)
    by (rewrite Hs; apply lookup_insert_eq).
  exists w', i. repeat split; try done.
  - intros k Hk. rewrite Hs. by apply lookup_insert_ne.
  - intros p. by apply get_or_create_session_cached.
Qed.

(** X9. [get_or_create_session] never raises, whatever the database
    holds.  It returns an instance that is cached under the key
    afterwards; it never writes the session table, leaves the other keys
    of the cache and all existing instances alone; and a second call, with
    any phone number, returns the same instance and changes nothing. *)
Theorem get_or_create_session_total (w : world)
    (session_id phone_number : string) :
  exists w' i,
    ConversationManager.get_or_create_session session_id phone_number w
    = (w', Ok i)
    /\ sessions w' !! session_id = Some i
    /\ table w' = table w
    /\ (forall k, k ≠ session_id -> sessions w' !! k = sessions w !! k)
    /\ (forall j m, instances w !! j = Some m -> instances w' !! j = Some m)
    /\ (forall phone_number',
          ConversationManager.get_or_create_session session_id phone_number' w'
          = (w', Ok i)).
Proof. apply get_or_create_session_outcome. Qed.

Lemma db_save_session_frame session_id phone_number st ad cs w w1 r :
  Database.save_session session_id phone_number st ad cs w = (w1, r) ->
  exists t',
    w1 = World (objects w) (instances w) t' (sessions w) (enable_persistence w)
    /\ (forall k, k ≠ session_id -> t' !! k = table w !! k)
    /\ ((exists b, r = Ok b)).
Proof.
  unfold Database.save_session. intros H.
  destruct (json_dumps_result ad (objects w)) as [[ja|e] Ha].
  2:{ erewrite try_except_raise in H.
      2:{ erewrite bind_raise; [reflexivity|]. by apply on_objects_dumps. }
      injection H as <- <-. exists (table w). rewrite world_eta. eauto. }
  destruct (json_dumps_result cs (objects w)) as [[jc|e] Hc].
  2:{ erewrite try_except_raise in H.
      2:{ erewrite bind_ok by by apply on_objects_dumps.
          erewrite bind_raise; [reflexivity|]. by apply on_objects_dumps. }
      injection H as <- <-. exists (table w). rewrite world_eta. eauto. }
  erewrite try_except_ok in H.
  2:{ erewrite bind_ok by by apply on_objects_dumps.
      erewrite bind_ok by by apply on_objects_dumps.
      erewrite bind_ok by reflexivity. reflexivity. }
  injection H as <- <-. eexists. split; [reflexivity|]. split; [|eauto].
  intros k Hk. unfold Database.upsert.
  destruct (table w !! session_id); by apply lookup_insert_ne.
Qed.

Lemma save_session_outcome (w : world)
    (session_id phone_number : string) (i : nat) :
  exists t',
    ConversationManager.save_session session_id phone_number i w
    = (World (objects w) (instances w) t' (sessions w) (enable_persistence w),
       Ok tt)
    /\ (forall k, k ≠ session_id -> t' !! k = table w !! k).
Proof.
  unfold ConversationManager.save_session.
  erewrite bind_ok by reflexivity.
  destruct (enable_persistence w) eqn:Hp; simpl.
  2:{ exists (table w). rewrite <- Hp, world_eta. done. }
  rewrite <- Hp.
  destruct (instances w !! i) as [m|] eqn:Hi.
  2:{ exists (table w). split; [|done].
      erewrite try_except_raise.
      2:{ erewrite bind_raise; [reflexivity|].
          unfold on_instance. rewrite Hi. reflexivity. }
      by rewrite world_eta. }
  destruct (state m) eqn:Est.
  all: try (exists (table w); split; [|done];
            erewrite try_except_raise;
            [|erewrite bind_ok by (by apply on_instance_attr);
              rewrite Est; reflexivity];
            by rewrite world_eta).
  destruct (Database.save_session session_id phone_number (name s)
              (appointment_data m) (context_stack m) w) as [w1 r] eqn:Hdb.
  destruct (db_save_session_frame _ _ _ _ _ _ _ _ Hdb)
    as (t' & -> & Hframe & [b ->]).
  exists t'. split; [|done].
  erewrite try_except_ok; [reflexivity|].
  erewrite bind_ok by (by apply on_instance_attr). rewrite Est. simpl.
  erewrite bind_ok by reflexivity.
  erewrite bind_ok by (by apply on_instance_attr).
  erewrite bind_ok by (by apply on_instance_attr).
  erewrite bind_ok by exact Hdb. reflexivity.
Qed.

(** X10. [ConversationManager.save_session] never raises: whatever the
    machine holds, and even for an instance that cannot be encoded, the
    call returns.  It changes nothing in memory (objects, instances and
    cache are as before) and in the session table it can only touch the
    record of its own key. *)
Theorem save_session_never_raises (w : world)
    (session_id phone_number : string) (i : nat) :
  exists t',
    ConversationManager.save_session session_id phone_number i w
    = (World (objects w) (instances w) t' (sessions w) (enable_persistence w),
       Ok tt)
    /\ (forall k, k ≠ session_id -> t' !! k = table w !! k).
Proof. apply save_session_outcome. Qed.

(** A key that is not cached and has no usable record gets a new
    machine. *)
Lemma get_or_create_session_fresh w session_id phone_number :
  sessions w !! session_id = None ->
  (enable_persistence w = false \/ table w !! session_id = None) ->
  exists w' m ad cs,
    ConversationManager.get_or_create_session session_id phone_number w
    = (w', Ok (length (instances w)))
    /\ instances w' = instances w ++ [m]
    /\ sessions w' = <[session_id := length (instances w)]> (sessions w)
    /\ table w' = table w
    /\ state m = VState IDLE
    /\ appointment_data m = VRef ad /\ objects w' !! ad = Some (ODict [])
    /\ context_stack m = VRef cs /\ objects w' !! cs = Some (OList []).
Proof.
  intros Hmiss Hwhy.
  unfold ConversationManager.get_or_create_session.
  erewrite bind_ok by reflexivity. rewrite Hmiss.
  erewrite bind_ok by reflexivity.
  destruct (new_instance_spec w)
    as (h' & m & ad & av & cs & ua & Hnew & Hst & Had & Hlad & _ & _ & _
        & Hcs & Hlcs & _).
  exists (World h' (instances w ++ [m]) (table w)
                (<[session_id := length (instances w)]> (sessions w))
                (enable_persistence w)), m, ad, cs.
  split; [|by repeat split].
  destruct (enable_persistence w) eqn:Hp.
  - destruct Hwhy as [|Hrow]; [done|].
    erewrite bind_ok.
    2:{ erewrite try_except_ok; [reflexivity|].
        unfold Database.get_session.
        erewrite bind_ok.
        2:{ erewrite try_except_ok; [reflexivity|].
            erewrite bind_ok by reflexivity. rewrite Hrow. reflexivity. }
        reflexivity. }
    simpl. erewrite bind_ok by exact Hnew.
    erewrite bind_ok by reflexivity. simpl. by rewrite ?Hp.
  - erewrite bind_ok by reflexivity.
    simpl. erewrite bind_ok by exact Hnew.
    erewrite bind_ok by reflexivity. simpl. by rewrite ?Hp.
Qed.

(** X11. Eviction.  [clear_session] never raises and forgets the session
    in the cache and, with persistence on, in the database; the next
    [get_or_create_session] for the key starts over with a new machine in
    state [IDLE] with an empty [appointment_data] and an empty
    [context_stack], whatever the session held before. *)
Theorem clear_session_then_resolve (w : world)
    (session_id phone_number : string) :
  exists w1 w2 i m ad cs,
    ConversationManager.clear_session session_id w = (w1, Ok tt)
    /\ sessions w1 !! session_id = None
    /\ (enable_persistence w = true -> table w1 !! session_id = None)
    /\ (forall k, k ≠ session_id ->
          sessions w1 !! k = sessions w !! k /\ table w1 !! k = table w !! k)
    /\ ConversationManager.get_or_create_session session_id phone_number w1
       = (w2, Ok i)
    /\ instances w1 !! i = None
    /\ instances w2 !! i = Some m
    /\ state m = VState IDLE
    /\ appointment_data m = VRef ad /\ objects w2 !! ad = Some (ODict [])
    /\ context_stack m = VRef cs /\ objects w2 !! cs = Some (OList []).
Proof.
  set (w1 := World (objects w) (instances w)
                   (if enable_persistence w
                    then delete session_id (table w) else table w)
                   (delete session_id (sessions w)) (enable_persistence w)).
  assert (Hclear : ConversationManager.clear_session session_id w
                   = (w1, Ok tt)).
  { unfold ConversationManager.clear_session, w1.
    erewrite bind_ok by reflexivity. erewrite bind_ok by reflexivity.
    simpl. destruct (enable_persistence w); reflexivity. }
  assert (Hmiss : sessions w1 !! session_id = None) by apply lookup_delete_eq.
  assert (Hwhy : enable_persistence w1 = false
                 \/ table w1 !! session_id = None).
  { simpl. destruct (enable_persistence w); [right|by left].
    apply lookup_delete_eq. }
  destruct (get_or_create_session_fresh w1 session_id phone_number Hmiss Hwhy)
    as (w2 & m & ad & cs & Hrun & Hins & _ & _ & Hst & Had & Hlad & Hcs & Hlcs).
  exists w1, w2, (length (instances w1)), m, ad, cs.
  split; [done|]. split; [done|]. split.
  { intros Hp. simpl. rewrite Hp. apply lookup_delete_eq. }
  split.
  { intros k Hk. simpl. split; [by apply lookup_delete_ne|].
    destruct (enable_persistence w); [by apply lookup_delete_ne|done]. }
  split; [done|]. split; [by apply lookup_ge_None|].
  split; [rewrite Hins; by apply list_lookup_middle|]. done.
Qed.

(** X12. With persistence off the database is neither written nor read:
    [save_session] changes nothing at all, and a cache miss gives a new
    machine in state [IDLE] whatever record the table holds for the
    key. *)
Theorem persistence_disabled (w : world) (session_id phone_number : string)
    (i : nat) :
  enable_persistence w = false ->
  ConversationManager.save_session session_id phone_number i w = (w, Ok tt)
  /\ (sessions w !! session_id = None ->
      exists w' m,
        ConversationManager.get_or_create_session session_id phone_number w
        = (w', Ok (length (instances w)))
        /\ instances w' = instances w ++ [m]
        /\ state m = VState IDLE
        /\ table w' = table w).
Proof.
  intros Hp. split.
  - unfold ConversationManager.save_session.
    erewrite bind_ok by reflexivity. by rewrite Hp.
  - intros Hmiss.
    destruct (get_or_create_session_fresh w session_id phone_number Hmiss)
      as (w' & m & ad & cs & Hrun & Hins & _ & Ht & Hst & _); [by left|].
    eauto 10.
Qed.

Lemma persistence_disabled_witness :
  ConversationManager.save_session "+5511999999999" "+5511999999999" 0
    offline_world = (offline_world, Ok tt)
  /\ (sessions offline_world !! "+5511999999999" = None ->
      exists w' m,
        ConversationManager.get_or_create_session
          "+5511999999999" "+5511999999999" offline_world
        = (w', Ok (length (instances offline_world)))
        /\ instances w' = instances offline_world ++ [m]
        /\ state m = VState IDLE
        /\ table w' = table offline_world).
Proof.
  apply (persistence_disabled offline_world "+5511999999999"
           "+5511999999999" 0).
  reflexivity.
Defined.

(** ** A date through the database *)

Lemma dict_lookup_mapM {V W} (g : V -> option W)
    (kvs : list (string * V)) (pes : list (string * W)) k :
  mapM (fun kv => pair kv.1 <$> g kv.2) kvs = Some pes ->
  dict_lookup k pes = dict_lookup k kvs ≫= g.
Proof.
  intros H. apply mapM_Some_1 in H.
  induction H as [|[k1 v] [k2 w] kvs pes Hr _ IH]; [done|].
  simpl in Hr. destruct (g v) as [w'|] eqn:Eg; simpl in Hr; [|done].
  injection Hr as -> ->. simpl.
  destruct (String.eqb k2 k); [simpl; by rewrite Eg | exact IH].
Qed.

Lemma dict_lookup_fmap {V W} (f : V -> W) (kvs : list (string * V)) k :
  dict_lookup k (map (fun kv => (kv.1, f kv.2)) kvs)
  = f <$> dict_lookup k kvs.
Proof.
  induction kvs as [|[k1 v] kvs IH]; [done|]. simpl.
  destruct (String.eqb k1 k); [done | exact IH].
Qed.

Lemma reify_dict_inv n (h : heap) v pes :
  reify n h v = Some (PDict pes) ->
  exists n' l kvs,
    n = S n' /\ v = VRef l /\ h !! l = Some (ODict kvs)
    /\ mapM (fun kv => pair kv.1 <$> reify n' h kv.2) kvs = Some pes.
Proof.
  destruct v; destruct n as [|n']; simpl; try discriminate.
  destruct (h !! l) as [[kvs|xs]|] eqn:Hl; try discriminate.
  - destruct (mapM _ kvs) as [es|] eqn:E; [|discriminate].
    intros [= <-]. eauto 10.
  - destruct (mapM _ xs); discriminate.
Qed.

Lemma reify_str_inv n (h : heap) v s :
  reify n h v = Some (PStr s) -> v = VStr s.
Proof.
  destruct v; destruct n as [|n']; simpl; try discriminate;
    try (by intros [= ->]).
  destruct (h !! l) as [[kvs|xs]|]; try discriminate.
  - destruct (mapM _ kvs); discriminate.
  - destruct (mapM _ xs); discriminate.
Qed.

Lemma reify_date n (h : heap) d : reify n h (VDate d) = Some (PDate d).
Proof. by destruct n. Qed.

Lemma encode_dict_inv entries j :
  DateTimeEncoder.encode (PDict entries) = Some j ->
  exists fields,
    j = JObj fields
    /\ mapM (fun kv => pair kv.1 <$> DateTimeEncoder.encode kv.2) entries
       = Some fields.
Proof.
  simpl. destruct (mapM _ entries) as [fields|] eqn:E; [|discriminate].
  intros [= <-]. eauto.
Qed.

(** X13. A date does not survive the database as a date.  When the data
    dictionary of a machine holds a [date] under a key and
    [Database.save_session] has written the session, [get_session] gives
    back an [appointment_data] that holds, under that key, the ISO text
    of the date: a [str]. *)
Theorem date_comes_back_as_text (w w1 : world)
    (session_id phone_number st : string) (a : loc)
    (kvs : list (string * val)) (cs : val) (k : string) (d : date) :
  heap_wf (objects w) ->
  objects w !! a = Some (ODict kvs) ->
  dict_lookup k kvs = Some (VDate d) ->
  Database.save_session session_id phone_number st (VRef a) cs w
  = (w1, Ok true) ->
  forall w0 : world,
    table w0 = table w1 ->
    exists w2 sd,
      Database.get_session session_id w0 = (w2, Ok (Some sd))
      /\ sd_state sd = st
      /\ getitem (sd_appointment_data sd) k (objects w2)
         = (objects w2, Ok (VStr (isoformat d))).
Proof.
  intros Hwf Hla Hk Hsave w0 Htable.
  apply db_save_session_inv in Hsave as (ja & jc & Hja & Hjc & Hw1).
  rewrite Hw1 in Htable. simpl in Htable.
  destruct (upsert_lookup session_id phone_number st ja jc (table w))
    as [ph Hrow].
  rewrite <- Htable in Hrow.
  (* the document written for the data *)
  assert (Hdoc : distinct_keys ja /\ exists fields,
            ja = JObj fields /\ dict_lookup k fields = Some (JStr (isoformat d))).
  { unfold json_dumps, value_of in Hja.
    destruct (reify _ (objects w) (VRef a)) as [p|] eqn:Ep; [|done].
    destruct (DateTimeEncoder.encode p) as [j'|] eqn:Ej; [|done].
    injection Hja as ->.
    split.
    { eapply encode_distinct_keys; [|done]. by eapply reify_distinct_keys. }
    simpl in Ep. rewrite Hla in Ep.
    destruct (mapM _ kvs) as [es|] eqn:E; [|done]. injection Ep as <-.
    apply encode_dict_inv in Ej as (fields & -> & Ef).
    exists fields. split; [done|].
    rewrite (dict_lookup_mapM _ _ _ k Ef), (dict_lookup_mapM _ _ _ k E), Hk.
    simpl. by rewrite reify_date. }
  destruct Hdoc as (Hdk & fields & -> & Hkf).
  destruct (json_loads_spec (JObj fields) (objects w0))
    as (ext1 & va & Hla1 & Hdepth & Hva).
  destruct (json_loads_spec jc (objects w0 ++ ext1))
    as (ext2 & vc & Hlc & _ & _).
  pose proof (get_session_text _ _ _ _ _ _ _ _ _ _ Hrow Hla1 Hlc) as Hget.
  eexists _, _. split; [exact Hget|]. split; [done|]. simpl.
  specialize (Hva (S (length ((objects w0 ++ ext1) ++ ext2))) ext2).
  rewrite app_assoc in Hva.
  assert (Hfuel : depth (JObj fields)
                  <= S (length ((objects w0 ++ ext1) ++ ext2))).
  { rewrite !length_app. lia. }
  specialize (Hva Hfuel).
  cbn [decode] in Hva.
  apply reify_dict_inv in Hva as (n' & l & kvs' & _ & -> & Hl' & Hm).
  pose proof (dict_lookup_mapM _ _ _ k Hm) as Hlook.
  apply distinct_keys_obj in Hdk as [Hnd _].
  rewrite dict_of_nodup in Hlook by (by rewrite <- list_fmap_compose).
  rewrite dict_lookup_fmap, Hkf in Hlook. simpl in Hlook.
  destruct (dict_lookup k kvs') as [v|] eqn:Ev; [|done]. simpl in Hlook.
  symmetry in Hlook. apply reify_str_inv in Hlook as ->.
  by eapply getitem_dict.
Qed.

Lemma date_comes_back_as_text_witness :
  let w1 := (ConversationManager.save_session
               "+5511999999999" "+5511999999999" 0 booking_world).1 in
  exists w2 sd,
    Database.get_session "+5511999999999" (restart w1) = (w2, Ok (Some sd))
    /\ sd_state sd = "COLLECTING_PATIENT_INFO"
    /\ getitem (sd_appointment_data sd) "date" (objects w2)
       = (objects w2, Ok (VStr (isoformat (Date 2025 11 15)))).
Proof.
  intros w1.
  apply (date_comes_back_as_text booking_world w1 "+5511999999999"
           "+5511999999999" "COLLECTING_PATIENT_INFO" 0
           [("date", VDate (Date 2025 11 15)); ("time", VStr "09:00")]
           (VRef 2) "date" (Date 2025 11 15)).
  - unfold heap_wf, booking_world. simpl.
    repeat match goal with
           | |- Forall _ (_ :: _) => apply Forall_cons; split
           | |- Forall _ [] => apply Forall_nil
           | |- True => exact I
           | |- NoDup _ => compute_done
           end.
  - reflexivity.
  - reflexivity.
  - vm_compute. reflexivity.
  - reflexivity.
Defined.
(** * One message *)

(** What [ConversationManager.save_session] writes for a machine that
    can be encoded. *)
Lemma save_session_writes (w : world) (session_id phone_number : string)
    (i : nat) (m : machine) (s : ConversationState) (ja jc : json) :
  enable_persistence w = true ->
  instances w !! i = Some m ->
  state m = VState s ->
  json_dumps (appointment_data m) (objects w) = (objects w, Ok ja) ->
  json_dumps (context_stack m) (objects w) = (objects w, Ok jc) ->
  ConversationManager.save_session session_id phone_number i w
  = (World (objects w) (instances w)
           (Database.upsert session_id phone_number (name s) ja jc (table w))
           (sessions w) (enable_persistence w), Ok tt).
Proof.
  intros Hp Hi Hst Hja Hjc. unfold ConversationManager.save_session.
  erewrite bind_ok by reflexivity. rewrite Hp. simpl.
  erewrite try_except_ok; [reflexivity|].
  erewrite bind_ok by (by apply on_instance_attr). rewrite Hst. simpl.
  erewrite bind_ok by reflexivity.
  erewrite bind_ok by (by apply on_instance_attr).
  erewrite bind_ok by (by apply on_instance_attr).
  erewrite bind_ok.
  2:{ unfold Database.save_session. erewrite try_except_ok; [reflexivity|].
      erewrite bind_ok by (by apply on_objects_dumps).
      erewrite bind_ok by (by apply on_objects_dumps).
      erewrite bind_ok by reflexivity. reflexivity. }
  by rewrite Hp.
Qed.

Section Driver_facts.
Variable handle_message : string -> string -> M cfg string.

(** X15. What [handle_incoming_message] does with the outcome of the
    dialogue step.  The step runs on the cached instance of the session.
    When it returns a reply, the session is saved and then the reply is
    returned: with persistence on, if the machine the step leaves has a
    member as its state and data and a context stack that can be
    encoded, the record of the session holds that state's name and the
    two documents; no other record is touched.  When the step raises,
    the exception reaches the caller and nothing is saved: the session
    table is as before, while the changes the step made to the machine
    stay in memory. *)
Theorem handle_incoming_message_outcome (w w1 : world)
    (session_id message_text : string) (i : nat) (m : machine)
    (c' : cfg) (r : result string) :
  ConversationManager.get_or_create_session session_id session_id w
  = (w1, Ok i) ->
  instances w1 !! i = Some m ->
  handle_message message_text session_id (Cfg (objects w1) m) = (c', r) ->
  match r with
  | Ok reply =>
      exists t',
        handle_incoming_message handle_message session_id message_text w
        = (World (hp c') (<[i := self c']> (instances w1)) t' (sessions w1)
                 (enable_persistence w1), Ok reply)
        /\ (forall k, k ≠ session_id -> t' !! k = table w !! k)
        /\ (forall s ja jc,
              enable_persistence w1 = true ->
              state (self c') = VState s ->
              json_dumps (appointment_data (self c')) (hp c')
              = (hp c', Ok ja) ->
              json_dumps (context_stack (self c')) (hp c')
              = (hp c', Ok jc) ->
              exists ph,
                t' !! session_id
                = Some (Row ph (name s) (Text ja) (Text jc)))
  | Raise e =>
      handle_incoming_message handle_message session_id message_text w
      = (World (hp c') (<[i := self c']> (instances w1)) (table w)
               (sessions w1) (enable_persistence w1), Raise e)
  end.
Proof.
  intros Hres Hi Hstep.
  destruct (get_or_create_session_outcome w session_id session_id)
    as (w1' & i' & Hres' & _ & Htable & _).
  rewrite Hres in Hres'. injection Hres' as <- <-.
  assert (Hon : on_instance i (handle_message message_text session_id) w1
                = (World (hp c') (<[i := self c']> (instances w1)) (table w1)
                         (sessions w1) (enable_persistence w1), r)).
  { unfold on_instance. rewrite Hi, Hstep. reflexivity. }
  unfold handle_incoming_message. destruct r as [reply|e].
  - destruct (save_session_outcome
                (World (hp c') (<[i := self c']> (instances w1)) (table w1)
                       (sessions w1) (enable_persistence w1))
                session_id session_id i) as (t' & Hsave & Hframe).
    exists t'. split; [|split].
    + erewrite bind_ok by exact Hres. erewrite bind_ok by exact Hon.
      erewrite bind_ok by exact Hsave. reflexivity.
    + intros k Hk. rewrite (Hframe k Hk). simpl. by rewrite Htable.
    + intros s ja jc Hp Hst Hja Hjc.
      erewrite save_session_writes in Hsave; try done.
      2:{ simpl. apply list_lookup_insert_eq. by eapply lookup_lt_Some. }
      simpl in Hsave. injection Hsave as <-. apply upsert_lookup.
  - erewrite bind_ok by exact Hres.
    erewrite bind_raise; [reflexivity|]. by rewrite <- Htable.
Qed.

End Driver_facts.

Lemma handle_incoming_message_outcome_witness :
  (exists w',
     handle_incoming_message greet "+5511999999999" "Oi" empty_world
     = (w', Ok "Ola!")
     /\ (exists ph,
           table w' !! "+5511999999999"
           = Some (Row ph "GREETING" (Text (JObj [])) (Text (JArr []))))
     /\ forall k, k ≠ "+5511999999999" ->
                  table w' !! k = table empty_world !! k)
  /\ (exists w',
        handle_incoming_message greet_then_fail "+5511999999999" "Oi"
          empty_world = (w', Raise ValueError)
        /\ table w' = table empty_world
        /\ (state <$> instances w' !! 0) = Some (VState GREETING)).
Proof.
  set (res := ConversationManager.get_or_create_session
                "+5511999999999" "+5511999999999" empty_world).
  split.
  - pose proof (handle_incoming_message_outcome greet empty_world res.1
                  "+5511999999999" "Oi" 0
                  (Machine (VState IDLE) (VRef 0) (VRef 1) VNone (VRef 2)
                           (VRef 3))
                  _ (Ok "Ola!") eq_refl eq_refl eq_refl)
      as (t' & H & Hfr & Hrow).
    eexists. split; [exact H|]. split; [|exact Hfr].
    exact (Hrow GREETING (JObj []) (JArr []) eq_refl eq_refl eq_refl
                eq_refl).
  - pose proof (handle_incoming_message_outcome greet_then_fail empty_world
                  res.1 "+5511999999999" "Oi" 0
                  (Machine (VState IDLE) (VRef 0) (VRef 1) VNone (VRef 2)
                           (VRef 3))
                  _ (Raise ValueError) eq_refl eq_refl eq_refl) as H.
    eexists. split; [exact H|]. split; reflexivity.
Defined.
